(** * Quote-corpus utilities (functions.py): a shallow embedding

    The Python module is a set of short pandas routines.  Each routine is
    embedded below under its own name; the third-party pieces it calls
    (pandas, the regular-expression engine, the entity recogniser, the
    sentiment analyser, the file system) are modelled just far enough for
    the routine to run on concrete inputs.

    Conventions:
    - a Python [float] is an IEEE binary64 number ([spec_float] with
      precision 53 and [emax] 1024);
    - a raised exception is the [Err] branch of [result];
    - a [DataFrame] object lives in a store and is handled by reference,
      so that writing a column into the caller's table is visible;
    - a table is its column labels and its rows of cells; a column has no
      type of its own.  Where pandas would look at the type of a column
      (the [.str] accessor) or convert a column to another type (tables put
      end to end, a table built from records), the statements are made for
      columns of strings and for tables of one schema, on which the cells
      are taken over as they are;
    - strings are byte strings, and the texts that are scanned for digits
      are ASCII texts;
    - the chunked reader is given by the lines it meets and by the table it
      makes of the lines of one batch;
    - the optional [timing] flag only reads the clock and prints the
      elapsed time; it is left out. *)

From Stdlib Require Import ZArith Ascii String List Bool Lia.
From Stdlib Require Import Floats.SpecFloat.
From stdpp Require Import gmap strings list fin_maps pretty.

Local Open Scope Z_scope.

(** ** Exceptions *)

Inductive exn :=
| KeyError (key : string)
| IndexError
| ValueError
| TypeError
| AttributeError
| FileNotFoundError (path : string)
| OSError.

Inductive result (A : Type) :=
| Ok (a : A)
| Err (e : exn).
Arguments Ok {A} a.
Arguments Err {A} e.

#[global] Instance result_ret : MRet result := λ A a, Ok a.
#[global] Instance result_bind : MBind result := λ A B k r,
  match r with
  | Ok a => k a
  | Err e => Err e
  end.

(** Apply [f] to every element from left to right; the first exception
    ends the traversal. *)
Fixpoint rmapM {A B} (f : A → result B) (l : list A) : result (list B) :=
  match l with
  | [] => Ok []
  | a :: l' => b ← f a; bs ← rmapM f l'; Ok (b :: bs)
  end.

Fixpoint rfoldM {A B} (f : A → B → result A) (a : A) (l : list B) : result A :=
  match l with
  | [] => Ok a
  | b :: l' => a' ← f a b; rfoldM f a' l'
  end.

(** ** Python floats *)

Module PyFloat.

Definition prec : Z := 53.
Definition emax : Z := 1024.

(** [x <= y], [x >= y], [x < y] and [x == y] on floats: every comparison
    with a NaN is false. *)
Definition le (x y : spec_float) : bool := SFleb x y.
Definition ge (x y : spec_float) : bool :=
  match SFcompare x y with
  | Some (Gt | Eq) => true
  | _ => false
  end.
Definition lt (x y : spec_float) : bool := SFltb x y.
Definition eq (x y : spec_float) : bool := SFeqb x y.

Definition neg (x : spec_float) : spec_float := SFopp x.

(** [int(z)] as a float, rounded to nearest. *)
Definition of_Z (z : Z) : spec_float := binary_normalize prec emax z 0 false.

(** A decimal digit.  The strings here are byte strings, and the digits
    are the ASCII ones: the routines that scan digits are used on ASCII
    texts, where these are all the characters that [\d] and [float] take
    for digits. *)
Definition is_digit (c : ascii) : bool :=
  let n := nat_of_ascii c in (48 <=? n)%nat && (n <=? 57)%nat.

Definition digit_val (c : ascii) : Z := Z.of_nat (nat_of_ascii c) - 48.

Fixpoint all_digits (s : string) : bool :=
  match s with
  | "" => true
  | String c s' => is_digit c && all_digits s'
  end.

(** The integer written by a string of decimal digits. *)
Fixpoint digits_val (acc : Z) (s : string) : Z :=
  match s with
  | "" => acc
  | String c s' => digits_val (10 * acc + digit_val c) s'
  end.

(** The binary64 number nearest to the decimal [int_part.frac_part], ties
    to even.  The quotient of the two exact integers is rounded once. *)
Definition of_decimal (int_part frac_part : string) : spec_float :=
  match digits_val 0 (int_part +:+ frac_part) with
  | Zpos n =>
      SFdiv prec emax
        (S754_finite false n 0)
        (S754_finite false (Z.to_pos (10 ^ Z.of_nat (String.length frac_part))) 0)
  | _ => S754_zero false
  end.

(** Split at the first dot. *)
Fixpoint split_dot (s : string) : string * option string :=
  match s with
  | "" => ("", None)
  | String c s' =>
      if bool_decide (c = "."%char) then ("", Some s')
      else let '(a, b) := split_dot s' in (String c a, b)
  end.

(** [float(s)] on the plain decimals [ddd], [ddd.ddd], [ddd.] and [.ddd]
    (at least one digit); other spellings are outside this fragment. *)
Definition of_string (s : string) : option spec_float :=
  let '(int_part, frac) := split_dot s in
  let frac_part := default "" frac in
  if all_digits int_part && all_digits frac_part
     && negb (bool_decide (int_part +:+ frac_part = ""))
  then Some (of_decimal int_part frac_part)
  else None.

End PyFloat.

(** ** Cells, rows and tables *)

Inductive value :=
| VStr (s : string)
| VInt (z : Z)
| VFloat (f : spec_float).

(** pandas' missing value. *)
Definition NaN : value := VFloat S754_nan.

#[global] Instance spec_float_eq_dec : EqDecision spec_float.
Proof. solve_decision. Defined.
#[global] Instance value_eq_dec : EqDecision value.
Proof. solve_decision. Defined.

(** A table: its column labels in order, and its rows in order.  A row maps
    a column label to its cell; a cell that is not there reads as [NaN]. *)
Record DataFrame := mkDataFrame {
  columns : list string;
  rows : list (gmap string value)
}.

Definition cell (r : gmap string value) (c : string) : value :=
  default NaN (r !! c).

Module pd.

(** [df[c]] *)
Definition getitem (c : string) (d : DataFrame) : result (list value) :=
  if bool_decide (c ∈ columns d)
  then Ok (map (λ r, cell r c) (rows d))
  else Err (KeyError c).

(** [df[c] = vals]: an existing column is overwritten where it stands, a
    new one is appended as the last column. *)
Definition set_column (c : string) (vals : list value) (d : DataFrame)
  : DataFrame :=
  {| columns := if bool_decide (c ∈ columns d)
                then columns d else columns d ++ [c];
     rows := zip_with (λ r v, <[c := v]> r) (rows d) vals |}.

Definition setitem (c : string) (vals : list value) (d : DataFrame)
  : result DataFrame :=
  if (length vals =? length (rows d))%nat
  then Ok (set_column c vals d)
  else Err ValueError.

(** Rows kept by a boolean mask (the rows of [df[mask]]). *)
Fixpoint mask_rows {A} (l : list A) (mask : list bool) : list A :=
  match l, mask with
  | x :: l', b :: mask' =>
      if b then x :: mask_rows l' mask' else mask_rows l' mask'
  | _, _ => []
  end.

(** [df[mask]] *)
Definition getitem_mask (mask : list bool) (d : DataFrame)
  : result DataFrame :=
  if (length mask =? length (rows d))%nat
  then Ok {| columns := columns d; rows := mask_rows (rows d) mask |}
  else Err ValueError.

(** Labels of [l2] that are not yet in [l1], in order of appearance. *)
Fixpoint new_labels (l1 l2 : list string) : list string :=
  match l2 with
  | [] => []
  | c :: l2' =>
      if bool_decide (c ∈ l1) then new_labels l1 l2'
      else c :: new_labels (l1 ++ [c]) l2'
  end.

(** [pd.concat([a, b], axis=0)]: the rows of [a] then those of [b], over
    the union of the columns.  The cells are taken over as they are: this
    is [pd.concat] on tables of one schema, for which it has no column to
    convert to another type. *)
Definition concat (a b : DataFrame) : DataFrame :=
  {| columns := columns a ++ new_labels (columns a) (columns b);
     rows := rows a ++ rows b |}.

(** [series == s] for a string [s]. *)
Definition eq_str (s : string) (v : value) : bool :=
  match v with
  | VStr s' => bool_decide (s' = s)
  | _ => false
  end.

(** Equality of two cells as [drop_duplicates] sees it: two missing values
    are the same, cells of different kinds never are (in a column of one
    type an integer never meets a float). *)
Definition is_nan (f : spec_float) : bool :=
  match f with S754_nan => true | _ => false end.

Definition same_cell (v w : value) : bool :=
  match v, w with
  | VStr a, VStr b => bool_decide (a = b)
  | VInt a, VInt b => (a =? b)%Z
  | VFloat a, VFloat b => PyFloat.eq a b || (is_nan a && is_nan b)
  | _, _ => false
  end.

Definition same_row (cols : list string) (r1 r2 : gmap string value) : bool :=
  forallb (λ c, same_cell (cell r1 c) (cell r2 c)) cols.

(** Rows that are not a repeat of an earlier one ([keep='first']). *)
Fixpoint drop_dups (cols : list string) (seen l : list (gmap string value))
  : list (gmap string value) :=
  match l with
  | [] => []
  | r :: l' =>
      if existsb (same_row cols r) seen
      then drop_dups cols (seen ++ [r]) l'
      else r :: drop_dups cols (seen ++ [r]) l'
  end.

(** [df.drop_duplicates()] *)
Definition drop_duplicates (d : DataFrame) : DataFrame :=
  {| columns := columns d; rows := drop_dups (columns d) [] (rows d) |}.

(** [pd.DataFrame.from_dict(records)] for a list of dicts: the columns are
    the keys in order of first appearance; no record gives no column. *)
Definition from_dict (records : list (list (string * value))) : DataFrame :=
  {| columns := new_labels [] (flat_map (map fst) records);
     rows := map (λ rec, list_to_map rec) records |}.

End pd.

(** ** The object store *)

(** Tables are Python objects: a routine gets a reference and may write
    through it.  A stateful computation takes the state, and hands back its
    outcome with the state it leaves behind, also when it raises. *)
Definition St (S A : Type) : Type := S → result A * S.

#[global] Instance St_ret {S} : MRet (St S) := λ A a h, (Ok a, h).
#[global] Instance St_bind {S} : MBind (St S) := λ A B k m h,
  match m h with
  | (Ok a, h') => k a h'
  | (Err e, h') => (Err e, h')
  end.

Abbreviation M := (St (gmap nat DataFrame)).

Definition raise {S A} (e : exn) : St S A := λ h, (Err e, h).

Definition lift {S A} (r : result A) : St S A := λ h, (r, h).

(** The table behind a reference (references held by a caller are live). *)
Definition load (df : nat) : M DataFrame :=
  λ h, (Ok (default (mkDataFrame [] []) (h !! df)), h).

Definition store (df : nat) (d : DataFrame) : M () :=
  λ h, (Ok (), <[df := d]> h).

(** A new object. *)
Definition alloc (d : DataFrame) : M nat :=
  λ h, let l := fresh (dom h) in (Ok l, <[l := d]> h).

Module df.

Definition getitem (df : nat) (c : string) : M (list value) :=
  d ← load df; lift (pd.getitem c d).

Definition setitem (df : nat) (c : string) (vals : list value) : M () :=
  d ← load df; d' ← lift (pd.setitem c vals d); store df d'.

Definition getitem_mask (df : nat) (mask : list bool) : M nat :=
  d ← load df; d' ← lift (pd.getitem_mask mask d); alloc d'.

(** [df.copy()] *)
Definition copy (df : nat) : M nat :=
  d ← load df; alloc d.

End df.

(** ** Sentiment Scorer and Categorizer *)

Section Sentiment.

(** [sid.polarity_scores(text)['compound']] of the VADER analyser. *)
Variable polarity_compound : string → spec_float.

Definition add_polarity_score_to_df (df : nat) : M nat :=
  df_copy ← df.copy df;
  quotation ← df.getitem df_copy "quotation";
  sentiment ← lift (rmapM (λ q, match q with
                                | VStr s => Ok (VFloat (polarity_compound s))
                                | _ => Err AttributeError
                                end) quotation);
  df.setitem df_copy "sentiment" sentiment;;
  mret df_copy.

End Sentiment.

Definition categorize (neg_treshhold pos_treshhold score : spec_float) : Z :=
  if PyFloat.le score neg_treshhold then -1
  else if PyFloat.ge score pos_treshhold then 1
  else 0.

(** The lambda handed to [apply]: the cell of the 'sentiment' column is a
    number; ordering a string against a float raises. *)
Definition categorize_cell (neg_treshhold pos_treshhold : spec_float)
    (s : value) : result value :=
  match s with
  | VFloat score => Ok (VInt (categorize neg_treshhold pos_treshhold score))
  | VInt z => Ok (VInt (categorize neg_treshhold pos_treshhold (PyFloat.of_Z z)))
  | VStr _ => Err TypeError
  end.

Definition add_sentiment_category (df : nat)
    (neg_treshhold pos_treshhold : spec_float) : M nat :=
  df_copy ← df.copy df;
  sentiment ← df.getitem df_copy "sentiment";
  category ← lift (rmapM (categorize_cell neg_treshhold pos_treshhold) sentiment);
  df.setitem df_copy "sentiment_category" category;;
  mret df_copy.

(** ** Confidence Filter *)

Module re.

(** The longest run of digits at the head of [s] ([[\d]*], greedy). *)
Fixpoint take_digits (s : string) : string :=
  match s with
  | String c s' => if PyFloat.is_digit c then String c (take_digits s') else ""
  | "" => ""
  end.

(** The first match of [[\d][.][\d]*] in [s], scanning from the left. *)
Fixpoint search (s : string) : option string :=
  match s with
  | "" => None
  | String d s' =>
      match s' with
      | String dot s'' =>
          if PyFloat.is_digit d && bool_decide (dot = "."%char)
          then Some (String d (String "." (take_digits s'')))
          else search s'
      | "" => None
      end
  end.

End re.

(** One cell of [.str.extract(...)] on a column of strings: the captured
    group, or a missing value when the pattern is not found (or this cell
    holds no string). *)
Definition str_extract (v : value) : value :=
  match v with
  | VStr s => match re.search s with Some m => VStr m | None => NaN end
  | _ => NaN
  end.

(** One cell of [.astype('float')]. *)
Definition astype_float (v : value) : result value :=
  match v with
  | VStr s => match PyFloat.of_string s with
              | Some f => Ok (VFloat f)
              | None => Err ValueError
              end
  | VInt z => Ok (VFloat (PyFloat.of_Z z))
  | VFloat f => Ok (VFloat f)
  end.

(** One cell of [column >= cutoff]. *)
Definition ge_scalar (cutoff : spec_float) (v : value) : result bool :=
  match v with
  | VFloat f => Ok (PyFloat.ge f cutoff)
  | VInt z => Ok (PyFloat.ge (PyFloat.of_Z z) cutoff)
  | VStr _ => Err TypeError
  end.

Definition high_probability_quotes (df : nat) (cutoff : spec_float) : M nat :=
  probas ← df.getitem df "probas";
  probasE ← lift (rmapM astype_float (map str_extract probas));
  df.setitem df "probasE" probasE;;
  probasE' ← df.getitem df "probasE";
  mask ← lift (rmapM (ge_scalar cutoff) probasE');
  df.getitem_mask df mask.

(** ** Directory Scanner and Speaker Extractor *)

(** The [year] argument is an integer or a string; [str] is Python's
    [str(year)]. *)
Inductive pyobj :=
| PyInt (z : Z)
| PyStr (s : string).

Definition str (o : pyobj) : string :=
  match o with
  | PyInt z => pretty z
  | PyStr s => s
  end.

(** [s.startswith(p)] *)
Fixpoint startswith (s p : string) {struct p} : bool :=
  match p with
  | "" => true
  | String a p' =>
      match s with
      | String b s' => bool_decide (a = b) && startswith s' p'
      | "" => false
      end
  end.

(** [df[df[c] == s]] *)
Definition filter_eq (c s : string) (d : DataFrame) : result DataFrame :=
  col ← pd.getitem c d;
  pd.getitem_mask (map (pd.eq_str s) col) d.

(** [arr[i]] on a numpy array. *)
Definition np_index {A} (arr : list A) (i : nat) : result A :=
  match arr !! i with
  | Some a => Ok a
  | None => Err IndexError
  end.

Section Reading.

(** What the environment answers: [os.listdir(path)], in the order the
    operating system lists the entries, and [pd.read_csv(path)]. *)
Variable os_listdir : string → result (list string).
Variable pd_read_csv : string → result DataFrame.

Definition find_csv_filenames (path_to_dir : string) (year : pyobj)
  : result (list string) :=
  filenames ← os_listdir path_to_dir;
  Ok (List.filter
        (λ filename, startswith filename ("quotes-" +:+ str year +:+ "-"))
        filenames).

Definition get_quotes (speaker : string) (year : pyobj) : result DataFrame :=
  let cd := "Data/" in
  filenames ← find_csv_filenames cd year;
  let file_arr := filenames in
  let N := length filenames in
  first ← np_index file_arr 0;
  df1 ← pd_read_csv (cd +:+ first);
  df_all ← filter_eq "speaker" speaker df1;
  rfoldM (λ df_all i,
            name ← np_index file_arr i;
            let name_2load := cd +:+ name in
            current_df ← pd_read_csv name_2load;
            df_elo_current ← filter_eq "speaker" speaker current_df;
            Ok (pd.concat df_all df_elo_current))
         df_all (seq 1 (N - 1)).

End Reading.

(** ** Chunker *)

(** The batches a chunked reader hands out: [chunk_size] items at a time,
    the last batch holding what is left. *)
Fixpoint chunks_go {A} (fuel chunk_size : nat) (l : list A) : list (list A) :=
  match fuel, l with
  | _, [] => []
  | O, _ => []
  | S fuel', _ => take chunk_size l :: chunks_go fuel' chunk_size (drop chunk_size l)
  end.

Definition chunks {A} (chunk_size : nat) (l : list A) : list (list A) :=
  chunks_go (length l) chunk_size l.

Section Chunker.

Context {bytes : Type}.

(** The lines of the bz2-compressed JSON-lines source as the chunked reader
    meets them, one entry per line: a blank line is [None], and a line on
    which the stream itself fails is an [Err].  [read_json] is the table the
    reader makes of the non-blank lines of one batch, with the conversions
    it applies to their values, or the exception it raises when one of them
    is malformed.  Then [chunk.to_csv(..., index=False)]'s text, and
    [bz2.compress(data, 9)]. *)
Variable read_json_lines : bytes → result (list (result (option string))).
Variable read_json : list string → result DataFrame.
Variable to_csv : DataFrame → bytes.
Variable bz2_compress : bytes → bytes.

(** Files by path (a flat map: the directory 'Data/' is taken to exist). *)
Definition write (path : string) (data : bytes) : St (gmap string bytes) () :=
  λ fs, (Ok (), <[path := data]> fs).

Definition read (path : string) : St (gmap string bytes) bytes :=
  λ fs, match fs !! path with
        | Some data => (Ok data, fs)
        | None => (Err (FileNotFoundError path), fs)
        end.

Definition os_remove (path : string) : St (gmap string bytes) () :=
  λ fs, match fs !! path with
        | Some _ => (Ok (), delete path fs)
        | None => (Err (FileNotFoundError path), fs)
        end.

(** One step of the reader: the lines of the batch are read, the blank
    ones are dropped, and what is left is parsed as one table (no line left
    gives the table the reader makes of nothing). *)
Definition next_chunk (lines : list (result (option string)))
  : result DataFrame :=
  read ← rmapM id lines;
  read_json (omap id read).

(** The body of the loop, for one batch of lines. *)
Definition chunkify_body (outputname : string) (batch_no : Z)
    (lines : list (result (option string)))
  : St (gmap string bytes) () :=
  chunk ← lift (next_chunk lines);
  let output := "Data/" +:+ outputname +:+ "-" +:+ pretty batch_no +:+ ".csv" in
  write output (to_csv chunk);;
  let source_file := output in
  let destination_file := output +:+ ".bz2" in
  data ← read source_file;
  let compressed := bz2_compress data in
  write destination_file compressed;;
  os_remove output.

Fixpoint chunkify_loop (outputname : string) (batch_no : Z)
    (batches : list (list (result (option string))))
  : St (gmap string bytes) () :=
  match batches with
  | [] => mret ()
  | lines :: batches' =>
      chunkify_body outputname batch_no lines;;
      chunkify_loop outputname (batch_no + 1) batches'
  end.

(** The reader rejects a chunk size below 1, then opens the source; the
    source is read as it was when opened, [chunk_size] lines at a time, the
    blank ones counted; a line that cannot be read or parsed raises when its
    batch is reached, after the earlier batches were written. *)
Definition chunkify (filepath : string) (chunk_size : Z) (outputname : string)
  : St (gmap string bytes) () :=
  if (chunk_size <? 1)%Z then raise ValueError
  else
    source ← read filepath;
    lines ← lift (read_json_lines source);
    chunkify_loop outputname 1 (chunks (Z.to_nat chunk_size) lines).

End Chunker.

(** ** Organization Extractor *)

(** An entity of [doc.ents]. *)
Record Entity := mkEntity { text : string; label_ : string }.

(** [df.iloc[i][c]] *)
Definition iloc_item (d : DataFrame) (i : nat) (c : string) : result value :=
  match rows d !! i with
  | None => Err IndexError
  | Some r =>
      if bool_decide (c ∈ columns d) then Ok (cell r c) else Err (KeyError c)
  end.

Section Organizations.

(** [spacy.load(name)]: the pipeline, from a text to its entities. *)
Variable spacy_load : string → result (string → list Entity).

(** The dictionaries appended to [quote_list] for row [i] (the pipeline
    refuses a quotation that is not a text). *)
Definition org_records (spacy_nlp : string → list Entity) (d : DataFrame)
    (i : nat) : result (list (list (string * value))) :=
  quote ← iloc_item d i "quotation";
  match quote with
  | VStr q =>
      let doc := spacy_nlp q in
      rmapM (λ element,
               date ← iloc_item d i "date";
               numOccurrences ← iloc_item d i "numOccurrences";
               quotation ← iloc_item d i "quotation";
               quoteID ← iloc_item d i "quoteID";
               probas ← iloc_item d i "probas";
               Ok [("ORG", VStr (text element));
                   ("date", date);
                   ("numOccurrences", numOccurrences);
                   ("quotation", quotation);
                   ("quoteID", quoteID);
                   ("probas", probas)])
            (List.filter (λ element, bool_decide (label_ element = "ORG")) doc)
  | _ => Err ValueError
  end.

Definition create_org_df (spacy_model : string) (df : nat) : M nat :=
  spacy_nlp ← lift (spacy_load spacy_model);
  d ← load df;
  quote_list ← lift (rmapM (org_records spacy_nlp d)
                           (seq 0 (length (rows d))));
  let org_df := pd.from_dict (List.concat quote_list) in
  let org_df := pd.drop_duplicates org_df in
  alloc org_df.

End Organizations.

(** ** Writer and Yearly Combiner *)

(** [pd.concat(li, axis=0, ignore_index=True)]: the tables end to end (there
    are no row labels here to renumber); nothing to concatenate raises. *)
Definition concat_all (li : list DataFrame) : result DataFrame :=
  match li with
  | [] => Err ValueError
  | d :: li' => Ok (foldl pd.concat d li')
  end.

(** Run [f] on every element from left to right, threading the state; the
    first exception ends the traversal. *)
Fixpoint stmapM {S A B} (f : A → St S B) (l : list A) : St S (list B) :=
  match l with
  | [] => mret []
  | a :: l' => b ← f a; bs ← stmapM f l'; mret (b :: bs)
  end.

Section Files.

Context {bytes : Type}.

(** The bytes [dataFrame.to_csv(path, index=False)] puts at [path] (the CSV
    text, compressed as the extension of [path] tells); the table
    [pd.read_csv(path)] makes of the bytes found at [path]; and
    [glob.glob(pattern)] on the current files, in the order it reports them. *)
Variable to_csv_file : string → DataFrame → bytes.
Variable read_csv_file : string → bytes → result DataFrame.
Variable glob_glob : gmap string bytes → string → list string.

Definition read_csv (path : string) : St (gmap string bytes) DataFrame :=
  data ← read path; lift (read_csv_file path data).


Definition combining_yearly_quotes (speaker : string)
  : St (gmap string bytes) () :=
  let path := "Data/" in
  all_files ← (λ fs, (Ok (glob_glob fs (path +:+ speaker +:+ "*.bz2")), fs));
  li ← stmapM (λ filename, read_csv filename) all_files;
  frame ← lift (concat_all li);
  let out := path +:+ "all-" +:+ speaker +:+ "-quotes.csv.bz2" in
  write out (to_csv_file out frame).

End Files.

(** ** Plotter *)

(** A bar chart: the bars (a group key and its height) and the two axis
    labels. *)
Record BarChart := mkBarChart {
  bars : list (value * nat);
  xlabel : string;
  ylabel : string
}.

Definition is_missing (v : value) : bool :=
  match v with
  | VFloat f => pd.is_nan f
  | _ => false
  end.

Section Plotter.

(** The distinct group keys of a column, one per group, in the ascending
    order in which [groupby] reports them. *)
Variable group_keys : list value → list value.

(** The drawing of a chart: [plot.bar()], the two labels and [plt.show()],
    which the plotting libraries may refuse. *)
Variable draw : BarChart → result ().

(** [df.groupby([c]).size()]: rows with a missing key belong to no group.
    A list of keys that does not name columns and is as long as the table
    (here: one row) is taken for the group labels of the rows themselves. *)
Definition groupby_size (df : nat) (c : string) : M (list (value * nat)) :=
  d ← load df;
  col ← lift (if bool_decide (c ∈ columns d) then pd.getitem c d
              else if (length (rows d) =? 1)%nat then Ok [VStr c]
              else Err (KeyError c));
  let keys := List.filter (λ v, negb (is_missing v)) col in
  mret (map (λ k, (k, length (List.filter (pd.same_cell k) keys)))
            (group_keys keys)).

Definition plot_by_org (df : nat) (organisation : string) : M () :=
  org ← df.getitem df "ORG";
  df ← df.getitem_mask df (map (pd.eq_str organisation) org);
  quotes_per_year ← groupby_size df "year";
  lift (draw {| bars := quotes_per_year;
                xlabel := "Years";
                ylabel := "Number of quotes of Elon Musk about"
                          +:+ organisation |}).

End Plotter.

(** ** Vocabulary of the statements *)

(** [d'] is [d] with column [c] set: appended as the last column when [d]
    has no column of that name, overwritten where it stands otherwise; the
    rows are those of [d], in order, with one cell written each. *)
Definition column_set (c : string) (d d' : DataFrame) : Prop :=
  columns d' = (if bool_decide (c ∈ columns d) then columns d else columns d ++ [c])
  ∧ length (rows d') = length (rows d)
  ∧ ∀ i r, rows d !! i = Some r → ∃ v, rows d' !! i = Some (<[c := v]> r).

(** The float that the Confidence Filter derives from one 'probas' cell. *)
Definition probasE_of (v : value) : spec_float :=
  match astype_float (str_extract v) with
  | Ok (VFloat f) => f
  | _ => S754_nan
  end.

(** The test a row passes to be kept by the Confidence Filter. *)
Definition kept (cutoff : spec_float) (r : gmap string value) : bool :=
  match cell r "probasE" with
  | VFloat f => PyFloat.ge f cutoff
  | _ => false
  end.

(** [s] reads [pre], then a digit [d], a dot, the digits [frac], and goes
    on with something that is not a digit. *)
Definition match_at (s pre : string) (d : ascii) (frac : string) : Prop :=
  ∃ post, s = pre +:+ String d (String "." (frac +:+ post))
          ∧ PyFloat.is_digit d = true
          ∧ PyFloat.all_digits frac = true
          ∧ match post with
            | String c _ => PyFloat.is_digit c = false
            | "" => True
            end.

(** No digit followed by a dot starts within the first [n] characters. *)
Definition no_match_before (s : string) (n : nat) : Prop :=
  ∀ pre a rest,
    s = pre +:+ String a (String "." rest) →
    (String.length pre < n)%nat →
    PyFloat.is_digit a = false.

(** [d.frac] is the first decimal number in [s], taken as far as its digits
    go. *)
Definition first_number (s : string) (d : ascii) (frac : string) : Prop :=
  ∃ pre, match_at s pre d frac ∧ no_match_before s (String.length pre).

(** [s] has no digit followed by a dot. *)
Definition no_number (s : string) : Prop :=
  ∀ pre a rest,
    s = pre +:+ String a (String "." rest) → PyFloat.is_digit a = false.

(** The rows of one table said by [speaker]: the 'speaker' cell is that
    very string. *)
Definition said_by (speaker : string) (d : DataFrame) : list (gmap string value) :=
  List.filter (λ r, bool_decide (cell r "speaker" = VStr speaker)) (rows d).

(** The rows of the chunk file [name] of the data directory. *)
Definition chunk_rows (pd_read_csv : string → result DataFrame) (speaker name : string)
  : list (gmap string value) :=
  match pd_read_csv ("Data/" +:+ name) with
  | Ok d => said_by speaker d
  | Err _ => []
  end.

(** The table a routine returned, if it returned. *)
Definition returned {A} (r : result A) : option A :=
  match r with
  | Ok a => Some a
  | Err _ => None
  end.

(** The least number of batches of [C] rows that hold [R] rows. *)
Definition ceil_div (R C : nat) : nat := (R + C - 1) / C.

(** The path of the compressed chunk of batch [batch_no], and the path of
    the text written on the way. *)
Definition chunk_csv_path (outputname : string) (batch_no : Z) : string :=
  "Data/" +:+ outputname +:+ "-" +:+ pretty batch_no +:+ ".csv".

Definition chunk_path (outputname : string) (batch_no : Z) : string :=
  chunk_csv_path outputname batch_no +:+ ".bz2".

(** The archive written for the table of a batch: its compressed CSV
    text. *)
Definition chunk_archive {bytes} (to_csv : DataFrame → bytes)
    (bz2_compress : bytes → bytes) (chunk : DataFrame) : bytes :=
  bz2_compress (to_csv chunk).

(** The last character of a string. *)
Fixpoint last_char (s : string) : option ascii :=
  match s with
  | "" => None
  | String c "" => Some c
  | String _ s' => last_char s'
  end.

(** The columns of the organization table. *)
Definition org_columns : list string :=
  ["ORG"; "date"; "numOccurrences"; "quotation"; "quoteID"; "probas"].

(** The entities tagged ORG that the pipeline finds in the quotation of a
    row, in the order it reports them. *)
Definition org_mentions (spacy_nlp : string → list Entity)
    (r : gmap string value) : list Entity :=
  match cell r "quotation" with
  | VStr q => List.filter (λ e, bool_decide (label_ e = "ORG")) (spacy_nlp q)
  | _ => []
  end.

(** The dictionary, and the row, of one mention: the surface text of the
    entity and the five fields of the quote it was found in. *)
Definition mention_dict (r : gmap string value) (e : Entity)
  : list (string * value) :=
  [("ORG", VStr (text e));
   ("date", cell r "date");
   ("numOccurrences", cell r "numOccurrences");
   ("quotation", cell r "quotation");
   ("quoteID", cell r "quoteID");
   ("probas", cell r "probas")].

Definition mention_row (r : gmap string value) (e : Entity)
  : gmap string value :=
  list_to_map (mention_dict r e).

(** One row per mention, quote after quote. *)
Definition mention_rows (spacy_nlp : string → list Entity) (d : DataFrame)
  : list (gmap string value) :=
  flat_map (λ r, map (mention_row r) (org_mentions spacy_nlp r)) (rows d).

(** The name in 'Data/' of the archive of batch [batch_no]. *)
Definition chunk_name (outputname : string) (batch_no : Z) : string :=
  outputname +:+ "-" +:+ pretty batch_no +:+ ".csv.bz2".

(** [pd.read_csv(path)] on a file system: the file is there and decodes. *)
Definition read_csv_from {bytes} (read_back : bytes → option DataFrame)
    (fs : gmap string bytes) (path : string) : result DataFrame :=
  match fs !! path with
  | Some data => match read_back data with
                 | Some d => Ok d
                 | None => Err ValueError
                 end
  | None => Err (FileNotFoundError path)
  end.

(** The files of a speaker: the pattern the combiner looks for, the file of
    one year, and the combined file. *)
Definition yearly_pattern (speaker : string) : string :=
  "Data/" +:+ speaker +:+ "*.bz2".


Definition combined_path (speaker : string) : string :=
  "Data/" +:+ "all-" +:+ speaker +:+ "-quotes.csv.bz2".

(** The rows of a table about an organisation. *)
Definition org_rows (organisation : string) (d : DataFrame)
  : list (gmap string value) :=
  List.filter (λ r, pd.eq_str organisation (cell r "ORG")) (rows d).

(** The years of the rows about an organisation, missing ones left out. *)
Definition org_years (organisation : string) (d : DataFrame) : list value :=
  List.filter (λ v, negb (is_missing v))
    (map (λ r, cell r "year")
         (List.filter (λ r, pd.eq_str organisation (cell r "ORG")) (rows d))).

(** The chart of the groups of [keys]: a bar for each group key, as high as
    the group is large. *)
Definition year_chart (group_keys : list value → list value)
    (organisation : string) (keys : list value) : BarChart :=
  {| bars := map (λ k, (k, length (List.filter (pd.same_cell k) keys)))
                 (group_keys keys);
     xlabel := "Years";
     ylabel := "Number of quotes of Elon Musk about" +:+ organisation |}.

(** [ks] holds one key for each group of [keys]: no two of its keys are the
    same, and every key of [keys] is the same as one of them. *)
Fixpoint no_repeat (ks : list value) : bool :=
  match ks with
  | [] => true
  | k :: ks' => negb (existsb (pd.same_cell k) ks') && no_repeat ks'
  end.

Definition one_per_group (ks keys : list value) : bool :=
  no_repeat ks && forallb (λ v, existsb (λ k, pd.same_cell k v) ks) keys.

(** ** Sample data *)

(** The cells of a table, row by row ([df.values.tolist()]). *)
Definition values (d : DataFrame) : list (list value) :=
  map (λ r, map (cell r) (columns d)) (rows d).

(** A decimal literal. *)
Definition float (s : string) : spec_float :=
  default S754_nan (PyFloat.of_string s).

Definition is_float (v : value) : bool :=
  match v with VFloat _ => true | _ => false end.

Definition is_str (v : value) : bool :=
  match v with VStr _ => true | _ => false end.

Definition is_int (v : value) : bool :=
  match v with VInt _ => true | _ => false end.



(** Each column of [cols] has one type of number in the rows [rs]: none
    holds an integer in one row and a float, or nothing, in another. *)
Definition one_number_type (cols : list string) (rs : list (gmap string value))
  : bool :=
  forallb (λ c, negb (existsb (λ r, is_int (cell r c)) rs
                      && existsb (λ r, is_float (cell r c)) rs)) cols.

(** Tables of one schema: the same columns, each with one type of number
    over all the tables. *)
Definition same_schema (tables : list DataFrame) : bool :=
  match tables with
  | [] => true
  | d :: _ =>
      forallb (λ d', bool_decide (columns d' = columns d)) tables
      && one_number_type (columns d) (flat_map rows tables)
  end.

Module Sample.

Definition scores : list spec_float :=
  [PyFloat.neg (float "0.05"); float "0.05"; float "0.0";
   PyFloat.neg (float "0.2"); float "0.2"].

(** Five scored quotes. *)
Definition scored : DataFrame :=
  {| columns := ["quotation"; "sentiment"];
     rows := map (λ s, {[ "quotation" := VStr "q"; "sentiment" := VFloat s ]})
                 scores |}.

(** A table that went through the categorizer once already. *)
Definition categorized : DataFrame :=
  {| columns := ["quotation"; "sentiment"; "sentiment_category"];
     rows := [ {[ "quotation" := VStr "q"; "sentiment" := VFloat (float "0.2");
                  "sentiment_category" := VInt 1 ]} ] |}.

(** A table that went through the scorer once already. *)
Definition rescored : DataFrame :=
  {| columns := ["quotation"; "sentiment"];
     rows := [ {[ "quotation" := VStr "q";
                  "sentiment" := VFloat (float "0.2") ]} ] |}.

(** One quote scored 0.0, for thresholds that are both 0.0. *)
Definition tied : DataFrame :=
  {| columns := ["quotation"; "sentiment"];
     rows := [ {[ "quotation" := VStr "q";
                  "sentiment" := VFloat (float "0.0") ]} ] |}.

Definition vader (q : string) : spec_float := float "0.5".

(** A data directory with two chunks of 2020, one of 2021 and a stray file. *)
Definition listing (path : string) : result (list string) :=
  if bool_decide (path = "Data/")
  then Ok ["quotes-2020-1"; "quotes-2021-1"; "other-2020-1"; "quotes-2020-2"]
  else Err (FileNotFoundError path).

Definition quote (speaker text : string) : gmap string value :=
  {[ "speaker" := VStr speaker; "quotation" := VStr text ]}.

Definition chunk_files (path : string) : result DataFrame :=
  if bool_decide (path = "Data/quotes-2020-1")
  then Ok {| columns := ["speaker"; "quotation"];
             rows := [quote "A" "one"; quote "B" "two"; quote "A" "three"] |}
  else if bool_decide (path = "Data/quotes-2020-2")
  then Ok {| columns := ["speaker"; "quotation"];
             rows := [quote "B" "four"; quote "a" "five"] |}
  else if bool_decide (path = "Data/quotes-2021-1")
  then Ok {| columns := ["speaker"; "quotation"];
             rows := [quote "A" "six"] |}
  else Err (FileNotFoundError path).

(** File contents, kept structured: a text of JSON lines (a blank line is
    [None]), a CSV text, and a bz2 archive of some content. *)
Inductive blob :=
| Json (lines : list (option string))
| Csv (d : DataFrame)
| Bz2 (b : blob).

Definition read_json_lines (b : blob)
  : result (list (result (option string))) :=
  match b with
  | Bz2 (Json lines) => Ok (map Ok lines)
  | _ => Err OSError
  end.

(** A reader for lines that are kept short: a line is the identifier of a
    quote, and its first character the speaker; the line "?" is
    malformed. *)
Definition row_of (line : string) : gmap string value :=
  {[ "quoteID" := VStr line; "speaker" := VStr (String.substring 0 1 line) ]}.

Definition read_json (lines : list string) : result DataFrame :=
  if existsb (λ line, bool_decide (line = "?")) lines then Err ValueError
  else Ok {| columns := match lines with
                        | [] => []
                        | _ => ["quoteID"; "speaker"]
                        end;
             rows := map row_of lines |}.

Definition read_back (b : blob) : option DataFrame :=
  match b with
  | Bz2 (Csv d) => Some d
  | _ => None
  end.

(** Five quotes, one per line. *)
Definition quotebank : list string := ["A1"; "A2"; "B3"; "A4"; "A5"].

Definition disk : gmap string blob :=
  {[ "quotes-2020.json.bz2" := Bz2 (Json (map Some quotebank)) ]}.

(** The tables of its batches of two lines. *)
Definition quotebank_tables : list DataFrame :=
  map (λ batch, {| columns := ["quoteID"; "speaker"];
                   rows := map row_of batch |})
      [["A1"; "A2"]; ["B3"; "A4"]; ["A5"]].

(** A pipeline that finds Tesla twice, a person, and SpaceX. *)
Definition ner (q : string) : list Entity :=
  [mkEntity "Tesla" "ORG"; mkEntity "Tesla" "ORG";
   mkEntity "Elon" "PERSON"; mkEntity "SpaceX" "ORG"].

Definition spacy_load (spacy_model : string) : result (string → list Entity) :=
  if bool_decide (spacy_model = "en_core_web_sm") then Ok ner else Err OSError.

Definition tesla : DataFrame :=
  {| columns := ["quoteID"; "quotation"; "date"; "numOccurrences"; "probas"];
     rows := [ {[ "quoteID" := VStr "2020-01-01-000001";
                  "quotation" := VStr "Tesla Tesla";
                  "date" := VStr "2020-01-01";
                  "numOccurrences" := VInt 3;
                  "probas" := VStr "[['Elon Musk', '0.9']]" ]} ] |}.

(** The same quote listed twice, and a store with both tables. *)
Definition tesla_twice : DataFrame :=
  {| columns := columns tesla; rows := rows tesla ++ rows tesla |}.

Definition tesla_store : gmap nat DataFrame :=
  {[ 0%nat := tesla; 1%nat := tesla_twice ]}.

(** Three attributed quotes; the last 'probas' holds no number. *)
Definition attributed : DataFrame :=
  {| columns := ["quotation"; "probas"];
     rows := [ {[ "quotation" := VStr "a"; "probas" := VStr "[('A', 0.85)]" ]};
               {[ "quotation" := VStr "b"; "probas" := VStr "[('B', 0.5)]" ]};
               {[ "quotation" := VStr "c"; "probas" := VStr "unknown" ]} ] |}.

(** Yearly files of a speaker: written as a bz2 archive of the CSV text, and
    read back from one. *)
Definition to_csv_file (path : string) (d : DataFrame) : blob := Bz2 (Csv d).

Definition read_csv_file (path : string) (b : blob) : result DataFrame :=
  match read_back b with
  | Some d => Ok d
  | None => Err OSError
  end.

Definition y2019 : DataFrame :=
  {| columns := ["speaker"; "quotation"; "probas"];
     rows := [quote "A" "one"] |}.

Definition y2020 : DataFrame :=
  {| columns := ["speaker"; "quotation"; "probas"];
     rows := [quote "A" "two"; quote "A" "three"] |}.

Definition yearly : gmap string blob :=
  {[ "Data/A-quotes-2019.csv.bz2" := Bz2 (Csv y2019);
     "Data/A-quotes-2020.csv.bz2" := Bz2 (Csv y2020);
     "Data/B-quotes-2020.csv.bz2" := Json [] ]}.

(** A glob that reports the two files of "A" (newest first) and the one
    file of "B". *)
Definition glob_glob (fs : gmap string blob) (pattern : string) : list string :=
  if bool_decide (pattern = "Data/A*.bz2")
  then ["Data/A-quotes-2020.csv.bz2"; "Data/A-quotes-2019.csv.bz2"]
  else if bool_decide (pattern = "Data/B*.bz2")
  then ["Data/B-quotes-2020.csv.bz2"]
  else [].

(** An organization table that was given a 'year' column: Tesla in 2019,
    twice in 2020 and once with no year, SpaceX in 2020. *)
Definition mention (org : string) (year : value) : gmap string value :=
  {[ "ORG" := VStr org; "year" := year ]}.

Definition by_year : DataFrame :=
  {| columns := ["ORG"; "year"];
     rows := [mention "Tesla" (VInt 2020); mention "SpaceX" (VInt 2020);
              mention "Tesla" (VInt 2019); mention "Tesla" NaN;
              mention "Tesla" (VInt 2020)] |}.

(** Group keys: the distinct integer years, ascending, then the distinct
    strings. *)
Definition group_keys (keys : list value) : list value :=
  map VInt
      (List.filter (λ y, existsb (pd.same_cell (VInt y)) keys)
                   (map Z.of_nat (seq 2000 30)))
  ++ foldr (λ k acc, if is_str k && negb (existsb (pd.same_cell k) acc)
                     then k :: acc else acc) [] keys.

Definition draw (chart : BarChart) : result () :=
  match bars chart with [] => Err IndexError | _ => Ok () end.

End Sample.

(** * Properties *)

(** ** Outcomes of traversals *)

Lemma rmapM_Forall2 {A B} (f : A → result B) l l' :
  rmapM f l = Ok l' ↔ Forall2 (λ a b, f a = Ok b) l l'.
Proof.
  revert l'. induction l as [|a l IH]; intros l'; simpl.
  - split.
    + intros [= <-]. constructor.
    + intros H. inversion H. reflexivity.
  - split.
    + unfold mbind, result_bind. destruct (f a) as [b|] eqn:Hb; [|discriminate].
      destruct (rmapM f l) as [bs|] eqn:Hbs; [|discriminate].
      intros [= <-]. constructor; [assumption|]. apply IH. reflexivity.
    + intros H. inversion H as [|? b ? bs Hb Hbs]; subst.
      apply IH in Hbs. unfold mbind, result_bind. rewrite Hb, Hbs. reflexivity.
Qed.

Lemma rmapM_length {A B} (f : A → result B) l l' :
  rmapM f l = Ok l' → length l' = length l.
Proof. intros H%rmapM_Forall2. symmetry. eapply Forall2_length, H. Qed.

Lemma rmapM_lookup {A B} (f : A → result B) l l' i a :
  rmapM f l = Ok l' → l !! i = Some a → ∃ b, l' !! i = Some b ∧ f a = Ok b.
Proof.
  intros H%rmapM_Forall2 Ha.
  destruct (Forall2_lookup_l _ _ _ _ _ H Ha) as (b & Hb & Hf). eauto.
Qed.

Lemma rmapM_total {A B} (f : A → result B) l :
  Forall (λ a, ∃ b, f a = Ok b) l → ∃ l', rmapM f l = Ok l'.
Proof.
  induction 1 as [|a l [b Hb] _ [bs Hbs]]; simpl.
  - eauto.
  - exists (b :: bs). unfold mbind, result_bind. rewrite Hb, Hbs. reflexivity.
Qed.

Lemma rmapM_pure {A B} (g : A → B) l : rmapM (λ a, Ok (g a)) l = Ok (map g l).
Proof.
  induction l as [|a l IH]; simpl; [reflexivity|].
  unfold mbind, result_bind in *. rewrite IH. reflexivity.
Qed.

(** ** Order of floats *)

Module PyFloatFacts.
Import PyFloat.

Lemma compare_antisym x y :
  SFcompare y x = CompOpp <$> SFcompare x y.
Proof.
  destruct x as [[]|[]| |[] mx ex], y as [[]|[]| |[] my ey]; simpl; try reflexivity;
    rewrite (Z.compare_antisym ex ey);
    destruct (ex ?= ey)%Z; simpl; try reflexivity;
    change (Pos.compare_cont Eq my mx) with (Pos.compare my mx);
    change (Pos.compare_cont Eq mx my) with (Pos.compare mx my);
    rewrite (Pos.compare_antisym mx my);
    destruct (mx ?= my)%positive; reflexivity.
Qed.

Lemma ge_le x y : ge x y = le y x.
Proof.
  unfold ge, le, SFleb. rewrite (compare_antisym x y).
  destruct (SFcompare x y) as [[]|]; reflexivity.
Qed.

Lemma lt_not_le x y : lt x y = true → le y x = false.
Proof.
  unfold lt, le, SFltb, SFleb. rewrite (compare_antisym x y).
  destruct (SFcompare x y) as [[]|]; simpl; congruence.
Qed.

Lemma lt_not_ge x y : lt x y = true → ge x y = false.
Proof.
  unfold lt, ge, SFltb. destruct (SFcompare x y) as [[]|]; congruence.
Qed.

Lemma le_nan_l x : le S754_nan x = false.
Proof. reflexivity. Qed.

Lemma ge_nan_l x : ge S754_nan x = false.
Proof. reflexivity. Qed.

Lemma ge_nan_r x : ge x S754_nan = false.
Proof. destruct x as [[]|[]| |[] ? ?]; reflexivity. Qed.

Ltac cmp_cases :=
  repeat match goal with
    | H : context [Pos.compare_cont Eq ?p ?q] |- _ =>
        change (Pos.compare_cont Eq p q) with (Pos.compare p q) in H
    | |- context [Pos.compare_cont Eq ?p ?q] =>
        change (Pos.compare_cont Eq p q) with (Pos.compare p q)
    end;
  repeat match goal with
    | H : context [Z.compare ?a ?b] |- _ => destruct (Z.compare_spec a b)
    | |- context [Z.compare ?a ?b] => destruct (Z.compare_spec a b)
    | H : context [Pos.compare ?a ?b] |- _ => destruct (Pos.compare_spec a b)
    | |- context [Pos.compare ?a ?b] => destruct (Pos.compare_spec a b)
    end;
  simpl in *; subst; try discriminate; try reflexivity; try lia.

(** [x < y] and [y <= z] give [x < z]. *)
Lemma lt_le_trans x y z :
  lt x y = true → le y z = true → lt x z = true.
Proof.
  unfold lt, le, SFltb, SFleb.
  destruct x as [[]|[]| |[] mx ex], y as [[]|[]| |[] my ey],
           z as [[]|[]| |[] mz ez];
    simpl; intros Hxy Hyz; try discriminate; try reflexivity; cmp_cases.
Qed.

End PyFloatFacts.

(** ** Tables and the store *)

Lemma set_column_columns c vals d :
  columns (pd.set_column c vals d)
  = if bool_decide (c ∈ columns d) then columns d else columns d ++ [c].
Proof. reflexivity. Qed.

Lemma set_column_length c vals d :
  length vals = length (rows d) →
  length (rows (pd.set_column c vals d)) = length (rows d).
Proof. intros H. simpl. rewrite length_zip_with. lia. Qed.

Lemma set_column_lookup c vals d i r v :
  rows d !! i = Some r → vals !! i = Some v →
  rows (pd.set_column c vals d) !! i = Some (<[c := v]> r).
Proof.
  intros Hr Hv. simpl. rewrite lookup_zip_with, Hr. simpl. rewrite Hv. reflexivity.
Qed.

Lemma cell_insert_eq c v (r : gmap string value) : cell (<[c := v]> r) c = v.
Proof. unfold cell. rewrite lookup_insert_eq. reflexivity. Qed.

Lemma cell_insert_ne c c' v (r : gmap string value) :
  c ≠ c' → cell (<[c := v]> r) c' = cell r c'.
Proof. intros H. unfold cell. rewrite lookup_insert_ne by assumption. reflexivity. Qed.

Lemma getitem_ok c d :
  c ∈ columns d → pd.getitem c d = Ok (map (λ r, cell r c) (rows d)).
Proof. intros H. unfold pd.getitem. rewrite bool_decide_eq_true_2 by assumption. reflexivity. Qed.

Lemma getitem_err c d : c ∉ columns d → pd.getitem c d = Err (KeyError c).
Proof. intros H. unfold pd.getitem. rewrite bool_decide_eq_false_2 by assumption. reflexivity. Qed.

Lemma setitem_ok c vals d :
  length vals = length (rows d) → pd.setitem c vals d = Ok (pd.set_column c vals d).
Proof. intros H. unfold pd.setitem. rewrite H, Nat.eqb_refl. reflexivity. Qed.

Lemma fresh_store_None (h : gmap nat DataFrame) : h !! fresh (dom h) = None.
Proof. apply not_elem_of_dom, is_fresh. Qed.

Lemma fresh_store_ne (h : gmap nat DataFrame) l d : h !! l = Some d → fresh (dom h) ≠ l.
Proof. intros H <-. rewrite fresh_store_None in H. discriminate. Qed.

Ltac run :=
  unfold df.copy, df.getitem, df.setitem, df.getitem_mask, load, store, alloc,
    lift, raise; unfold mbind, mret, St_bind, St_ret; simpl.

(** A routine that copies first writes only to the copy: whatever it does
    next, the table behind the caller's reference stays as it was. *)
Lemma copy_then_setitem_frame h df c (k : list value → result (list value)) c' :
  let m : M nat :=
    df_copy ← df.copy df;
    col ← df.getitem df_copy c;
    vals ← lift (k col);
    df.setitem df_copy c' vals;;
    mret df_copy in
  ∀ l, l ∈ dom h → (m h).2 !! l = h !! l.
Proof.
  intros m l Hl. subst m. run.
  assert (fresh (dom h) ≠ l) as Hne by (intros <-; exact (is_fresh _ Hl)).
  rewrite lookup_insert_eq. simpl.
  destruct (pd.getitem c _) as [col|]; simpl;
    [|by rewrite lookup_insert_ne].
  destruct (k col) as [vals|]; simpl; [|by rewrite lookup_insert_ne].
  destruct (pd.setitem c' vals _); simpl; rewrite ?lookup_insert_ne; done.
Qed.

Lemma copy_then_setitem_run h df d c (k : list value → result (list value)) c' vals :
  h !! df = Some d → c ∈ columns d →
  k (map (λ r, cell r c) (rows d)) = Ok vals →
  length vals = length (rows d) →
  let m : M nat :=
    df_copy ← df.copy df;
    col ← df.getitem df_copy c;
    vals ← lift (k col);
    df.setitem df_copy c' vals;;
    mret df_copy in
  m h = (Ok (fresh (dom h)), <[fresh (dom h) := pd.set_column c' vals d]> h).
Proof.
  intros Hd Hc Hk Hlen m. subst m. run. rewrite Hd. simpl.
  rewrite lookup_insert_eq. simpl. rewrite getitem_ok by assumption. simpl.
  rewrite Hk. simpl. rewrite setitem_ok by assumption. simpl.
  rewrite insert_insert_eq. reflexivity.
Qed.

Lemma copy_then_setitem_inv h df d c (k : list value → result (list value)) c' l h' :
  h !! df = Some d →
  let m : M nat :=
    df_copy ← df.copy df;
    col ← df.getitem df_copy c;
    vals ← lift (k col);
    df.setitem df_copy c' vals;;
    mret df_copy in
  m h = (Ok l, h') →
  l = fresh (dom h) ∧
  ∃ vals, k (map (λ r, cell r c) (rows d)) = Ok vals
          ∧ length vals = length (rows d)
          ∧ h' = <[l := pd.set_column c' vals d]> h.
Proof.
  intros Hd m. subst m. run. rewrite Hd. simpl.
  rewrite lookup_insert_eq. simpl. unfold pd.getitem.
  destruct (bool_decide (c ∈ columns d)); simpl; [|discriminate].
  destruct (k _) as [vals|]; simpl; [|discriminate].
  unfold pd.setitem.
  destruct (length vals =? length (rows d))%nat eqn:Hlen; simpl; [|discriminate].
  intros [= <- <-]. split; [reflexivity|].
  exists vals. apply Nat.eqb_eq in Hlen.
  rewrite insert_insert_eq. auto.
Qed.

Lemma set_column_column_set c vals d :
  length vals = length (rows d) → column_set c d (pd.set_column c vals d).
Proof.
  intros Hlen. split; [reflexivity|]. split; [by apply set_column_length|].
  intros i r Hr.
  destruct (vals !! i) as [v|] eqn:Hv.
  - exists v. by apply set_column_lookup.
  - apply lookup_ge_None in Hv. apply lookup_lt_Some in Hr. lia.
Qed.

(** ** Sentiment Categorizer *)

(** C10: the categorization is a total function of the score and the two
    thresholds, whatever their order: its value is -1, 0 or 1, on a cell
    holding a float it never raises, and a score that is both <= the
    negative threshold and >= the positive one gets -1. *)
Theorem categorize_total_negative_first (neg_treshhold pos_treshhold score : spec_float) :
  (categorize neg_treshhold pos_treshhold score = -1
   ∨ categorize neg_treshhold pos_treshhold score = 0
   ∨ categorize neg_treshhold pos_treshhold score = 1)
  ∧ categorize_cell neg_treshhold pos_treshhold (VFloat score)
    = Ok (VInt (categorize neg_treshhold pos_treshhold score))
  ∧ (PyFloat.le score neg_treshhold = true →
     PyFloat.ge score pos_treshhold = true →
     categorize neg_treshhold pos_treshhold score = -1).
Proof.
  unfold categorize. split; [|split].
  - destruct (PyFloat.le score neg_treshhold); [by left|].
    destruct (PyFloat.ge score pos_treshhold); [by right; right | by right; left].
  - reflexivity.
  - intros -> _. reflexivity.
Qed.

(** Thresholds in the reverse order (0.05 and -0.05): the score 0.0 meets
    both tests and is categorized -1. *)
Lemma categorize_total_negative_first_witness :
  categorize (float "0.05") (PyFloat.neg (float "0.05")) (float "0.0") = -1.
Proof.
  exact (proj2 (proj2 (categorize_total_negative_first
                         (float "0.05") (PyFloat.neg (float "0.05")) (float "0.0")))
           eq_refl eq_refl).
Defined.

Lemma categorize_le neg pos s : PyFloat.le s neg = true → categorize neg pos s = -1.
Proof. unfold categorize. intros ->. reflexivity. Qed.

Lemma categorize_ge neg pos s :
  PyFloat.le s neg = false → PyFloat.ge s pos = true → categorize neg pos s = 1.
Proof. unfold categorize. intros -> ->. reflexivity. Qed.

Lemma categorize_between neg pos s :
  PyFloat.lt neg s = true → PyFloat.lt s pos = true → categorize neg pos s = 0.
Proof.
  intros H1%PyFloatFacts.lt_not_le H2%PyFloatFacts.lt_not_ge.
  unfold categorize. rewrite H1, H2. reflexivity.
Qed.

Lemma categorize_cells_floats neg pos col :
  forallb is_float col = true →
  ∃ cats, rmapM (categorize_cell neg pos) col = Ok cats.
Proof.
  intros H. apply rmapM_total. apply Forall_forall. intros v Hv.
  rewrite forallb_forall in H. apply list_elem_of_In in Hv. specialize (H v Hv).
  destruct v; try discriminate. eexists. reflexivity.
Qed.

Lemma categorize_cases neg pos s :
  PyFloat.le neg pos = true →
  (PyFloat.le s neg = true → categorize neg pos s = -1)
  ∧ (PyFloat.ge s pos = true → PyFloat.lt neg s = true → categorize neg pos s = 1)
  ∧ (PyFloat.lt neg pos = true → PyFloat.ge s pos = true → categorize neg pos s = 1)
  ∧ (PyFloat.lt neg s = true → PyFloat.lt s pos = true → categorize neg pos s = 0).
Proof.
  intros _. repeat split.
  - apply categorize_le.
  - intros Hge Hlt. apply categorize_ge; [|assumption].
    by apply PyFloatFacts.lt_not_le.
  - intros Hlt Hge. apply categorize_ge; [|assumption].
    apply PyFloatFacts.lt_not_le.
    apply (PyFloatFacts.lt_le_trans neg pos s); [assumption|].
    by rewrite <- PyFloatFacts.ge_le.
  - apply categorize_between.
Qed.

(** C1 (amended): on a table with a 'sentiment' column of floats and
    thresholds neg <= pos, add_sentiment_category returns a new table with
    as many rows, whose 'sentiment_category' is -1 for a score <= neg, 1 for
    a score >= pos that is also > neg (every score >= pos when neg < pos),
    and 0 for a score strictly between the thresholds; with thresholds
    -0.05 and 0.05 the scores -0.05, 0.05, 0.0, -0.2, 0.2 get -1, 1, 0, -1, 1. *)
Theorem add_sentiment_category_thresholds
    (h : gmap nat DataFrame) (df : nat) (d : DataFrame)
    (neg_treshhold pos_treshhold : spec_float) :
  h !! df = Some d →
  "sentiment" ∈ columns d →
  forallb (λ r, is_float (cell r "sentiment")) (rows d) = true →
  PyFloat.le neg_treshhold pos_treshhold = true →
  (∃ d', add_sentiment_category df neg_treshhold pos_treshhold h
         = (Ok (fresh (dom h)), <[fresh (dom h) := d']> h)
     ∧ length (rows d') = length (rows d)
     ∧ ∀ i r score,
         rows d !! i = Some r → cell r "sentiment" = VFloat score →
         ∃ r', rows d' !! i = Some r'
           ∧ (PyFloat.le score neg_treshhold = true →
              cell r' "sentiment_category" = VInt (-1))
           ∧ (PyFloat.ge score pos_treshhold = true →
              PyFloat.lt neg_treshhold score = true →
              cell r' "sentiment_category" = VInt 1)
           ∧ (PyFloat.lt neg_treshhold pos_treshhold = true →
              PyFloat.ge score pos_treshhold = true →
              cell r' "sentiment_category" = VInt 1)
           ∧ (PyFloat.lt neg_treshhold score = true →
              PyFloat.lt score pos_treshhold = true →
              cell r' "sentiment_category" = VInt 0))
  ∧ map (categorize (PyFloat.neg (float "0.05")) (float "0.05"))
        [PyFloat.neg (float "0.05"); float "0.05"; float "0.0";
         PyFloat.neg (float "0.2"); float "0.2"]
    = [-1; 1; 0; -1; 1].
Proof.
  intros Hd Hc Hfl Hord. split; [|reflexivity].
  set (col := map (λ r, cell r "sentiment") (rows d)).
  assert (forallb is_float col = true) as Hfl'.
  { subst col. rewrite forallb_forall in *. intros v (r & <- & Hr)%in_map_iff. auto. }
  destruct (categorize_cells_floats neg_treshhold pos_treshhold col Hfl')
    as [cats Hcats].
  assert (length cats = length (rows d)) as Hlen.
  { rewrite (rmapM_length _ _ _ Hcats). subst col. apply length_map. }
  exists (pd.set_column "sentiment_category" cats d). split; [|split].
  - exact (copy_then_setitem_run h df d "sentiment"
             (rmapM (categorize_cell neg_treshhold pos_treshhold))
             "sentiment_category" cats Hd Hc Hcats Hlen).
  - by apply set_column_length.
  - intros i r score Hr Hs.
    assert (col !! i = Some (VFloat score)) as Hcol.
    { subst col. rewrite list_lookup_fmap, Hr. simpl. by rewrite Hs. }
    destruct (rmapM_lookup _ _ _ _ _ Hcats Hcol) as (v & Hv & Hcat).
    simpl in Hcat. injection Hcat as <-.
    eexists. split; [by apply set_column_lookup|].
    rewrite cell_insert_eq.
    destruct (categorize_cases neg_treshhold pos_treshhold score Hord)
      as (H1 & H2 & H3 & H4).
    repeat split; intros; f_equal; auto.
Qed.

(** The five sample scores with thresholds -0.05 and 0.05. *)
Lemma add_sentiment_category_thresholds_witness :
  (∃ d', add_sentiment_category 0 (PyFloat.neg (float "0.05")) (float "0.05")
           {[ 0%nat := Sample.scored ]}
         = (Ok 1%nat, <[1%nat := d']> {[ 0%nat := Sample.scored ]})
     ∧ length (rows d') = 5%nat)
  ∧ map (categorize (PyFloat.neg (float "0.05")) (float "0.05")) Sample.scores
    = [-1; 1; 0; -1; 1].
Proof.
  destruct (add_sentiment_category_thresholds
              {[ 0%nat := Sample.scored ]} 0 Sample.scored
              (PyFloat.neg (float "0.05")) (float "0.05"))
    as [(d' & Hrun & Hlen & _) Hex].
  - reflexivity.
  - apply (bool_decide_unpack _). vm_compute. exact I.
  - vm_compute. reflexivity.
  - vm_compute. reflexivity.
  - split; [|exact Hex]. exists d'. split; [exact Hrun | exact Hlen].
Defined.

(** Against C1 as stated: with both thresholds 0.0 (so neg <= pos) the
    score 0.0 is >= the positive threshold, and its category is -1, not 1. *)
Lemma add_sentiment_category_tie :
  PyFloat.le (float "0.0") (float "0.0") = true
  ∧ PyFloat.ge (float "0.0") (float "0.0") = true
  ∧ categorize (float "0.0") (float "0.0") (float "0.0") ≠ 1
  ∧ ∃ h', add_sentiment_category 0 (float "0.0") (float "0.0")
            {[ 0%nat := Sample.tied ]} = (Ok 1%nat, h')
          ∧ values <$> (h' !! 1%nat)
            = Some [[VStr "q"; VFloat (float "0.0"); VInt (-1)]].
Proof.
  split; [reflexivity|]. split; [reflexivity|]. split; [discriminate|].
  eexists. split; [reflexivity|]. vm_compute. reflexivity.
Qed.

(** ** The sentiment routines work on a copy *)

Lemma polarity_cells_strs (polarity_compound : string → spec_float) col :
  forallb is_str col = true →
  ∃ vals, rmapM (λ q, match q with
                      | VStr s => Ok (VFloat (polarity_compound s))
                      | _ => Err AttributeError
                      end) col = Ok vals.
Proof.
  intros H. apply rmapM_total. apply Forall_forall. intros v Hv%list_elem_of_In.
  rewrite forallb_forall in H. specialize (H v Hv).
  destruct v; try discriminate. eexists. reflexivity.
Qed.

Lemma forallb_cells (p : value → bool) c (l : list (gmap string value)) :
  forallb (λ r, p (cell r c)) l = true →
  forallb p (map (λ r, cell r c) l) = true.
Proof.
  rewrite !forallb_forall. intros H v (r & <- & Hr)%in_map_iff. auto.
Qed.

(** C7 (amended): add_polarity_score_to_df and add_sentiment_category leave
    every table of the caller's store as it was, the input table included;
    what they return is a new table, a copy of the input in which the
    column 'sentiment' (respectively 'sentiment_category') is set: one added
    column when the input has no column of that name, the same columns with
    that one overwritten otherwise.  They return when the column they read
    is there and holds strings (respectively floats). *)
Theorem sentiment_routines_leave_input
    (polarity_compound : string → spec_float)
    (h : gmap nat DataFrame) (df : nat) (d : DataFrame)
    (neg_treshhold pos_treshhold : spec_float) :
  h !! df = Some d →
  ((add_polarity_score_to_df polarity_compound df h).2 !! df = Some d
   ∧ (add_sentiment_category df neg_treshhold pos_treshhold h).2 !! df = Some d)
  ∧ (∀ l, l ∈ dom h →
       (add_polarity_score_to_df polarity_compound df h).2 !! l = h !! l
       ∧ (add_sentiment_category df neg_treshhold pos_treshhold h).2 !! l = h !! l)
  ∧ (∀ df_copy h',
       add_polarity_score_to_df polarity_compound df h = (Ok df_copy, h') →
       (df_copy ∉ dom h)
       ∧ ∃ d', h' !! df_copy = Some d' ∧ column_set "sentiment" d d')
  ∧ (∀ df_copy h',
       add_sentiment_category df neg_treshhold pos_treshhold h = (Ok df_copy, h') →
       (df_copy ∉ dom h)
       ∧ ∃ d', h' !! df_copy = Some d' ∧ column_set "sentiment_category" d d')
  ∧ ("quotation" ∈ columns d →
     forallb (λ r, is_str (cell r "quotation")) (rows d) = true →
     ∃ df_copy h',
       add_polarity_score_to_df polarity_compound df h = (Ok df_copy, h'))
  ∧ ("sentiment" ∈ columns d →
     forallb (λ r, is_float (cell r "sentiment")) (rows d) = true →
     ∃ df_copy h',
       add_sentiment_category df neg_treshhold pos_treshhold h = (Ok df_copy, h')).
Proof.
  intros Hd.
  assert (∀ l, l ∈ dom h →
       (add_polarity_score_to_df polarity_compound df h).2 !! l = h !! l
       ∧ (add_sentiment_category df neg_treshhold pos_treshhold h).2 !! l = h !! l)
    as Hframe.
  { intros l Hl. split.
    - exact (copy_then_setitem_frame h df "quotation" _ "sentiment" l Hl).
    - exact (copy_then_setitem_frame h df "sentiment" _ "sentiment_category" l Hl). }
  assert (df ∈ dom h) as Hdom by (apply elem_of_dom; eauto).
  split; [|split; [exact Hframe|]].
  { destruct (Hframe df Hdom) as [-> ->]. auto. }
  split; [|split; [|split]].
  - intros l h' Hrun.
    destruct (copy_then_setitem_inv h df d "quotation" _ "sentiment" l h' Hd Hrun)
      as (-> & vals & _ & Hlen & ->).
    split; [apply is_fresh|].
    eexists. split; [apply lookup_insert_eq|]. by apply set_column_column_set.
  - intros l h' Hrun.
    destruct (copy_then_setitem_inv h df d "sentiment" _ "sentiment_category"
                l h' Hd Hrun) as (-> & vals & _ & Hlen & ->).
    split; [apply is_fresh|].
    eexists. split; [apply lookup_insert_eq|]. by apply set_column_column_set.
  - intros Hc Hstr%forallb_cells.
    destruct (polarity_cells_strs polarity_compound _ Hstr) as [vals Hvals].
    eexists _, _.
    refine (copy_then_setitem_run h df d "quotation" _ "sentiment" vals Hd Hc Hvals _).
    rewrite (rmapM_length _ _ _ Hvals). apply length_map.
  - intros Hc Hfl%forallb_cells.
    destruct (categorize_cells_floats neg_treshhold pos_treshhold _ Hfl)
      as [vals Hvals].
    eexists _, _.
    refine (copy_then_setitem_run h df d "sentiment" _ "sentiment_category"
              vals Hd Hc Hvals _).
    rewrite (rmapM_length _ _ _ Hvals). apply length_map.
Qed.

(** The five scored quotes, categorized with thresholds -0.05 and 0.05: the
    caller's table is as before. *)
Lemma sentiment_routines_leave_input_witness :
  (add_sentiment_category 0 (PyFloat.neg (float "0.05")) (float "0.05")
     {[ 0%nat := Sample.scored ]}).2 !! 0%nat = Some Sample.scored.
Proof.
  exact (proj2 (proj1 (sentiment_routines_leave_input Sample.vader
                         {[ 0%nat := Sample.scored ]} 0 Sample.scored
                         (PyFloat.neg (float "0.05")) (float "0.05") eq_refl))).
Defined.

(** Against C7 as stated: a table that already has the column comes back
    with the same columns, none added; the cell of that column is written
    anew in the copy (category 1 becomes 0, score 0.2 becomes 0.5). *)
Lemma sentiment_routines_overwrite :
  (∃ h', add_sentiment_category 0 (PyFloat.neg (float "0.5")) (float "0.5")
           {[ 0%nat := Sample.categorized ]} = (Ok 1%nat, h')
         ∧ columns <$> (h' !! 1%nat) = Some (columns Sample.categorized)
         ∧ values Sample.categorized
           = [[VStr "q"; VFloat (float "0.2"); VInt 1]]
         ∧ values <$> (h' !! 1%nat)
           = Some [[VStr "q"; VFloat (float "0.2"); VInt 0]])
  ∧ (∃ h', add_polarity_score_to_df Sample.vader 0
             {[ 0%nat := Sample.rescored ]} = (Ok 1%nat, h')
           ∧ columns <$> (h' !! 1%nat) = Some (columns Sample.rescored)
           ∧ values <$> (h' !! 1%nat)
             = Some [[VStr "q"; VFloat (float "0.5")]]).
Proof.
  split.
  - eexists. split; [reflexivity|]. repeat split; vm_compute; reflexivity.
  - eexists. split; [reflexivity|]. repeat split; vm_compute; reflexivity.
Qed.

(** ** Confidence Filter *)

Lemma take_digits_split s :
  ∃ post, s = re.take_digits s +:+ post
          ∧ PyFloat.all_digits (re.take_digits s) = true
          ∧ match post with
            | String c _ => PyFloat.is_digit c = false
            | "" => True
            end.
Proof.
  induction s as [|c s (post & Hs & Hall & Hpost)]; simpl.
  - exists "". auto.
  - destruct (PyFloat.is_digit c) eqn:Hc.
    + exists post. split; [|split].
      * change (String c s = String c (re.take_digits s +:+ post)). by f_equal.
      * simpl. by rewrite Hc.
      * assumption.
    + exists (String c s). simpl. auto.
Qed.

Lemma digit_not_dot a : PyFloat.is_digit a = true → a ≠ "."%char.
Proof. intros H ->. discriminate. Qed.

Lemma app_nil_split pre a b rest :
  pre +:+ String a (String b rest) ≠ "".
Proof. destruct pre; discriminate. Qed.

Lemma app_one_split pre a b rest c :
  pre +:+ String a (String b rest) ≠ String c "".
Proof. destruct pre as [|? [|]]; discriminate. Qed.

Lemma no_match_before_cons d s n :
  (∀ rest, s = String "." rest → PyFloat.is_digit d = false) →
  no_match_before s n → no_match_before (String d s) (S n).
Proof.
  intros Hhead Hs [|c pre] a rest Heq Hlen.
  - injection Heq as <- Heq. eauto.
  - injection Heq as <- Heq. eapply Hs; [eassumption|]. simpl in Hlen. lia.
Qed.

Lemma no_number_cons d s :
  (∀ rest, s = String "." rest → PyFloat.is_digit d = false) →
  no_number s → no_number (String d s).
Proof.
  intros Hhead Hs [|c pre] a rest Heq.
  - injection Heq as <- Heq. eauto.
  - injection Heq as <- Heq. eapply Hs; eassumption.
Qed.

(** The scan finds the first number, or there is none. *)
Lemma search_spec s :
  match re.search s with
  | Some m => ∃ d frac, m = String d (String "." frac) ∧ first_number s d frac
  | None => no_number s
  end.
Proof.
  induction s as [|d s IH].
  - intros pre a rest H. symmetry in H. by apply app_nil_split in H.
  - cbn [re.search]. destruct s as [|dot s''].
    + intros pre a rest H. symmetry in H. by apply app_one_split in H.
    + destruct (PyFloat.is_digit d && bool_decide (dot = "."%char)) eqn:Hhead.
      * apply andb_true_iff in Hhead as [Hd Hdot].
        apply bool_decide_eq_true in Hdot as ->.
        destruct (take_digits_split s'') as (post & Hs & Hall & Hpost).
        exists d, (re.take_digits s''). split; [reflexivity|].
        exists "". split.
        -- exists post. split; [|by auto].
           change (String d (String "." s'')
                   = String d (String "." (re.take_digits s'' +:+ post))).
           by rewrite <- Hs.
        -- intros pre a rest _ Hlen. simpl in Hlen. lia.
      * assert (∀ rest, String dot s'' = String "." rest →
                        PyFloat.is_digit d = false) as Hno.
        { intros rest [= -> _]. apply andb_false_iff in Hhead as [?|Hf]; [done|].
          by apply bool_decide_eq_false in Hf. }
        destruct (re.search (String dot s'')) as [m|].
        -- destruct IH as (d' & frac & -> & pre & (post & Hs & Hm) & Hbefore).
           exists d', frac. split; [reflexivity|].
           exists (String d pre). split.
           ++ exists post. split; [|exact Hm].
              change (String d (String dot s'')
                      = String d (pre +:+ String d' (String "." (frac +:+ post)))).
              by rewrite <- Hs.
           ++ by apply no_match_before_cons.
        -- by apply no_number_cons.
Qed.

Lemma split_dot_digits a frac :
  PyFloat.is_digit a = true →
  PyFloat.split_dot (String a (String "." frac)) = (String a "", Some frac).
Proof.
  intros Ha. simpl.
  rewrite bool_decide_eq_false_2 by by apply digit_not_dot.
  reflexivity.
Qed.

(** What is captured always reads as a float. *)
Lemma of_string_match a frac :
  PyFloat.is_digit a = true → PyFloat.all_digits frac = true →
  PyFloat.of_string (String a (String "." frac))
  = Some (PyFloat.of_decimal (String a "") frac).
Proof.
  intros Ha Hfrac. unfold PyFloat.of_string.
  rewrite split_dot_digits by assumption. simpl.
  rewrite Ha, Hfrac. reflexivity.
Qed.

Lemma probasE_of_spec s :
  (∃ d frac, first_number s d frac
             ∧ str_extract (VStr s) = VStr (String d (String "." frac))
             ∧ probasE_of (VStr s) = PyFloat.of_decimal (String d "") frac)
  ∨ (no_number s ∧ str_extract (VStr s) = NaN ∧ probasE_of (VStr s) = S754_nan).
Proof.
  unfold probasE_of, str_extract. pose proof (search_spec s) as H.
  destruct (re.search s) as [m|].
  - left. destruct H as (d & frac & -> & Hfirst). exists d, frac.
    destruct Hfirst as (pre & (post & Hs & Hd & Hfrac & Hpost) & Hbefore) eqn:E.
    clear E. unfold astype_float. rewrite of_string_match by assumption.
    repeat split. exists pre. split; [|assumption]. exists post. auto.
  - right. auto.
Qed.

Lemma astype_extract v :
  astype_float (str_extract v) = Ok (VFloat (probasE_of v)).
Proof.
  destruct v as [s| |]; try reflexivity.
  unfold probasE_of.
  destruct (probasE_of_spec s) as [(d & frac & Hfirst & Hex & _)|(_ & Hex & _)];
    rewrite Hex; [|reflexivity].
  destruct Hfirst as (pre & (post & _ & Hd & Hfrac & _) & _).
  unfold astype_float. rewrite of_string_match by assumption. reflexivity.
Qed.

Lemma rmapM_astype_extract col :
  rmapM astype_float (map str_extract col)
  = Ok (map (λ v, VFloat (probasE_of v)) col).
Proof.
  induction col as [|v col IH]; simpl; [reflexivity|].
  unfold mbind, result_bind in *. rewrite astype_extract, IH. reflexivity.
Qed.

Lemma rmapM_ge_scalar cutoff (fs : list spec_float) :
  rmapM (ge_scalar cutoff) (map VFloat fs)
  = Ok (map (λ f, PyFloat.ge f cutoff) fs).
Proof.
  induction fs as [|f fs IH]; simpl; [reflexivity|].
  unfold mbind, result_bind in *. rewrite IH. reflexivity.
Qed.

Lemma mask_rows_filter {A} (p : A → bool) (l : list A) :
  pd.mask_rows l (map p l) = List.filter p l.
Proof.
  induction l as [|x l IH]; simpl; [reflexivity|].
  rewrite IH. reflexivity.
Qed.

(** Reading back a column that was just written. *)
Lemma set_column_cells c (vals : list value) (l : list (gmap string value)) :
  length vals = length l →
  map (λ r, cell r c) (zip_with (λ r v, <[c := v]> r) l vals) = vals.
Proof.
  revert vals. induction l as [|r l IH]; intros [|v vals] Hlen;
    simpl in *; try discriminate; [reflexivity|].
  rewrite cell_insert_eq, IH by lia. reflexivity.
Qed.

Lemma set_column_has c vals d : c ∈ columns (pd.set_column c vals d).
Proof.
  simpl. destruct (bool_decide (c ∈ columns d)) eqn:H.
  - by apply bool_decide_eq_true in H.
  - apply elem_of_app. right. by apply list_elem_of_singleton.
Qed.

Lemma kept_set_column cutoff (fs : list spec_float) (l : list (gmap string value)) :
  length fs = length l →
  map (kept cutoff) (zip_with (λ r v, <["probasE" := v]> r) l (map VFloat fs))
  = map (λ f, PyFloat.ge f cutoff) fs.
Proof.
  revert fs. induction l as [|r l IH]; intros [|f fs] Hlen;
    simpl in *; try discriminate; [reflexivity|].
  unfold kept at 1. rewrite cell_insert_eq, IH by lia. reflexivity.
Qed.

(** The table the Confidence Filter leaves behind its argument: the input
    with 'probasE' set to the extracted floats. *)
Lemma high_probability_quotes_run h df d cutoff :
  h !! df = Some d → "probas" ∈ columns d →
  let d1 := pd.set_column "probasE"
              (map VFloat (map (λ r, probasE_of (cell r "probas")) (rows d))) d in
  high_probability_quotes df cutoff h
  = (Ok (fresh (dom h)),
     <[fresh (dom h) := {| columns := columns d1;
                           rows := List.filter (kept cutoff) (rows d1) |}]>
       (<[df := d1]> h)).
Proof.
  intros Hd Hc d1.
  set (fs := map (λ r, probasE_of (cell r "probas")) (rows d)) in *.
  assert (length (map VFloat fs) = length (rows d)) as Hlen
    by (subst fs; by rewrite !length_map).
  assert (length fs = length (rows d)) as Hlen'
    by (subst fs; by rewrite length_map).
  unfold high_probability_quotes. run. rewrite Hd. simpl.
  rewrite getitem_ok by assumption. simpl.
  rewrite rmapM_astype_extract. simpl.
  rewrite map_map. rewrite <- (map_map (λ r, probasE_of (cell r "probas")) VFloat).
  fold fs. rewrite setitem_ok by assumption. simpl.
  rewrite lookup_insert_eq. simpl. fold d1.
  rewrite (getitem_ok "probasE" d1) by apply set_column_has. simpl.
  unfold d1 at 1. simpl. rewrite set_column_cells by assumption.
  rewrite rmapM_ge_scalar. simpl.
  unfold pd.getitem_mask.
  assert (length (rows d1) = length (rows d)) as Hrows
    by (by apply set_column_length).
  rewrite length_map, Hlen', <- Hrows, Nat.eqb_refl. simpl.
  rewrite dom_insert_L.
  assert ({[df]} ∪ dom h = dom h) as ->.
  { apply subseteq_union_1_L, singleton_subseteq_l, elem_of_dom. eauto. }
  do 3 f_equal.
  rewrite <- (kept_set_column cutoff fs (rows d)) by assumption.
  apply mask_rows_filter.
Qed.






(** ** Directory Scanner *)

Lemma startswith_spec s p : startswith s p = true ↔ ∃ rest, s = p +:+ rest.
Proof.
  revert s. induction p as [|a p IH]; intros s; simpl.
  - split; [|done]. intros _. by exists s.
  - destruct s as [|b s].
    + split; [done|]. intros [rest H]. discriminate.
    + rewrite andb_true_iff, bool_decide_eq_true, IH. split.
      * intros [-> [rest ->]]. by exists rest.
      * intros [rest H]. injection H as -> ->. eauto.
Qed.

Lemma app_assoc_string (s1 s2 s3 : string) :
  (s1 +:+ s2) +:+ s3 = s1 +:+ (s2 +:+ s3).
Proof.
  induction s1 as [|c s1 IH]; [reflexivity|].
  change (String c ((s1 +:+ s2) +:+ s3) = String c (s1 +:+ (s2 +:+ s3))).
  by rewrite IH.
Qed.

(** C5: whatever the directory lists, find_csv_filenames returns exactly the
    listed names that start with 'quotes-<year>-', in listing order; for
    'quotes-2020-1', 'quotes-2021-1', 'other-2020-1' and year 2020 that is
    ['quotes-2020-1']. *)
Theorem find_csv_filenames_prefix
    (os_listdir : string → result (list string))
    (path_to_dir : string) (year : pyobj) (filenames : list string) :
  os_listdir path_to_dir = Ok filenames →
  (∃ found,
     find_csv_filenames os_listdir path_to_dir year = Ok found
     ∧ (∀ name, name ∈ found ↔
                name ∈ filenames
                ∧ ∃ rest, name = "quotes-" +:+ str year +:+ "-" +:+ rest)
     ∧ found = List.filter
                 (λ name, startswith name ("quotes-" +:+ str year +:+ "-"))
                 filenames
     ∧ sublist found filenames)
  ∧ find_csv_filenames
      (λ _, Ok ["quotes-2020-1"; "quotes-2021-1"; "other-2020-1"])
      path_to_dir (PyInt 2020)
    = Ok ["quotes-2020-1"].
Proof.
  intros Hls. split; [|reflexivity].
  unfold find_csv_filenames, mbind, result_bind. rewrite Hls.
  eexists. split; [reflexivity|]. split; [|split; [reflexivity|]].
  - intros name. rewrite list_elem_of_In, filter_In, <- list_elem_of_In.
    cbv beta. rewrite startswith_spec.
    split; intros [Hin [rest Hrest]]; (split; [assumption|]); exists rest;
      rewrite Hrest; by rewrite !app_assoc_string.
  - clear. generalize ("quotes-" +:+ str year +:+ "-"). intros prefix.
    induction filenames as [|x l IH]; cbn [List.filter]; [constructor|].
    destruct (startswith x prefix); by constructor.
Qed.

(** The sample directory, scanned for 2020 as an integer and as a string. *)
Lemma find_csv_filenames_prefix_witness :
  (∃ found, find_csv_filenames Sample.listing "Data/" (PyInt 2020) = Ok found
            ∧ found = ["quotes-2020-1"; "quotes-2020-2"])
  ∧ find_csv_filenames Sample.listing "Data/" (PyStr "2020")
    = Ok ["quotes-2020-1"; "quotes-2020-2"].
Proof.
  split; [|reflexivity].
  destruct (find_csv_filenames_prefix Sample.listing "Data/" (PyInt 2020)
              ["quotes-2020-1"; "quotes-2021-1"; "other-2020-1"; "quotes-2020-2"]
              eq_refl) as [(found & Hrun & _ & Hfound & _) _].
  exists found. split; [exact Hrun|]. rewrite Hfound. reflexivity.
Defined.

(** ** Speaker Extractor *)

(** C8: when the scan of the data directory returns no file for the year,
    get_quotes raises IndexError at [file_arr[0]], before any file is read;
    no table is returned. *)
Theorem get_quotes_no_files
    (os_listdir : string → result (list string))
    (pd_read_csv : string → result DataFrame)
    (speaker : string) (year : pyobj) :
  find_csv_filenames os_listdir "Data/" year = Ok [] →
  get_quotes os_listdir pd_read_csv speaker year = Err IndexError.
Proof.
  intros H. unfold get_quotes, mbind, result_bind. cbv zeta. rewrite H. reflexivity.
Qed.

(** The sample directory has no chunk of 1999. *)
Lemma get_quotes_no_files_witness :
  get_quotes Sample.listing Sample.chunk_files "A" (PyInt 1999) = Err IndexError.
Proof.
  exact (get_quotes_no_files Sample.listing Sample.chunk_files "A" (PyInt 1999)
           eq_refl).
Defined.

Lemma eq_str_decide s v : pd.eq_str s v = bool_decide (v = VStr s).
Proof.
  destruct v as [s'| |]; cbn [pd.eq_str];
    [|symmetry; by apply bool_decide_eq_false_2..].
  apply bool_decide_ext. split; [by intros ->|by intros [= ->]].
Qed.

Lemma filter_eq_speaker speaker d :
  "speaker" ∈ columns d →
  filter_eq "speaker" speaker d
  = Ok {| columns := columns d; rows := said_by speaker d |}.
Proof.
  intros Hc. unfold filter_eq, mbind, result_bind.
  rewrite getitem_ok by assumption. unfold pd.getitem_mask.
  rewrite !length_map, Nat.eqb_refl. rewrite map_map.
  rewrite (mask_rows_filter (λ r, pd.eq_str speaker (cell r "speaker"))).
  do 2 f_equal. unfold said_by.
  apply filter_ext. intros r. apply eq_str_decide.
Qed.

Lemma said_by_spec speaker d r :
  r ∈ said_by speaker d ↔ r ∈ rows d ∧ cell r "speaker" = VStr speaker.
Proof.
  unfold said_by. rewrite list_elem_of_In, filter_In, <- list_elem_of_In.
  by rewrite bool_decide_eq_true.
Qed.

(** Walking the indices of an array is walking its items. *)
Lemma rfoldM_seq_index {A B} (g : A → B → result A) (l pre : list B) (a : A) :
  rfoldM (λ acc i, x ← np_index (pre ++ l) i; g acc x) a
         (seq (length pre) (length l))
  = rfoldM g a l.
Proof.
  revert pre a. induction l as [|b l IH]; intros pre a; [reflexivity|].
  cbn [length seq rfoldM].
  assert (np_index (pre ++ b :: l) (length pre) = Ok b) as Hb.
  { unfold np_index. by rewrite list_lookup_middle. }
  unfold mbind, result_bind in *. rewrite Hb.
  destruct (g a b) as [a'|]; [|reflexivity].
  specialize (IH (pre ++ [b]) a').
  rewrite length_app, Nat.add_1_r, <- app_assoc in IH. exact IH.
Qed.

Lemma get_quotes_loop pd_read_csv speaker (names : list string) (acc : DataFrame) :
  (∀ name, name ∈ names →
     ∃ d, pd_read_csv ("Data/" +:+ name) = Ok d ∧ "speaker" ∈ columns d) →
  ∃ out,
    rfoldM (λ df_all name,
              current_df ← pd_read_csv ("Data/" +:+ name);
              df_elo_current ← filter_eq "speaker" speaker current_df;
              Ok (pd.concat df_all df_elo_current)) acc names = Ok out
    ∧ rows out = rows acc ++ flat_map (chunk_rows pd_read_csv speaker) names.
Proof.
  unfold mbind, result_bind.
  revert acc. induction names as [|name names IH]; intros acc Hfiles.
  - exists acc. split; [reflexivity|]. simpl. by rewrite app_nil_r.
  - destruct (Hfiles name) as (d & Hd & Hc); [by left|].
    cbn [rfoldM]. unfold mbind, result_bind.
    rewrite Hd, filter_eq_speaker by assumption.
    destruct (IH (pd.concat acc {| columns := columns d; rows := said_by speaker d |}))
      as (out & Hout & Hrows).
    { intros n Hn. apply Hfiles. by right. }
    exists out. split; [exact Hout|].
    rewrite Hrows. cbn [flat_map]. unfold chunk_rows at 2. rewrite Hd.
    simpl. by rewrite <- app_assoc.
Qed.

(** The files that read as tables with some property. *)
Lemma files_read (pd_read_csv : string → result DataFrame)
    (P : DataFrame → Prop) (filenames : list string) (tables : list DataFrame) :
  Forall2 (λ name d, pd_read_csv ("Data/" +:+ name) = Ok d) filenames tables →
  Forall P tables →
  ∀ name, name ∈ filenames →
    ∃ d, pd_read_csv ("Data/" +:+ name) = Ok d ∧ P d.
Proof.
  induction 1 as [|name d filenames tables Hd _ IH]; intros HP n Hn.
  - by apply elem_of_nil in Hn.
  - apply Forall_cons in HP as [Hd' HP].
    apply elem_of_cons in Hn as [->|Hn]; [eauto|by apply IH].
Qed.

(** C4: when the scan returns at least one chunk file for the year and the
    files read as tables of one schema (the same columns, 'speaker' among
    them, each with one type of number over all the files), get_quotes
    returns the rows of those files whose 'speaker' cell is exactly the
    given string, file after file in scan order and in each file's own
    order: every row returned is by that speaker, and every such row of the
    files is returned. *)
Theorem get_quotes_rows
    (os_listdir : string → result (list string))
    (pd_read_csv : string → result DataFrame)
    (speaker : string) (year : pyobj) (filenames : list string)
    (tables : list DataFrame) :
  find_csv_filenames os_listdir "Data/" year = Ok filenames →
  filenames ≠ [] →
  Forall2 (λ name d, pd_read_csv ("Data/" +:+ name) = Ok d) filenames tables →
  Forall (λ d, "speaker" ∈ columns d) tables →
  same_schema tables = true →
  ∃ df_all,
    get_quotes os_listdir pd_read_csv speaker year = Ok df_all
    ∧ rows df_all = flat_map (chunk_rows pd_read_csv speaker) filenames
    ∧ (∀ r, r ∈ rows df_all → cell r "speaker" = VStr speaker)
    ∧ (∀ name d r,
         name ∈ filenames → pd_read_csv ("Data/" +:+ name) = Ok d →
         r ∈ rows d → cell r "speaker" = VStr speaker → r ∈ rows df_all).
Proof.
  intros Hscan Hne Hread Hspeaker _.
  pose proof (files_read pd_read_csv _ filenames tables Hread Hspeaker)
    as Hfiles.
  destruct filenames as [|first names]; [done|]. clear Hne.
  destruct (Hfiles first) as (d1 & Hd1 & Hc1); [by left|].
  destruct (get_quotes_loop pd_read_csv speaker names
              {| columns := columns d1; rows := said_by speaker d1 |})
    as (out & Hout & Hrows).
  { intros n Hn. apply Hfiles. by right. }
  assert (rows out = flat_map (chunk_rows pd_read_csv speaker) (first :: names))
    as Hall.
  { rewrite Hrows. cbn [flat_map]. unfold chunk_rows at 2. by rewrite Hd1. }
  exists out. split; [|split; [exact Hall|split]].
  - pose proof (rfoldM_seq_index
                  (λ df_all name,
                     current_df ← pd_read_csv ("Data/" +:+ name);
                     df_elo_current ← filter_eq "speaker" speaker current_df;
                     Ok (pd.concat df_all df_elo_current))
                  names [first]
                  {| columns := columns d1; rows := said_by speaker d1 |}) as Hidx.
    unfold get_quotes. cbv zeta. unfold mbind, result_bind in *.
    rewrite Hscan. cbn [np_index lookup list_lookup].
    rewrite Hd1, filter_eq_speaker by assumption.
    cbn [length]. rewrite Nat.sub_succ, Nat.sub_0_r.
    rewrite <- Hout. exact Hidx.
  - intros r. rewrite Hall, list_elem_of_In, in_flat_map.
    intros (name & _ & Hr). unfold chunk_rows in Hr.
    destruct (pd_read_csv ("Data/" +:+ name)) as [d|]; [|done].
    apply list_elem_of_In, said_by_spec in Hr. tauto.
  - intros name d r Hname Hd Hr Hs.
    rewrite Hall, list_elem_of_In, in_flat_map. exists name.
    split; [by apply list_elem_of_In|].
    unfold chunk_rows. rewrite Hd. apply list_elem_of_In, said_by_spec. auto.
Qed.

(** Speaker "A" in the sample directory, year 2020: the two rows of the
    first chunk, none of the second (whose speakers are "B" and "a"). *)
Lemma get_quotes_rows_witness :
  (∃ df_all,
     get_quotes Sample.listing Sample.chunk_files "A" (PyInt 2020) = Ok df_all
     ∧ rows df_all = flat_map (chunk_rows Sample.chunk_files "A")
                       ["quotes-2020-1"; "quotes-2020-2"])
  ∧ (rows <$> returned (get_quotes Sample.listing Sample.chunk_files "A" (PyInt 2020)))
    = Some [Sample.quote "A" "one"; Sample.quote "A" "three"].
Proof.
  split; [|vm_compute; reflexivity].
  destruct (get_quotes_rows Sample.listing Sample.chunk_files "A" (PyInt 2020)
              ["quotes-2020-1"; "quotes-2020-2"]
              [ {| columns := ["speaker"; "quotation"];
                   rows := [Sample.quote "A" "one"; Sample.quote "B" "two";
                            Sample.quote "A" "three"] |};
                {| columns := ["speaker"; "quotation"];
                   rows := [Sample.quote "B" "four"; Sample.quote "a" "five"] |} ])
    as (df_all & Hrun & Hrows & _).
  - reflexivity.
  - discriminate.
  - repeat constructor.
  - repeat constructor; apply (bool_decide_unpack _); vm_compute; exact I.
  - vm_compute. reflexivity.
  - exists df_all. auto.
Defined.

(** ** Chunker *)

Lemma ceil_div_bounds R C :
  (1 ≤ C)%nat → (R ≤ ceil_div R C * C ∧ ceil_div R C * C < R + C)%nat.
Proof.
  intros HC. unfold ceil_div.
  pose proof (Nat.div_mod_eq (R + C - 1) C) as Hdm.
  pose proof (Nat.mod_upper_bound (R + C - 1) C ltac:(lia)) as Hmod.
  nia.
Qed.

Lemma ceil_div_step R C :
  (1 ≤ C)%nat → (1 ≤ R)%nat → ceil_div R C = S (ceil_div (R - C) C).
Proof.
  intros HC HR. unfold ceil_div.
  destruct (le_lt_dec C R) as [Hle|Hlt].
  - replace (R + C - 1)%nat with ((R - C + C - 1) + 1 * C)%nat by lia.
    rewrite Nat.div_add by lia. lia.
  - replace (R - C)%nat with 0%nat by lia.
    rewrite (Nat.div_small (0 + C - 1) C) by lia.
    replace (R + C - 1)%nat with ((R - 1) + 1 * C)%nat by lia.
    rewrite Nat.div_add by lia. rewrite Nat.div_small by lia. reflexivity.
Qed.

Lemma chunks_go_spec {A} (fuel C : nat) (l : list A) :
  (1 ≤ C)%nat → (length l ≤ fuel)%nat →
  concat (chunks_go fuel C l) = l
  ∧ length (chunks_go fuel C l) = ceil_div (length l) C
  ∧ Forall (λ b, (1 ≤ length b ≤ C)%nat) (chunks_go fuel C l).
Proof.
  intros HC. revert l. induction fuel as [|fuel IH]; intros l Hfuel.
  - destruct l; [|simpl in Hfuel; lia].
    repeat split; [|constructor]. unfold ceil_div. simpl.
    rewrite Nat.div_small; lia.
  - destruct l as [|x l].
    + repeat split; [|constructor]. unfold ceil_div. simpl.
      rewrite Nat.div_small; lia.
    + cbn [chunks_go].
      assert (length (drop C (x :: l)) = length (x :: l) - C)%nat as Hdrop
        by apply length_drop.
      destruct (IH (drop C (x :: l))) as (Hcat & Hlen & Hall).
      { rewrite Hdrop. simpl in *. lia. }
      split; [|split].
      * cbn [concat]. rewrite Hcat. apply take_drop.
      * cbn [length] in *. rewrite Hlen, Hdrop.
        symmetry. apply ceil_div_step; simpl; lia.
      * constructor; [|assumption].
        rewrite length_take. simpl. lia.
Qed.

Lemma chunks_spec {A} (C : nat) (l : list A) :
  (1 ≤ C)%nat →
  concat (chunks C l) = l
  ∧ length (chunks C l) = ceil_div (length l) C
  ∧ Forall (λ b, (1 ≤ length b ≤ C)%nat) (chunks C l).
Proof. intros HC. by apply chunks_go_spec. Qed.



(** *** Paths *)

Lemma length_append_string (s t : string) :
  String.length (s +:+ t) = (String.length s + String.length t)%nat.
Proof.
  induction s as [|c s IH]; [reflexivity|].
  change (S (String.length (s +:+ t)) = S (String.length s + String.length t)).
  by rewrite IH.
Qed.

Lemma app_inv_tail_string (s s' t : string) : s +:+ t = s' +:+ t → s = s'.
Proof.
  revert s'. induction s as [|c s IH]; intros [|c' s'] H.
  - reflexivity.
  - apply (f_equal String.length) in H.
    rewrite !length_append_string in H. simpl in H. lia.
  - apply (f_equal String.length) in H.
    rewrite !length_append_string in H. simpl in H. lia.
  - change (String c (s +:+ t) = String c' (s' +:+ t)) in H.
    injection H as -> H. f_equal. by apply IH.
Qed.

Lemma last_char_app (s t : string) :
  t ≠ "" → last_char (s +:+ t) = last_char t.
Proof.
  intros Ht. induction s as [|c s IH]; [reflexivity|].
  change (last_char (String c (s +:+ t)) = last_char t).
  cbn [last_char]. destruct (s +:+ t) eqn:E; [|exact IH].
  destruct s; [|discriminate]. by destruct Ht.
Qed.

Lemma chunk_csv_path_inj outputname b b' :
  chunk_csv_path outputname b = chunk_csv_path outputname b' → b = b'.
Proof.
  unfold chunk_csv_path. intros H.
  do 3 apply String.app_inj in H.
  apply app_inv_tail_string in H. by apply pretty_Z_inj in H.
Qed.

Lemma chunk_path_inj outputname b b' :
  chunk_path outputname b = chunk_path outputname b' → b = b'.
Proof.
  unfold chunk_path. intros H%app_inv_tail_string.
  by apply chunk_csv_path_inj in H.
Qed.

Lemma chunk_csv_path_ne outputname b b' :
  chunk_csv_path outputname b ≠ chunk_path outputname b'.
Proof.
  unfold chunk_path. intros H.
  apply (f_equal last_char) in H.
  rewrite (last_char_app (chunk_csv_path outputname b') ".bz2") in H by done.
  unfold chunk_csv_path in H.
  rewrite <- !app_assoc_string in H.
  rewrite (last_char_app _ ".csv") in H by done.
  discriminate.
Qed.

(** *** One batch, then all of them *)




Section ChunkerFacts.

Context {bytes : Type}.
Variable read_json : list string → result DataFrame.
Variable to_csv : DataFrame → bytes.
Variable bz2_compress : bytes → bytes.

#[local] Abbreviation archive chunk := (chunk_archive to_csv bz2_compress chunk).



Lemma chunkify_body_run outputname b lines chunk (fs : gmap string bytes) :
  next_chunk read_json lines = Ok chunk →
  chunkify_body read_json to_csv bz2_compress outputname b lines fs
  = (Ok (),
     delete (chunk_csv_path outputname b)
       (<[chunk_path outputname b := archive chunk]>
          (<[chunk_csv_path outputname b := to_csv chunk]> fs))).
Proof.
  intros Hchunk.
  unfold chunkify_body, write, read, os_remove, lift. unfold mbind, St_bind.
  rewrite Hchunk.
  fold (chunk_csv_path outputname b). fold (chunk_path outputname b).
  rewrite lookup_insert_eq.
  rewrite lookup_insert_ne
    by (intros H; symmetry in H; by apply chunk_csv_path_ne in H).
  rewrite lookup_insert_eq. reflexivity.
Qed.

Lemma chunkify_body_malformed outputname b lines e (fs : gmap string bytes) :
  next_chunk read_json lines = Err e →
  chunkify_body read_json to_csv bz2_compress outputname b lines fs
  = (Err e, fs).
Proof.
  intros H. unfold chunkify_body, lift. unfold mbind at 1, St_bind at 1.
  by rewrite H.
Qed.

Lemma chunkify_loop_run outputname
    (batches : list (list (result (option string))))
    (tables : list DataFrame) (b : Z) (fs : gmap string bytes) :
  Forall2 (λ lines chunk, next_chunk read_json lines = Ok chunk)
          batches tables →
  ∃ fs',
    chunkify_loop read_json to_csv bz2_compress outputname b batches fs
    = (Ok (), fs')
    ∧ (∀ i chunk, tables !! i = Some chunk →
         fs' !! chunk_path outputname (b + Z.of_nat i) = Some (archive chunk))
    ∧ (∀ i, (i < length tables)%nat →
         fs' !! chunk_csv_path outputname (b + Z.of_nat i) = None)
    ∧ (∀ p, (∀ i, (i < length tables)%nat →
                  p ≠ chunk_path outputname (b + Z.of_nat i)
                  ∧ p ≠ chunk_csv_path outputname (b + Z.of_nat i)) →
            fs' !! p = fs !! p).
Proof.
  intros Hread. revert b fs.
  induction Hread as [|lines chunk batches tables Hchunk _ IH]; intros b fs.
  - exists fs. split; [reflexivity|]. split; [|split].
    + intros i chunk H. by rewrite lookup_nil in H.
    + intros i H. simpl in H. lia.
    + reflexivity.
  - cbn [chunkify_loop]. unfold mbind, St_bind.
    rewrite (chunkify_body_run _ _ _ chunk) by exact Hchunk.
    set (fs1 := delete _ _).
    destruct (IH (b + 1) fs1) as (fs' & Hrun & Hbz2 & Hcsv & Hframe).
    exists fs'. split; [exact Hrun|].
    assert (∀ j : nat, b + 1 + Z.of_nat j = b + Z.of_nat (S j)) as Hshift
      by (intros; lia).
    assert (∀ p, p ≠ chunk_path outputname b → p ≠ chunk_csv_path outputname b →
                 fs1 !! p = fs !! p) as Hfs1.
    { intros p H1 H2. subst fs1.
      rewrite lookup_delete_ne, !lookup_insert_ne; done. }
    split; [|split].
    + intros [|i] chunk' Hi.
      * injection Hi as <-. rewrite Z.add_0_r.
        rewrite Hframe.
        { subst fs1. rewrite lookup_delete_ne
            by (intros H; by apply chunk_csv_path_ne in H).
          apply lookup_insert_eq. }
        intros j _. split.
        -- intros H%chunk_path_inj. lia.
        -- intros H. symmetry in H. by apply chunk_csv_path_ne in H.
      * rewrite <- Hshift. by apply Hbz2.
    + intros [|i] Hi.
      * rewrite Z.add_0_r. rewrite Hframe; [subst fs1; apply lookup_delete_eq|].
        intros j _. split.
        -- apply chunk_csv_path_ne.
        -- intros H%chunk_csv_path_inj. lia.
      * rewrite <- Hshift. apply Hcsv. simpl in Hi. lia.
    + intros p Hp. rewrite Hframe.
      * apply Hfs1.
        -- pose proof (Hp 0%nat ltac:(simpl; lia)) as [H _].
           by rewrite Z.add_0_r in H.
        -- pose proof (Hp 0%nat ltac:(simpl; lia)) as [_ H].
           by rewrite Z.add_0_r in H.
      * intros j Hj. rewrite Hshift. apply Hp. simpl. lia.
Qed.

(** A loop that came to its end read a table from every batch. *)
Lemma chunkify_loop_inv outputname
    (batches : list (list (result (option string))))
    (b : Z) (fs fs' : gmap string bytes) :
  chunkify_loop read_json to_csv bz2_compress outputname b batches fs
  = (Ok (), fs') →
  ∃ tables,
    Forall2 (λ lines chunk, next_chunk read_json lines = Ok chunk)
            batches tables.
Proof.
  revert b fs. induction batches as [|lines batches IH]; intros b fs.
  - intros _. exists []. constructor.
  - cbn [chunkify_loop]. unfold mbind, St_bind.
    destruct (next_chunk read_json lines) as [chunk|e] eqn:Hchunk.
    + rewrite (chunkify_body_run _ _ _ chunk) by exact Hchunk.
      intros (tables & Htables)%IH. exists (chunk :: tables). by constructor.
    + by rewrite (chunkify_body_malformed _ _ _ e).
Qed.

End ChunkerFacts.



(** ** Organization Extractor *)

(** *** Duplicates *)

Lemma SFeqb_refl f : pd.is_nan f = false → PyFloat.eq f f = true.
Proof.
  unfold PyFloat.eq, SFeqb.
  destruct f as [[]|[]| |[] m e]; simpl; try done; intros _;
    rewrite Z.compare_refl;
    change (Pos.compare_cont Eq m m) with (Pos.compare m m);
    by rewrite Pos.compare_refl.
Qed.

Lemma SFeqb_sym f g : PyFloat.eq f g = PyFloat.eq g f.
Proof.
  unfold PyFloat.eq, SFeqb. rewrite (PyFloatFacts.compare_antisym g f).
  destruct (SFcompare g f) as [[]|]; reflexivity.
Qed.

Lemma SFeqb_trans f g k :
  PyFloat.eq f g = true → PyFloat.eq g k = true → PyFloat.eq f k = true.
Proof.
  unfold PyFloat.eq, SFeqb.
  destruct f as [[]|[]| |[] mf ef], g as [[]|[]| |[] mg eg],
           k as [[]|[]| |[] mk ek];
    simpl; intros Hfg Hgk; try discriminate; try reflexivity;
    PyFloatFacts.cmp_cases.
Qed.

Lemma SFeqb_not_nan f g : PyFloat.eq f g = true → pd.is_nan f = false ∧ pd.is_nan g = false.
Proof.
  unfold PyFloat.eq, SFeqb.
  destruct f as [[]|[]| |[] mf ef], g as [[]|[]| |[] mg eg]; simpl; done.
Qed.

Lemma same_cell_refl v : pd.same_cell v v = true.
Proof.
  destruct v as [s|z|f]; simpl.
  - by apply bool_decide_eq_true.
  - apply Z.eqb_refl.
  - destruct (pd.is_nan f) eqn:Hn; [by rewrite orb_true_r|].
    by rewrite SFeqb_refl.
Qed.

Lemma same_cell_sym v w : pd.same_cell v w = pd.same_cell w v.
Proof.
  destruct v as [s|z|f], w as [s'|z'|f']; simpl; try reflexivity.
  - apply bool_decide_ext. split; by intros ->.
  - apply Z.eqb_sym.
  - by rewrite SFeqb_sym, (andb_comm (pd.is_nan f)).
Qed.

Lemma same_cell_trans u v w :
  pd.same_cell u v = true → pd.same_cell v w = true → pd.same_cell u w = true.
Proof.
  destruct u as [s|z|f], v as [s'|z'|f'], w as [s''|z''|f'']; simpl;
    try discriminate.
  - rewrite !bool_decide_eq_true. congruence.
  - rewrite !Z.eqb_eq. congruence.
  - rewrite !orb_true_iff, !andb_true_iff.
    intros [H1|[H1 H1']] [H2|[H2 H2']].
    + left. by eapply SFeqb_trans.
    + apply SFeqb_not_nan in H1 as [_ H1]. congruence.
    + apply SFeqb_not_nan in H2 as [H2 _]. congruence.
    + right. auto.
Qed.

Lemma same_row_refl cols r : pd.same_row cols r r = true.
Proof.
  unfold pd.same_row. apply forallb_forall. intros c _. apply same_cell_refl.
Qed.

Lemma same_row_sym cols r1 r2 : pd.same_row cols r1 r2 = pd.same_row cols r2 r1.
Proof.
  unfold pd.same_row. induction cols as [|c cols IH]; simpl; [reflexivity|].
  by rewrite IH, same_cell_sym.
Qed.

Lemma same_row_trans cols r1 r2 r3 :
  pd.same_row cols r1 r2 = true → pd.same_row cols r2 r3 = true →
  pd.same_row cols r1 r3 = true.
Proof.
  unfold pd.same_row. rewrite !forallb_forall. intros H1 H2 c Hc.
  eapply same_cell_trans; eauto.
Qed.

Lemma drop_dups_sublist cols seen l : sublist (pd.drop_dups cols seen l) l.
Proof.
  revert seen. induction l as [|r l IH]; intros seen; simpl; [constructor|].
  destruct (existsb _ seen); by constructor.
Qed.

(** A kept row repeats no row seen before it. *)
Lemma drop_dups_fresh cols seen l a s :
  a ∈ pd.drop_dups cols seen l → s ∈ seen → pd.same_row cols a s = false.
Proof.
  revert seen. induction l as [|r l IH]; intros seen Ha Hs; simpl in Ha.
  - by apply elem_of_nil in Ha.
  - destruct (existsb (pd.same_row cols r) seen) eqn:Hex.
    + apply (IH (seen ++ [r])); [assumption|]. apply elem_of_app. by left.
    + apply elem_of_cons in Ha as [->|Ha].
      * destruct (pd.same_row cols r s) eqn:E; [|reflexivity].
        assert (existsb (pd.same_row cols r) seen = true) as H; [|congruence].
        apply existsb_exists. exists s. split; [by apply list_elem_of_In|done].
      * apply (IH (seen ++ [r])); [assumption|]. apply elem_of_app. by left.
Qed.

(** No kept row repeats an earlier kept row. *)
Lemma drop_dups_distinct cols seen l i j a b :
  (i < j)%nat →
  pd.drop_dups cols seen l !! i = Some a →
  pd.drop_dups cols seen l !! j = Some b →
  pd.same_row cols b a = false.
Proof.
  revert seen i j. induction l as [|r l IH]; intros seen i j Hij Ha Hb;
    simpl in Ha, Hb.
  - by rewrite lookup_nil in Ha.
  - destruct (existsb (pd.same_row cols r) seen).
    + by eapply IH.
    + destruct i as [|i], j as [|j]; try lia.
      * injection Ha as <-. simpl in Hb.
        apply (drop_dups_fresh cols (seen ++ [r]) l).
        -- eapply list_elem_of_lookup_2, Hb.
        -- apply elem_of_app. right. by apply list_elem_of_singleton.
      * simpl in Ha, Hb. eapply (IH (seen ++ [r]) i j); [lia|done..].
Qed.

(** Every row repeats a row that was seen or is kept. *)
Lemma drop_dups_cover cols seen l m :
  m ∈ l →
  ∃ r, (r ∈ seen ∨ r ∈ pd.drop_dups cols seen l) ∧ pd.same_row cols m r = true.
Proof.
  revert seen. induction l as [|r0 l IH]; intros seen Hm.
  - by apply elem_of_nil in Hm.
  - simpl. destruct (existsb (pd.same_row cols r0) seen) eqn:Hex.
    + apply existsb_exists in Hex as (s & Hs%list_elem_of_In & Hr0s).
      apply elem_of_cons in Hm as [->|Hm]; [by eauto|].
      destruct (IH (seen ++ [r0]) Hm) as (r & [Hr|Hr] & Hmr); [|by eauto].
      apply elem_of_app in Hr as [Hr|Hr%list_elem_of_singleton]; [by eauto|].
      subst r. exists s. split; [by left|]. by eapply same_row_trans.
    + apply elem_of_cons in Hm as [->|Hm].
      * exists r0. split; [right; by left | apply same_row_refl].
      * destruct (IH (seen ++ [r0]) Hm) as (r & [Hr|Hr] & Hmr).
        -- apply elem_of_app in Hr as [Hr|Hr%list_elem_of_singleton]; [by eauto|].
           subst r. exists r0. split; [right; by left|done].
        -- exists r. split; [right; by right|done].
Qed.

Lemma drop_dups_NoDup cols l : NoDup (pd.drop_dups cols [] l).
Proof.
  apply NoDup_alt. intros i j a Hi Hj.
  destruct (lt_eq_lt_dec i j) as [[Hlt|Heq]|Hlt]; [|assumption|].
  - pose proof (drop_dups_distinct cols [] l i j a a Hlt Hi Hj) as H.
    by rewrite same_row_refl in H.
  - pose proof (drop_dups_distinct cols [] l j i a a Hlt Hj Hi) as H.
    by rewrite same_row_refl in H.
Qed.

(** *** The run of the extractor *)

Lemma iloc_item_ok d i r c :
  rows d !! i = Some r → c ∈ columns d → iloc_item d i c = Ok (cell r c).
Proof.
  intros Hr Hc. unfold iloc_item. rewrite Hr.
  by rewrite bool_decide_eq_true_2.
Qed.

Lemma org_records_ok spacy_nlp d i r :
  rows d !! i = Some r →
  Forall (λ c, c ∈ columns d)
         ["quotation"; "date"; "numOccurrences"; "quoteID"; "probas"] →
  is_str (cell r "quotation") = true →
  org_records spacy_nlp d i = Ok (map (mention_dict r) (org_mentions spacy_nlp r)).
Proof.
  intros Hr Hcols Hq.
  apply Forall_cons in Hcols as [Hc1 Hcols]. apply Forall_cons in Hcols as [Hc2 Hcols].
  apply Forall_cons in Hcols as [Hc3 Hcols]. apply Forall_cons in Hcols as [Hc4 Hcols].
  apply Forall_cons in Hcols as [Hc5 _].
  unfold org_records, org_mentions.
  rewrite !(iloc_item_ok d i r) by assumption.
  unfold mbind, result_bind.
  destruct (cell r "quotation") as [q| |] eqn:Hcell; try discriminate.
  rewrite <- Hcell. apply rmapM_pure.
Qed.

Lemma rmapM_seq_lookup {A B} (f : nat → result B) (g : A → B) (l : list A) k :
  (∀ i x, l !! i = Some x → f (k + i)%nat = Ok (g x)) →
  rmapM f (seq k (length l)) = Ok (map g l).
Proof.
  revert k. induction l as [|x l IH]; intros k H; [reflexivity|].
  cbn [length seq rmapM map]. unfold mbind, result_bind.
  rewrite <- (Nat.add_0_r k) at 1. rewrite (H 0%nat x eq_refl).
  rewrite (IH (S k)); [reflexivity|].
  intros i y Hi. rewrite <- (H (S i) y Hi). f_equal. lia.
Qed.

Lemma map_concat_map {A B C} (f : B → C) (g : A → list B) (l : list A) :
  map f (List.concat (map g l)) = flat_map (λ a, map f (g a)) l.
Proof.
  induction l as [|a l IH]; [reflexivity|].
  cbn [map List.concat flat_map]. by rewrite map_app, IH.
Qed.

Lemma new_labels_known l1 l2 :
  Forall (λ c, c ∈ l1) l2 → pd.new_labels l1 l2 = [].
Proof.
  induction 1 as [|c l2 Hc _ IH]; simpl; [reflexivity|].
  by rewrite bool_decide_eq_true_2.
Qed.

Lemma new_labels_new l1 c l2 :
  c ∉ l1 → pd.new_labels l1 (c :: l2) = c :: pd.new_labels (l1 ++ [c]) l2.
Proof. intros H. simpl. by rewrite bool_decide_eq_false_2. Qed.

(** The keys of the mention dictionaries, in order of first appearance. *)
Lemma mention_columns (dicts : list (list (string * value))) :
  Forall (λ dict, map fst dict = org_columns) dicts →
  pd.new_labels [] (flat_map (map fst) dicts)
  = match dicts with [] => [] | _ => org_columns end.
Proof.
  intros Hall. destruct dicts as [|dict dicts]; [reflexivity|].
  apply Forall_cons in Hall as [Hdict Hall].
  cbn [flat_map]. rewrite Hdict. unfold org_columns. cbn [app].
  do 6 (rewrite new_labels_new
          by (apply (bool_decide_unpack _); vm_compute; exact I)).
  rewrite new_labels_known; [reflexivity|].
  apply Forall_forall. intros c Hc.
  apply list_elem_of_In, in_flat_map in Hc as (dict' & Hin & Hc).
  rewrite Forall_forall in Hall.
  apply list_elem_of_In in Hin. rewrite (Hall dict' Hin) in Hc.
  by apply list_elem_of_In.
Qed.

Lemma create_org_df_run spacy_load spacy_model spacy_nlp h df d :
  h !! df = Some d →
  spacy_load spacy_model = Ok spacy_nlp →
  Forall (λ c, c ∈ columns d)
         ["quotation"; "date"; "numOccurrences"; "quoteID"; "probas"] →
  forallb (λ r, is_str (cell r "quotation")) (rows d) = true →
  create_org_df spacy_load spacy_model df h
  = (Ok (fresh (dom h)),
     <[fresh (dom h) :=
         {| columns := match mention_rows spacy_nlp d with
                       | [] => []
                       | _ => org_columns
                       end;
            rows := pd.drop_dups
                      (match mention_rows spacy_nlp d with
                       | [] => []
                       | _ => org_columns
                       end) [] (mention_rows spacy_nlp d) |}]> h).
Proof.
  intros Hd Hload Hcols Hstr.
  set (g := λ r, map (mention_dict r) (org_mentions spacy_nlp r)).
  assert (rmapM (org_records spacy_nlp d) (seq 0 (length (rows d)))
          = Ok (map g (rows d))) as Hrecs.
  { apply rmapM_seq_lookup. intros i r Hr. apply org_records_ok; [done..|].
    rewrite forallb_forall in Hstr. apply Hstr.
    by eapply list_elem_of_In, list_elem_of_lookup_2. }
  assert (map (λ rec : list (string * value), list_to_map rec)
              (List.concat (map g (rows d)))
          = mention_rows spacy_nlp d) as Hrows.
  { rewrite map_concat_map. unfold mention_rows, g.
    apply flat_map_ext. intros r. by rewrite map_map. }
  assert (pd.new_labels [] (flat_map (map fst) (List.concat (map g (rows d))))
          = match mention_rows spacy_nlp d with [] => [] | _ => org_columns end)
    as Hlabels.
  { rewrite mention_columns.
    - rewrite <- Hrows. by destruct (List.concat (map g (rows d))).
    - apply Forall_forall. intros dict Hdict.
      apply list_elem_of_In, in_concat in Hdict as (ds & Hds & Hdict).
      apply in_map_iff in Hds as (r & <- & _).
      apply in_map_iff in Hdict as (e & <- & _). reflexivity. }
  unfold create_org_df. run. rewrite Hload. simpl. rewrite Hd. simpl.
  rewrite Hrecs. simpl.
  unfold pd.drop_duplicates, pd.from_dict. cbn [columns rows].
  by rewrite Hrows, Hlabels.
Qed.

Lemma mention_row_same r e1 e2 :
  pd.same_row org_columns (mention_row r e1) (mention_row r e2)
  = bool_decide (text e1 = text e2).
Proof.
  unfold pd.same_row, org_columns, mention_row, mention_dict. cbn [forallb].
  change (cell (list_to_map _) "ORG") with (VStr (text e1)) at 1.
  change (cell (list_to_map _) "ORG") with (VStr (text e2)) at 1.
  change (cell (list_to_map _) "date") with (cell r "date").
  change (cell (list_to_map _) "numOccurrences") with (cell r "numOccurrences").
  change (cell (list_to_map _) "quotation") with (cell r "quotation").
  change (cell (list_to_map _) "quoteID") with (cell r "quoteID").
  change (cell (list_to_map _) "probas") with (cell r "probas").
  rewrite !same_cell_refl, !andb_true_r. reflexivity.
Qed.

(** C6: on a table with the five carried columns, string quotations and one
    type of number in each carried column, create_org_df returns a new table built from one row per entity tagged
    ORG (its surface text with the date, numOccurrences, quotation, quoteID
    and probas of the quote it was found in), quote after quote, from which
    every row that repeats an earlier one is dropped: the rows returned are
    mention rows in their order, every mention row is the same as a row
    returned, and no two rows returned are the same, so none are identical.
    For a single quote with two ORG mentions, the same surface text gives
    one row and two different texts give two. *)
Theorem create_org_df_rows
    (spacy_load : string → result (string → list Entity))
    (spacy_model : string) (spacy_nlp : string → list Entity)
    (h : gmap nat DataFrame) (df : nat) (d : DataFrame) :
  h !! df = Some d →
  spacy_load spacy_model = Ok spacy_nlp →
  Forall (λ c, c ∈ columns d)
         ["quotation"; "date"; "numOccurrences"; "quoteID"; "probas"] →
  forallb (λ r, is_str (cell r "quotation")) (rows d) = true →
  one_number_type ["date"; "numOccurrences"; "quoteID"; "probas"] (rows d)
  = true →
  ∃ org_df,
    create_org_df spacy_load spacy_model df h
    = (Ok (fresh (dom h)), <[fresh (dom h) := org_df]> h)
    ∧ columns org_df = match mention_rows spacy_nlp d with
                       | [] => []
                       | _ => org_columns
                       end
    ∧ sublist (rows org_df) (mention_rows spacy_nlp d)
    ∧ (∀ m, m ∈ mention_rows spacy_nlp d →
            ∃ r, r ∈ rows org_df ∧ pd.same_row org_columns m r = true)
    ∧ (∀ i j a b, i ≠ j →
         rows org_df !! i = Some a → rows org_df !! j = Some b →
         pd.same_row org_columns a b = false)
    ∧ NoDup (rows org_df)
    ∧ (∀ r e1 e2,
         rows d = [r] → org_mentions spacy_nlp r = [e1; e2] →
         (text e1 = text e2 → rows org_df = [mention_row r e1])
         ∧ (text e1 ≠ text e2 →
            rows org_df = [mention_row r e1; mention_row r e2])).
Proof.
  intros Hd Hload Hcols Hstr _.
  eexists. split; [by apply create_org_df_run|]. cbn [columns rows].
  split; [reflexivity|].
  split; [apply drop_dups_sublist|].
  assert (∀ rs : list (gmap string value),
            rs ≠ [] → match rs with [] => [] | _ => org_columns end = org_columns)
    as Hcolumns by (by intros []).
  split; [|split; [|split; [apply drop_dups_NoDup|]]].
  - intros m Hm. rewrite Hcolumns by (intros E; rewrite E in Hm; by apply elem_of_nil in Hm).
    destruct (drop_dups_cover org_columns [] _ m Hm) as (r & [Hr|Hr] & Hsame).
    + by apply elem_of_nil in Hr.
    + eauto.
  - intros i j a b Hij Ha Hb.
    assert (mention_rows spacy_nlp d ≠ []) as Hne.
    { intros E. rewrite E in Ha. cbn [pd.drop_dups] in Ha.
      by rewrite lookup_nil in Ha. }
    rewrite Hcolumns in Ha, Hb by assumption.
    destruct (lt_eq_lt_dec i j) as [[Hlt|Heq]|Hlt]; [|done|].
    + rewrite same_row_sym. by eapply drop_dups_distinct.
    + by eapply drop_dups_distinct.
  - intros r e1 e2 Hrows Hments.
    assert (mention_rows spacy_nlp d = [mention_row r e1; mention_row r e2])
      as ->.
    { unfold mention_rows. rewrite Hrows. cbn [flat_map]. rewrite Hments.
      reflexivity. }
    cbn [pd.drop_dups existsb app]. rewrite mention_row_same, orb_false_r.
    split; intros Htext.
    + by rewrite bool_decide_eq_true_2.
    + rewrite bool_decide_eq_false_2; [reflexivity|]. congruence.
Qed.

(** The quote "Tesla Tesla": the two Tesla mentions give one row, SpaceX a
    second one, and the person is not reported. *)
Lemma create_org_df_rows_witness :
  (∃ org_df,
     create_org_df Sample.spacy_load "en_core_web_sm" 0
       {[ 0%nat := Sample.tesla ]}
     = (Ok 1%nat, <[1%nat := org_df]> {[ 0%nat := Sample.tesla ]})
     ∧ NoDup (rows org_df))
  ∧ values <$> ((create_org_df Sample.spacy_load "en_core_web_sm" 0
                   {[ 0%nat := Sample.tesla ]}).2 !! 1%nat)
    = Some [[VStr "Tesla"; VStr "2020-01-01"; VInt 3; VStr "Tesla Tesla";
             VStr "2020-01-01-000001"; VStr "[['Elon Musk', '0.9']]"];
            [VStr "SpaceX"; VStr "2020-01-01"; VInt 3; VStr "Tesla Tesla";
             VStr "2020-01-01-000001"; VStr "[['Elon Musk', '0.9']]"]].
Proof.
  split; [|vm_compute; reflexivity].
  destruct (create_org_df_rows Sample.spacy_load "en_core_web_sm" Sample.ner
              {[ 0%nat := Sample.tesla ]} 0 Sample.tesla)
    as (org_df & Hrun & _ & _ & _ & _ & Hnodup & _).
  - reflexivity.
  - reflexivity.
  - repeat constructor; apply (bool_decide_unpack _); vm_compute; exact I.
  - vm_compute. reflexivity.
  - vm_compute. reflexivity.
  - exists org_df. split; [exact Hrun | exact Hnodup].
Defined.

(** * Further properties *)

(** ** The categories follow the order of the scores *)

Lemma le_trans_float x y z :
  PyFloat.le x y = true → PyFloat.le y z = true → PyFloat.le x z = true.
Proof.
  unfold PyFloat.le, SFleb.
  destruct x as [[]|[]| |[] mx ex], y as [[]|[]| |[] my ey],
           z as [[]|[]| |[] mz ez];
    simpl; intros Hxy Hyz; try discriminate; try reflexivity;
    PyFloatFacts.cmp_cases.
Qed.

(** X1: a larger score never gets a smaller category, whatever the two
    thresholds are. *)
Theorem categorize_monotone (neg_treshhold pos_treshhold s1 s2 : spec_float) :
  PyFloat.le s1 s2 = true →
  (categorize neg_treshhold pos_treshhold s1
   ≤ categorize neg_treshhold pos_treshhold s2)%Z.
Proof.
  intros H12. unfold categorize.
  destruct (PyFloat.le s2 neg_treshhold) eqn:H2n.
  - by rewrite (le_trans_float s1 s2 neg_treshhold H12 H2n).
  - destruct (PyFloat.le s1 neg_treshhold); [by destruct (PyFloat.ge s2 _)|].
    destruct (PyFloat.ge s1 pos_treshhold) eqn:H1p;
      [|by destruct (PyFloat.ge s2 _)].
    rewrite PyFloatFacts.ge_le in H1p.
    rewrite PyFloatFacts.ge_le, (le_trans_float pos_treshhold s1 s2 H1p H12).
    done.
Qed.

Lemma categorize_monotone_witness :
  (categorize (PyFloat.neg (float "0.05")) (float "0.05") (float "0.0")
   ≤ categorize (PyFloat.neg (float "0.05")) (float "0.05") (float "0.2"))%Z.
Proof.
  exact (categorize_monotone (PyFloat.neg (float "0.05")) (float "0.05")
           (float "0.0") (float "0.2") eq_refl).
Defined.

(** ** A missing column *)

(** X2: on a table without a 'probas' column high_probability_quotes raises
    KeyError('probas') before it writes anything: the store is as it was. *)
Theorem high_probability_quotes_missing_column
    (h : gmap nat DataFrame) (df : nat) (d : DataFrame) (cutoff : spec_float) :
  h !! df = Some d →
  "probas" ∉ columns d →
  high_probability_quotes df cutoff h = (Err (KeyError "probas"), h).
Proof.
  intros Hd Hc. unfold high_probability_quotes. run. rewrite Hd. simpl.
  by rewrite getitem_err.
Qed.

Lemma high_probability_quotes_missing_column_witness :
  high_probability_quotes 0 (float "0.8") {[ 0%nat := Sample.scored ]}
  = (Err (KeyError "probas"), {[ 0%nat := Sample.scored ]}).
Proof.
  apply (high_probability_quotes_missing_column _ 0 Sample.scored);
    [reflexivity|].
  apply (bool_decide_unpack _). vm_compute. exact I.
Defined.

(** X3: add_polarity_score_to_df on a table without 'quotation', and
    add_sentiment_category on a table without 'sentiment', raise the
    KeyError of that column; the copy they made first is dropped with the
    exception, a new object that no caller holds, and every table of the
    caller is as before. *)
Theorem sentiment_routines_missing_column
    (polarity_compound : string → spec_float)
    (h : gmap nat DataFrame) (df : nat) (d : DataFrame)
    (neg_treshhold pos_treshhold : spec_float) :
  h !! df = Some d →
  ("quotation" ∉ columns d →
   add_polarity_score_to_df polarity_compound df h
   = (Err (KeyError "quotation"), <[fresh (dom h) := d]> h))
  ∧ ("sentiment" ∉ columns d →
     add_sentiment_category df neg_treshhold pos_treshhold h
     = (Err (KeyError "sentiment"), <[fresh (dom h) := d]> h))
  ∧ (∀ l, l ∈ dom h → (<[fresh (dom h) := d]> h) !! l = h !! l).
Proof.
  intros Hd. split; [|split].
  - intros Hc. unfold add_polarity_score_to_df. run. rewrite Hd. simpl.
    rewrite lookup_insert_eq. simpl. by rewrite getitem_err.
  - intros Hc. unfold add_sentiment_category. run. rewrite Hd. simpl.
    rewrite lookup_insert_eq. simpl. by rewrite getitem_err.
  - intros l Hl. apply lookup_insert_ne. intros <-. by apply (is_fresh (dom h)).
Qed.

Lemma sentiment_routines_missing_column_witness :
  add_sentiment_category 0 (float "0.0") (float "0.0") {[ 0%nat := Sample.attributed ]}
  = (Err (KeyError "sentiment"),
     <[1%nat := Sample.attributed]> {[ 0%nat := Sample.attributed ]}).
Proof.
  refine (proj1 (proj2 (sentiment_routines_missing_column Sample.vader
                          {[ 0%nat := Sample.attributed ]} 0 Sample.attributed
                          (float "0.0") (float "0.0") eq_refl)) _).
  apply (bool_decide_unpack _). vm_compute. exact I.
Defined.

(** ** More on the Confidence Filter *)

Lemma filter_sublist_impl {A} (p q : A → bool) (l : list A) :
  (∀ x, x ∈ l → q x = true → p x = true) →
  sublist (List.filter q l) (List.filter p l).
Proof.
  induction l as [|x l IH]; intros H; simpl; [constructor|].
  assert (sublist (List.filter q l) (List.filter p l)) as IH'.
  { apply IH. intros y Hy. apply H. by right. }
  destruct (q x) eqn:Hq.
  - rewrite (H x (list_elem_of_here _ _) Hq). by constructor.
  - destruct (p x); [by constructor|assumption].
Qed.

Lemma kept_monotone c1 c2 (r : gmap string value) :
  PyFloat.le c1 c2 = true → kept c2 r = true → kept c1 r = true.
Proof.
  unfold kept. intros Hc. destruct (cell r "probasE") as [| |x]; try done.
  rewrite !PyFloatFacts.ge_le. intros Hx. by eapply le_trans_float.
Qed.

(** X4: raising the cutoff can only drop rows: on the same table, the rows
    returned for a cutoff c2 >= c1 are, in order, among the rows returned
    for c1. *)
Theorem high_probability_quotes_cutoff_monotone
    (h : gmap nat DataFrame) (df : nat) (d : DataFrame) (c1 c2 : spec_float)
    (l1 l2 : nat) (h1 h2 : gmap nat DataFrame) (out1 out2 : DataFrame) :
  h !! df = Some d →
  "probas" ∈ columns d →
  PyFloat.le c1 c2 = true →
  high_probability_quotes df c1 h = (Ok l1, h1) → h1 !! l1 = Some out1 →
  high_probability_quotes df c2 h = (Ok l2, h2) → h2 !! l2 = Some out2 →
  sublist (rows out2) (rows out1) ∧ columns out2 = columns out1.
Proof.
  intros Hd Hc Hle Hrun1 Hout1 Hrun2 Hout2.
  rewrite (high_probability_quotes_run h df d c1 Hd Hc) in Hrun1.
  rewrite (high_probability_quotes_run h df d c2 Hd Hc) in Hrun2.
  injection Hrun1 as <- <-. injection Hrun2 as <- <-.
  rewrite lookup_insert_eq in Hout1, Hout2.
  injection Hout1 as <-. injection Hout2 as <-.
  split; [|reflexivity]. cbn [rows].
  apply filter_sublist_impl. intros r _. by apply kept_monotone.
Qed.

Lemma high_probability_quotes_cutoff_monotone_witness :
  ∃ out1 out2,
    (high_probability_quotes 0 (float "0.5") {[ 0%nat := Sample.attributed ]}).2
      !! 1%nat = Some out1
    ∧ (high_probability_quotes 0 (float "0.8") {[ 0%nat := Sample.attributed ]}).2
        !! 1%nat = Some out2
    ∧ sublist (rows out2) (rows out1)
    ∧ length (rows out1) = 2%nat ∧ length (rows out2) = 1%nat.
Proof.
  eexists _, _. split; [reflexivity|]. split; [reflexivity|].
  split; [|split; vm_compute; reflexivity].
  refine (proj1 (high_probability_quotes_cutoff_monotone
                   {[ 0%nat := Sample.attributed ]} 0 Sample.attributed
                   (float "0.5") (float "0.8") 1 1 _ _ _ _
                   eq_refl _ eq_refl eq_refl eq_refl eq_refl eq_refl)).
  apply (bool_decide_unpack _). vm_compute. exact I.
Defined.

(** A row whose 'probasE' is what the filter derives from its 'probas'. *)
Lemma derived_insert_id (r : gmap string value) :
  <["probasE" := VFloat (probasE_of (cell r "probas"))]>
    (<["probasE" := VFloat (probasE_of (cell r "probas"))]> r)
  = <["probasE" := VFloat (probasE_of (cell r "probas"))]> r.
Proof. apply insert_insert_eq. Qed.

Lemma set_column_derived (l : list (gmap string value)) :
  let l1 := zip_with (λ r v, <["probasE" := v]> r) l
              (map VFloat (map (λ r, probasE_of (cell r "probas")) l)) in
  Forall (λ r1, <["probasE" := VFloat (probasE_of (cell r1 "probas"))]> r1 = r1) l1.
Proof.
  induction l as [|r l IH]; simpl; constructor; [|exact IH].
  rewrite cell_insert_ne by done. apply insert_insert_eq.
Qed.

Lemma zip_with_derived (l : list (gmap string value)) :
  Forall (λ r1, <["probasE" := VFloat (probasE_of (cell r1 "probas"))]> r1 = r1) l →
  zip_with (λ r v, <["probasE" := v]> r) l
    (map VFloat (map (λ r, probasE_of (cell r "probas")) l)) = l.
Proof.
  induction 1 as [|r l Hr _ IH]; simpl; [reflexivity|]. by rewrite Hr, IH.
Qed.

Lemma Forall_filter {A} (P : A → Prop) (p : A → bool) (l : list A) :
  Forall P l → Forall P (List.filter p l).
Proof.
  induction 1 as [|x l Hx _ IH]; simpl; [constructor|].
  destruct (p x); [by constructor | assumption].
Qed.

Lemma filter_filter_same {A} (p : A → bool) (l : list A) :
  List.filter p (List.filter p l) = List.filter p l.
Proof.
  induction l as [|x l IH]; simpl; [reflexivity|].
  destruct (p x) eqn:Hp; simpl; [|assumption]. by rewrite Hp, IH.
Qed.

(** X5: filtering what the filter returned, with the same cutoff, changes
    nothing: the second call writes the same 'probasE' cells into its
    argument, which stays equal to itself, and returns a table equal to it. *)
Theorem high_probability_quotes_twice
    (h : gmap nat DataFrame) (df : nat) (d : DataFrame) (cutoff : spec_float)
    (l1 : nat) (h1 : gmap nat DataFrame) (out : DataFrame) :
  h !! df = Some d →
  "probas" ∈ columns d →
  high_probability_quotes df cutoff h = (Ok l1, h1) →
  h1 !! l1 = Some out →
  ∃ l2 h2,
    high_probability_quotes l1 cutoff h1 = (Ok l2, h2)
    ∧ l2 ≠ l1
    ∧ h2 !! l1 = Some out
    ∧ h2 !! l2 = Some out.
Proof.
  intros Hd Hc Hrun Hout.
  rewrite (high_probability_quotes_run h df d cutoff Hd Hc) in Hrun.
  injection Hrun as <- <-. rewrite lookup_insert_eq in Hout.
  injection Hout as Hout. subst out.
  set (out := {| columns := _; rows := _ |}).
  assert ("probas" ∈ columns out) as Hc'.
  { unfold out. cbn [columns pd.set_column].
    destruct (bool_decide ("probasE" ∈ columns d)); [assumption|].
    apply elem_of_app. by left. }
  assert ("probasE" ∈ columns out) as HcE
    by exact (set_column_has "probasE" [] d).
  assert (Forall (λ r1, <["probasE" := VFloat (probasE_of (cell r1 "probas"))]> r1 = r1)
                 (rows out)) as Hder.
  { unfold out. cbn [rows pd.set_column]. apply Forall_filter.
    apply set_column_derived. }
  assert (List.filter (kept cutoff) (rows out) = rows out) as Hfilter.
  { unfold out. cbn [rows]. apply filter_filter_same. }
  set (h1 := <[fresh (dom h) := out]> _) in *.
  assert (h1 !! fresh (dom h) = Some out) as Hl1
    by (subst h1; apply lookup_insert_eq).
  pose proof (high_probability_quotes_run h1 (fresh (dom h)) out cutoff Hl1 Hc')
    as Hrun2. cbv zeta in Hrun2.
  assert (pd.set_column "probasE"
            (map VFloat (map (λ r, probasE_of (cell r "probas")) (rows out))) out
          = out) as Hsame.
  { unfold pd.set_column. rewrite bool_decide_eq_true_2 by assumption.
    rewrite zip_with_derived by assumption. by destruct out. }
  rewrite Hsame, Hfilter in Hrun2.
  assert ({| columns := columns out; rows := rows out |} = out) as Heta
    by (by destruct out).
  rewrite Heta in Hrun2.
  eexists _, _. split; [exact Hrun2|].
  assert (fresh (dom h1) ≠ fresh (dom h)) as Hne.
  { intros E. pose proof (fresh_store_None h1) as Hf. rewrite E in Hf. congruence. }
  split; [exact Hne|]. split.
  - by rewrite lookup_insert_ne, lookup_insert_eq.
  - apply lookup_insert_eq.
Qed.

Lemma high_probability_quotes_twice_witness :
  ∃ out l2 h2,
    high_probability_quotes 1 (float "0.8")
      (high_probability_quotes 0 (float "0.8") {[ 0%nat := Sample.attributed ]}).2
    = (Ok l2, h2)
    ∧ h2 !! 1%nat = Some out ∧ h2 !! l2 = Some out.
Proof.
  edestruct (high_probability_quotes_twice {[ 0%nat := Sample.attributed ]} 0
               Sample.attributed (float "0.8") 1)
    as (l2 & h2 & Hrun & _ & H1 & H2).
  - reflexivity.
  - apply (bool_decide_unpack _). vm_compute. exact I.
  - reflexivity.
  - reflexivity.
  - eexists _, l2, h2. split; [exact Hrun|]. split; [exact H1 | exact H2].
Defined.

(** ** Scoring, then categorizing *)

(** X6: the scorer followed by the categorizer on a table of string
    quotations gives three distinct tables: the input, untouched; the scored
    copy; and the final table, whose row i is row i of the input with
    'sentiment' set to the compound score of its quotation and
    'sentiment_category' set to the category of that score. *)
Theorem sentiment_pipeline
    (polarity_compound : string → spec_float)
    (h : gmap nat DataFrame) (df : nat) (d : DataFrame)
    (neg_treshhold pos_treshhold : spec_float) :
  h !! df = Some d →
  "quotation" ∈ columns d →
  forallb (λ r, is_str (cell r "quotation")) (rows d) = true →
  ∃ scored h1 final h2 d2,
    add_polarity_score_to_df polarity_compound df h = (Ok scored, h1)
    ∧ add_sentiment_category scored neg_treshhold pos_treshhold h1 = (Ok final, h2)
    ∧ scored ≠ df ∧ final ≠ df ∧ final ≠ scored
    ∧ h2 !! df = Some d
    ∧ h2 !! final = Some d2
    ∧ length (rows d2) = length (rows d)
    ∧ ∀ i r q,
        rows d !! i = Some r → cell r "quotation" = VStr q →
        rows d2 !! i
        = Some (<["sentiment_category" :=
                    VInt (categorize neg_treshhold pos_treshhold
                            (polarity_compound q))]>
                  (<["sentiment" := VFloat (polarity_compound q)]> r)).
Proof.
  intros Hd Hc Hstr.
  set (score := λ q, match q with
                     | VStr s => Ok (VFloat (polarity_compound s))
                     | _ => Err AttributeError
                     end).
  destruct (polarity_cells_strs polarity_compound _ (forallb_cells _ _ _ Hstr))
    as [vals Hvals]. fold score in Hvals.
  assert (length vals = length (rows d)) as Hlen
    by (rewrite (rmapM_length _ _ _ Hvals); apply length_map).
  pose proof (copy_then_setitem_run h df d "quotation" (rmapM score) "sentiment"
                vals Hd Hc Hvals Hlen) as Hrun1. cbv zeta in Hrun1.
  set (l1 := fresh (dom h)) in *.
  set (d1 := pd.set_column "sentiment" vals d) in *.
  set (h1 := <[l1 := d1]> h) in *.
  assert (h1 !! l1 = Some d1) as Hd1 by apply lookup_insert_eq.
  assert (map (λ r, cell r "sentiment") (rows d1) = vals) as Hcol
    by (by apply set_column_cells).
  assert (forallb is_float vals = true) as Hfl.
  { apply forallb_forall. intros v Hv%list_elem_of_In.
    apply list_elem_of_lookup in Hv as [i Hv].
    destruct (lookup_lt_is_Some_2 (map (λ r, cell r "quotation") (rows d)) i)
      as [q Hq].
    { rewrite length_map, <- Hlen. by eapply lookup_lt_Some. }
    destruct (rmapM_lookup _ _ _ _ _ Hvals Hq) as (v' & Hv' & Hsc).
    rewrite Hv in Hv'. injection Hv' as <-.
    unfold score in Hsc. destruct q; try discriminate. by injection Hsc as <-. }
  destruct (categorize_cells_floats neg_treshhold pos_treshhold vals Hfl)
    as [cats Hcats].
  assert (length cats = length (rows d1)) as Hlen2.
  { rewrite (rmapM_length _ _ _ Hcats), Hlen. symmetry.
    by apply set_column_length. }
  rewrite <- Hcol in Hcats.
  pose proof (copy_then_setitem_run h1 l1 d1 "sentiment"
                (rmapM (categorize_cell neg_treshhold pos_treshhold))
                "sentiment_category" cats Hd1 (set_column_has _ _ _)
                Hcats Hlen2) as Hrun2. cbv zeta in Hrun2.
  set (l2 := fresh (dom h1)) in *.
  assert (l1 ≠ df) as Hne1 by (by eapply fresh_store_ne).
  assert (h1 !! df = Some d) as Hdf1 by (subst h1; by rewrite lookup_insert_ne).
  assert (l2 ≠ df) as Hne2 by (by eapply fresh_store_ne).
  assert (l2 ≠ l1) as Hne3 by (by eapply fresh_store_ne).
  exists l1, h1, l2, (<[l2 := pd.set_column "sentiment_category" cats d1]> h1),
    (pd.set_column "sentiment_category" cats d1).
  split; [exact Hrun1|]. split; [exact Hrun2|].
  split; [exact Hne1|]. split; [exact Hne2|]. split; [exact Hne3|].
  split; [by rewrite lookup_insert_ne|].
  split; [apply lookup_insert_eq|].
  split.
  { rewrite set_column_length by assumption. by apply set_column_length. }
  intros i r q Hr Hq.
  assert (map (λ r, cell r "quotation") (rows d) !! i = Some (VStr q)) as Hqi.
  { rewrite list_lookup_fmap, Hr. simpl. by rewrite Hq. }
  destruct (rmapM_lookup _ _ _ _ _ Hvals Hqi) as (v & Hv & Hsc).
  simpl in Hsc. injection Hsc as <-.
  assert (rows d1 !! i = Some (<["sentiment" := VFloat (polarity_compound q)]> r))
    as Hr1 by (by apply set_column_lookup).
  assert (map (λ r, cell r "sentiment") (rows d1) !! i
          = Some (VFloat (polarity_compound q))) as Hsi.
  { rewrite list_lookup_fmap, Hr1. simpl. by rewrite cell_insert_eq. }
  destruct (rmapM_lookup _ _ _ _ _ Hcats Hsi) as (c & Hc' & Hcat).
  simpl in Hcat. injection Hcat as <-.
  by apply set_column_lookup.
Qed.

Lemma sentiment_pipeline_witness :
  ∃ scored h1 final h2 d2,
    add_polarity_score_to_df Sample.vader 0 {[ 0%nat := Sample.attributed ]}
    = (Ok scored, h1)
    ∧ add_sentiment_category scored (PyFloat.neg (float "0.05")) (float "0.05") h1
      = (Ok final, h2)
    ∧ h2 !! 0%nat = Some Sample.attributed
    ∧ h2 !! final = Some d2
    ∧ length (rows d2) = 3%nat.
Proof.
  edestruct (sentiment_pipeline Sample.vader {[ 0%nat := Sample.attributed ]} 0
               Sample.attributed (PyFloat.neg (float "0.05")) (float "0.05"))
    as (scored & h1 & final & h2 & d2 & H1 & H2 & _ & _ & _ & H3 & H4 & H5 & _).
  - reflexivity.
  - apply (bool_decide_unpack _). vm_compute. exact I.
  - vm_compute. reflexivity.
  - exists scored, h1, final, h2, d2. auto.
Defined.

(** ** Years do not overlap *)

Lemma pretty_N_char_digit x : PyFloat.is_digit (pretty_N_char x) = true.
Proof. unfold pretty_N_char. by repeat case_match. Qed.

Lemma pretty_N_go_digits x s :
  PyFloat.all_digits s = true → PyFloat.all_digits (pretty_N_go x s) = true.
Proof.
  revert s. induction (N.lt_wf_0 x) as [x _ IH]; intros s Hs.
  destruct (decide (0 < x)%N) as [Hx|Hx].
  - rewrite pretty_N_go_step by assumption. apply IH.
    + by apply N.div_lt.
    + simpl. by rewrite pretty_N_char_digit.
  - assert (x = 0%N) as -> by lia. by rewrite pretty_N_go_0.
Qed.

Lemma pretty_N_go_length x s :
  (String.length s ≤ String.length (pretty_N_go x s))%nat.
Proof.
  revert s. induction (N.lt_wf_0 x) as [x _ IH]; intros s.
  destruct (decide (0 < x)%N) as [Hx|Hx].
  - rewrite pretty_N_go_step by assumption.
    etrans; [|apply IH; by apply N.div_lt]. simpl. lia.
  - assert (x = 0%N) as -> by lia. by rewrite pretty_N_go_0.
Qed.

(** The decimal writing of a natural number: digits, at least one. *)
Lemma pretty_N_digits (x : N) :
  PyFloat.all_digits (pretty x) = true ∧ pretty x ≠ "".
Proof.
  unfold pretty, pretty_N. destruct (decide (x = 0%N)) as [->|Hx]; [done|].
  split; [by apply pretty_N_go_digits|].
  rewrite pretty_N_go_step by lia. intros E.
  pose proof (pretty_N_go_length (x `div` 10)
                (String (pretty_N_char (x `mod` 10)) "")) as Hlen.
  rewrite E in Hlen. simpl in Hlen. lia.
Qed.

(** Two runs of digits, each followed by a character that is no digit,
    agree when the whole strings do. *)
Lemma digits_then_other (d1 d2 : string) c1 c2 r1 r2 :
  PyFloat.all_digits d1 = true → PyFloat.all_digits d2 = true →
  PyFloat.is_digit c1 = false → PyFloat.is_digit c2 = false →
  d1 +:+ String c1 r1 = d2 +:+ String c2 r2 → d1 = d2.
Proof.
  intros H1 H2 Hc1 Hc2. revert d2 H2.
  induction d1 as [|a d1 IH]; intros [|b d2] H2 E.
  - reflexivity.
  - injection E as -> _. simpl in H2. rewrite Hc1 in H2. discriminate.
  - injection E as -> _. simpl in H1. rewrite Hc2 in H1. discriminate.
  - change (String a (d1 +:+ String c1 r1) = String b (d2 +:+ String c2 r2)) in E.
    injection E as -> E. simpl in H1, H2.
    apply andb_true_iff in H1 as [_ H1]. apply andb_true_iff in H2 as [_ H2].
    f_equal. by apply IH.
Qed.

(** [str] of an integer year, followed by a dash: the year can be read back. *)
Lemma str_year_dash (y1 y2 : Z) r1 r2 :
  pretty y1 +:+ "-" +:+ r1 = pretty y2 +:+ "-" +:+ r2 → y1 = y2.
Proof.
  assert (∀ x : N, ∃ a s, pretty x = String a s ∧ PyFloat.is_digit a = true)
    as Hhead.
  { intros x. destruct (pretty_N_digits x) as [Hd Hne].
    destruct (pretty x) as [|a s]; [done|]. exists a, s. split; [done|].
    simpl in Hd. by apply andb_true_iff in Hd as [? _]. }
  assert (∀ x1 x2 : N, pretty x1 +:+ "-" +:+ r1 = pretty x2 +:+ "-" +:+ r2 →
                        x1 = x2) as Hnat.
  { intros x1 x2 E. apply (inj pretty).
    eapply digits_then_other; [apply pretty_N_digits..| | |exact E]; done. }
  assert (∀ p, pretty (Z.pos p) = pretty (N.pos p)) as Hp by done.
  assert (∀ p, pretty (Z.neg p) = "-" +:+ pretty (N.pos p)) as Hn by done.
  assert (pretty 0%Z = pretty 0%N) as H0 by done.
  intros E.
  destruct y1 as [|p1|p1], y2 as [|p2|p2]; rewrite ?Hp, ?Hn, ?H0 in E.
  - reflexivity.
  - pose proof (Hnat _ _ E). discriminate.
  - destruct (Hhead 0%N) as (a & s & Ha & Hd).
    rewrite Ha in E. injection E as -> _. discriminate.
  - pose proof (Hnat _ _ E). discriminate.
  - pose proof (Hnat _ _ E) as [= ->]. reflexivity.
  - destruct (Hhead (N.pos p1)) as (a & s & Ha & Hd).
    rewrite Ha in E. injection E as -> _. discriminate.
  - destruct (Hhead 0%N) as (a & s & Ha & Hd).
    rewrite Ha in E. injection E as <- _. discriminate.
  - destruct (Hhead (N.pos p2)) as (a & s & Ha & Hd).
    rewrite Ha in E. injection E as <- _. discriminate.
  - rewrite !app_assoc_string in E.
    apply (inj (String.app "-")) in E.
    pose proof (Hnat _ _ E) as [= ->]. reflexivity.
Qed.

Lemma find_csv_filenames_elem os_listdir path_to_dir year found name :
  find_csv_filenames os_listdir path_to_dir year = Ok found →
  name ∈ found →
  ∃ rest, name = "quotes-" +:+ str year +:+ "-" +:+ rest.
Proof.
  unfold find_csv_filenames, mbind, result_bind.
  destruct (os_listdir path_to_dir) as [filenames|]; [|discriminate].
  intros H.
  assert (found = List.filter
                    (λ filename, startswith filename ("quotes-" +:+ str year +:+ "-"))
                    filenames) as -> by congruence.
  rewrite list_elem_of_In, filter_In. intros [_ Hs].
  apply startswith_spec in Hs as [rest ->]. exists rest.
  by rewrite !app_assoc_string.
Qed.

(** X7: the scans of two different integer years have no file in common:
    the dash that ends the prefix keeps year 202 from claiming the files of
    2020. *)
Theorem find_csv_filenames_years_disjoint
    (os_listdir : string → result (list string)) (path_to_dir : string)
    (y1 y2 : Z) (found1 found2 : list string) (name : string) :
  find_csv_filenames os_listdir path_to_dir (PyInt y1) = Ok found1 →
  find_csv_filenames os_listdir path_to_dir (PyInt y2) = Ok found2 →
  name ∈ found1 → name ∈ found2 → y1 = y2.
Proof.
  intros H1 H2 Hn1 Hn2.
  destruct (find_csv_filenames_elem _ _ _ _ _ H1 Hn1) as [r1 E1].
  destruct (find_csv_filenames_elem _ _ _ _ _ H2 Hn2) as [r2 E2].
  rewrite E1 in E2. cbn [str] in E2.
  apply (inj (String.app "quotes-")) in E2.
  by eapply str_year_dash.
Qed.

Lemma find_csv_filenames_years_disjoint_witness :
  find_csv_filenames Sample.listing "Data/" (PyInt 2020)
  = Ok ["quotes-2020-1"; "quotes-2020-2"]
  ∧ (2020 = 2020)%Z.
Proof.
  split; [reflexivity|].
  apply (find_csv_filenames_years_disjoint Sample.listing "Data/" 2020 2020
           ["quotes-2020-1"; "quotes-2020-2"] ["quotes-2020-1"; "quotes-2020-2"]
           "quotes-2020-1");
    try reflexivity; apply (bool_decide_unpack _); vm_compute; exact I.
Defined.

(** ** More on the Speaker Extractor *)

(** The loop of get_quotes, file by file. *)
Lemma get_quotes_unfold os_listdir pd_read_csv speaker year first names :
  find_csv_filenames os_listdir "Data/" year = Ok (first :: names) →
  get_quotes os_listdir pd_read_csv speaker year
  = (df1 ← pd_read_csv ("Data/" +:+ first);
     df_all ← filter_eq "speaker" speaker df1;
     rfoldM (λ df_all name,
               current_df ← pd_read_csv ("Data/" +:+ name);
               df_elo_current ← filter_eq "speaker" speaker current_df;
               Ok (pd.concat df_all df_elo_current)) df_all names).
Proof.
  intros Hscan. unfold get_quotes. cbv zeta. unfold mbind at 1, result_bind at 1.
  rewrite Hscan. cbn [np_index lookup list_lookup length].
  rewrite Nat.sub_succ, Nat.sub_0_r.
  unfold mbind, result_bind.
  destruct (pd_read_csv ("Data/" +:+ first)) as [d1|]; [|reflexivity].
  destruct (filter_eq "speaker" speaker d1) as [acc|]; [|reflexivity].
  exact (rfoldM_seq_index
           (λ df_all name,
              match pd_read_csv ("Data/" +:+ name) with
              | Ok current_df =>
                  match filter_eq "speaker" speaker current_df with
                  | Ok df_elo_current => Ok (pd.concat df_all df_elo_current)
                  | Err e => Err e
                  end
              | Err e => Err e
              end) names [first] acc).
Qed.

Lemma rfoldM_app {A B} (g : A → B → result A) (l1 l2 : list B) (a : A) :
  rfoldM g a (l1 ++ l2) = (a' ← rfoldM g a l1; rfoldM g a' l2).
Proof.
  revert a. induction l1 as [|b l1 IH]; intros a; [reflexivity|].
  cbn [app rfoldM]. unfold mbind, result_bind in *.
  destruct (g a b); [apply IH | reflexivity].
Qed.

Lemma filter_eq_missing speaker d :
  "speaker" ∉ columns d → filter_eq "speaker" speaker d = Err (KeyError "speaker").
Proof.
  intros H. unfold filter_eq, mbind, result_bind. by rewrite getitem_err.
Qed.

(** X8: get_quotes gives no partial table: when the files before some file
    of the scan read well and that file cannot be read, the error of that
    read is the outcome; when it reads as a table without a 'speaker'
    column, the outcome is KeyError('speaker'). *)
Theorem get_quotes_read_error
    (os_listdir : string → result (list string))
    (pd_read_csv : string → result DataFrame)
    (speaker : string) (year : pyobj)
    (before : list string) (name : string) (after : list string) :
  find_csv_filenames os_listdir "Data/" year = Ok (before ++ name :: after) →
  (∀ n, n ∈ before →
     ∃ d, pd_read_csv ("Data/" +:+ n) = Ok d ∧ "speaker" ∈ columns d) →
  (∀ e, pd_read_csv ("Data/" +:+ name) = Err e →
        get_quotes os_listdir pd_read_csv speaker year = Err e)
  ∧ (∀ d, pd_read_csv ("Data/" +:+ name) = Ok d → "speaker" ∉ columns d →
          get_quotes os_listdir pd_read_csv speaker year
          = Err (KeyError "speaker")).
Proof.
  intros Hscan Hbefore.
  assert (∀ e,
            (df ← pd_read_csv ("Data/" +:+ name); filter_eq "speaker" speaker df)
            = Err e →
            get_quotes os_listdir pd_read_csv speaker year = Err e) as Hfail.
  { intros e Hname. unfold mbind, result_bind in Hname.
    destruct before as [|first before].
    - rewrite (get_quotes_unfold _ _ _ _ name after Hscan).
      unfold mbind, result_bind.
      destruct (pd_read_csv ("Data/" +:+ name)) as [d|]; [|done].
      by rewrite Hname.
    - rewrite (get_quotes_unfold _ _ _ _ first (before ++ name :: after) Hscan).
      destruct (Hbefore first) as (d1 & Hd1 & Hc1); [by left|].
      unfold mbind at 1 2, result_bind at 1 2.
      rewrite Hd1, filter_eq_speaker by assumption.
      rewrite rfoldM_app.
      destruct (get_quotes_loop pd_read_csv speaker before
                  {| columns := columns d1; rows := said_by speaker d1 |})
        as (out & Hout & _).
      { intros n Hn. apply Hbefore. by right. }
      rewrite Hout. unfold mbind at 1, result_bind at 1.
      cbn [rfoldM]. unfold mbind, result_bind.
      destruct (pd_read_csv ("Data/" +:+ name)) as [d|]; [|done].
      by rewrite Hname. }
  split.
  - intros e He. apply Hfail. by rewrite He.
  - intros d Hd Hc. apply Hfail. rewrite Hd. unfold mbind, result_bind.
    by apply filter_eq_missing.
Qed.

Lemma get_quotes_read_error_witness :
  get_quotes Sample.listing
    (λ path, if bool_decide (path = "Data/quotes-2020-2")
             then Err OSError else Sample.chunk_files path)
    "A" (PyInt 2020) = Err OSError.
Proof.
  refine (proj1 (get_quotes_read_error Sample.listing _ "A" (PyInt 2020)
                   ["quotes-2020-1"] "quotes-2020-2" [] eq_refl _) OSError eq_refl).
  intros n Hn. apply list_elem_of_singleton in Hn as ->.
  eexists. split; [reflexivity|].
  apply (bool_decide_unpack _). vm_compute. exact I.
Defined.

Lemma get_quotes_loop_columns pd_read_csv speaker cols
    (names : list string) (acc out : DataFrame) :
  (∀ name d, name ∈ names → pd_read_csv ("Data/" +:+ name) = Ok d →
             columns d = cols) →
  columns acc = cols →
  rfoldM (λ df_all name,
            current_df ← pd_read_csv ("Data/" +:+ name);
            df_elo_current ← filter_eq "speaker" speaker current_df;
            Ok (pd.concat df_all df_elo_current)) acc names = Ok out →
  columns out = cols.
Proof.
  unfold mbind, result_bind.
  revert acc. induction names as [|name names IH]; intros acc Hfiles Hacc.
  - intros [= <-]. exact Hacc.
  - cbn [rfoldM]. unfold mbind, result_bind.
    destruct (pd_read_csv ("Data/" +:+ name)) as [d|] eqn:Hd; [|discriminate].
    unfold filter_eq, mbind, result_bind, pd.getitem, pd.getitem_mask.
    destruct (bool_decide ("speaker" ∈ columns d)); [|discriminate].
    destruct (_ =? _)%nat; [|discriminate].
    apply IH.
    + intros n d' Hn. apply Hfiles. by right.
    + cbn [pd.concat columns]. rewrite Hacc, (Hfiles name d) by (done || by left).
      rewrite new_labels_known; [apply app_nil_r|].
      apply Forall_forall. auto.
Qed.

(** X9: when the files of the scan all have the same columns, so has the
    table get_quotes returns; and when no row of them is by the speaker the
    call still returns: a table with those columns and no row. *)
Theorem get_quotes_schema
    (os_listdir : string → result (list string))
    (pd_read_csv : string → result DataFrame)
    (speaker : string) (year : pyobj) (filenames cols : list string) :
  find_csv_filenames os_listdir "Data/" year = Ok filenames →
  filenames ≠ [] →
  (∀ name, name ∈ filenames →
     ∃ d, pd_read_csv ("Data/" +:+ name) = Ok d
          ∧ "speaker" ∈ columns d ∧ columns d = cols) →
  ∃ df_all,
    get_quotes os_listdir pd_read_csv speaker year = Ok df_all
    ∧ columns df_all = cols
    ∧ ((∀ name d r, name ∈ filenames → pd_read_csv ("Data/" +:+ name) = Ok d →
                    r ∈ rows d → cell r "speaker" ≠ VStr speaker) →
       rows df_all = []).
Proof.
  intros Hscan Hne Hfiles.
  destruct filenames as [|first names]; [done|]. clear Hne.
  destruct (Hfiles first) as (d1 & Hd1 & Hc1 & Hcols1); [by left|].
  destruct (get_quotes_loop pd_read_csv speaker names
              {| columns := columns d1; rows := said_by speaker d1 |})
    as (out & Hout & Hrows).
  { intros n Hn. destruct (Hfiles n) as (d & ? & ? & _); [by right|]. eauto. }
  exists out. split; [|split].
  - rewrite (get_quotes_unfold _ _ _ _ first names Hscan).
    unfold mbind at 1 2, result_bind at 1 2.
    by rewrite Hd1, filter_eq_speaker.
  - refine (get_quotes_loop_columns pd_read_csv speaker cols names
              {| columns := columns d1; rows := said_by speaker d1 |} out
              _ Hcols1 Hout).
    intros n d Hn Hd. destruct (Hfiles n) as (d' & Hd' & _ & Hcols'); [by right|].
    congruence.
  - intros Hnone. rewrite Hrows. cbn [rows].
    assert (∀ n, n ∈ first :: names → chunk_rows pd_read_csv speaker n = []) as Hempty.
    { intros n Hn. unfold chunk_rows.
      destruct (pd_read_csv ("Data/" +:+ n)) as [d|] eqn:Hd; [|done].
      destruct (said_by speaker d) as [|r rs] eqn:Hs; [done|].
      assert (r ∈ said_by speaker d) as Hr by (rewrite Hs; by left).
      apply said_by_spec in Hr as [Hr Hsp]. by destruct (Hnone n d r). }
    assert (said_by speaker d1 = []) as ->.
    { specialize (Hempty first (list_elem_of_here _ _)).
      unfold chunk_rows in Hempty. by rewrite Hd1 in Hempty. }
    cbn [app]. clear -Hempty. induction names as [|n names IH]; [done|].
    cbn [flat_map]. rewrite (Hempty n) by (right; by left).
    apply IH. intros m Hm. apply Hempty.
    apply elem_of_cons in Hm as [->|Hm]; [by left|]. right. by right.
Qed.

Lemma get_quotes_schema_witness :
  ∃ df_all,
    get_quotes Sample.listing Sample.chunk_files "Nobody" (PyInt 2020) = Ok df_all
    ∧ columns df_all = ["speaker"; "quotation"].
Proof.
  destruct (get_quotes_schema Sample.listing Sample.chunk_files "Nobody" (PyInt 2020)
              ["quotes-2020-1"; "quotes-2020-2"] ["speaker"; "quotation"])
    as (df_all & Hrun & Hcols & _).
  - reflexivity.
  - discriminate.
  - intros name Hname.
    apply list_elem_of_In in Hname. simpl in Hname.
    destruct Hname as [<-|[<-|[]]]; eexists; (split; [reflexivity|]);
      (split; [|reflexivity]); apply (bool_decide_unpack _); vm_compute; exact I.
  - exists df_all. auto.
Defined.

(** ** More on the Chunker *)

Lemma chunks_go_fuel {A} (C f1 f2 : nat) (l : list A) :
  (1 ≤ C)%nat → (length l ≤ f1)%nat → (length l ≤ f2)%nat →
  chunks_go f1 C l = chunks_go f2 C l.
Proof.
  intros HC. revert f2 l. induction f1 as [|f1 IH]; intros f2 l H1 H2.
  - destruct l; [by destruct f2 | simpl in H1; lia].
  - destruct l as [|x l]; [by destruct f2|].
    destruct f2 as [|f2]; [simpl in H2; lia|].
    cbn [chunks_go]. f_equal.
    apply IH; rewrite length_drop; simpl in *; lia.
Qed.

Lemma chunks_cons {A} (C : nat) (l : list A) :
  (1 ≤ C)%nat → l ≠ [] →
  chunks C l = take C l :: chunks C (drop C l).
Proof.
  intros HC Hl. unfold chunks. destruct l as [|x l]; [done|].
  cbn [length chunks_go]. f_equal.
  apply chunks_go_fuel; [assumption| |lia].
  rewrite length_drop. simpl. lia.
Qed.

(** Every batch but the last one is full. *)
Lemma chunks_full {A} (C : nat) (l : list A) good bad rest :
  (1 ≤ C)%nat →
  chunks C l = good ++ bad :: rest →
  Forall (λ batch, length batch = C) good.
Proof.
  intros HC. revert l. induction good as [|g good IH]; intros l Hl;
    [constructor|].
  assert (l ≠ []) as Hne by (by intros ->).
  rewrite (chunks_cons C l HC Hne) in Hl. cbn [app] in Hl.
  injection Hl as <- Hl.
  assert (drop C l ≠ []) as Hdrop.
  { intros E. rewrite E in Hl. by destruct good. }
  constructor; [|by eapply IH].
  rewrite length_take.
  assert (C < length l)%nat; [|lia].
  destruct (le_lt_dec (length l) C) as [Hle|]; [|assumption].
  by rewrite drop_ge in Hdrop.
Qed.

Section ChunkerMore.

Context {bytes : Type}.
Variable read_json_lines : bytes → result (list (result (option string))).
Variable read_json : list string → result DataFrame.
Variable to_csv : DataFrame → bytes.
Variable bz2_compress : bytes → bytes.

(** The paths a run over [n] batches touches. *)
Lemma chunk_paths_cases outputname (n : nat) (p : string) :
  (∃ i, (i < n)%nat ∧ (p = chunk_path outputname (1 + Z.of_nat i)
                        ∨ p = chunk_csv_path outputname (1 + Z.of_nat i)))
  ∨ (∀ i, (i < n)%nat → p ≠ chunk_path outputname (1 + Z.of_nat i)
                         ∧ p ≠ chunk_csv_path outputname (1 + Z.of_nat i)).
Proof.
  induction n as [|n [(i & Hi & Hp)|IH]].
  - right. intros i Hi. lia.
  - left. exists i. split; [lia|assumption].
  - destruct (decide (p = chunk_path outputname (1 + Z.of_nat n))) as [H1|H1];
      [left; exists n; split; [lia|by left]|].
    destruct (decide (p = chunk_csv_path outputname (1 + Z.of_nat n))) as [H2|H2];
      [left; exists n; split; [lia|by right]|].
    right. intros i Hi. destruct (decide (i = n)) as [->|Hne]; [done|].
    apply IH. lia.
Qed.

Lemma chunkify_unfold filepath chunk_size outputname
    (fs : gmap string bytes) source lines :
  (1 ≤ chunk_size)%Z →
  fs !! filepath = Some source →
  read_json_lines source = Ok lines →
  chunkify read_json_lines read_json to_csv bz2_compress
    filepath chunk_size outputname fs
  = chunkify_loop read_json to_csv bz2_compress outputname 1
      (chunks (Z.to_nat chunk_size) lines) fs.
Proof.
  intros HC Hsrc Hjson.
  unfold chunkify. rewrite (proj2 (Z.ltb_ge chunk_size 1)) by lia.
  unfold read, lift. unfold mbind, St_bind. by rewrite Hsrc, Hjson.
Qed.

Lemma chunkify_run filepath chunk_size outputname
    (fs : gmap string bytes) source lines tables :
  (1 ≤ chunk_size)%Z →
  fs !! filepath = Some source →
  read_json_lines source = Ok lines →
  Forall2 (λ batch chunk, next_chunk read_json batch = Ok chunk)
          (chunks (Z.to_nat chunk_size) lines) tables →
  ∃ fs',
    chunkify read_json_lines read_json to_csv bz2_compress
      filepath chunk_size outputname fs
    = (Ok (), fs')
    ∧ (∀ i chunk, tables !! i = Some chunk →
         fs' !! chunk_path outputname (1 + Z.of_nat i)
         = Some (chunk_archive to_csv bz2_compress chunk))
    ∧ (∀ i, (i < length tables)%nat →
         fs' !! chunk_csv_path outputname (1 + Z.of_nat i) = None)
    ∧ (∀ p, (∀ i, (i < length tables)%nat →
                  p ≠ chunk_path outputname (1 + Z.of_nat i)
                  ∧ p ≠ chunk_csv_path outputname (1 + Z.of_nat i)) →
            fs' !! p = fs !! p).
Proof.
  intros HC Hsrc Hjson Htables.
  rewrite (chunkify_unfold _ _ _ _ source lines HC Hsrc Hjson).
  by apply chunkify_loop_run.
Qed.

(** X10: running chunkify a second time, on the files the first run left,
    changes nothing: the same archives are written over themselves. *)
Theorem chunkify_again filepath chunk_size outputname
    (fs fs' : gmap string bytes) source lines :
  (1 ≤ chunk_size)%Z →
  fs !! filepath = Some source →
  read_json_lines source = Ok lines →
  (∀ b, filepath ≠ chunk_path outputname b
        ∧ filepath ≠ chunk_csv_path outputname b) →
  chunkify read_json_lines read_json to_csv bz2_compress
    filepath chunk_size outputname fs
  = (Ok (), fs') →
  chunkify read_json_lines read_json to_csv bz2_compress
    filepath chunk_size outputname fs'
  = (Ok (), fs').
Proof.
  intros HC Hsrc Hjson Hfresh Hrun.
  pose proof Hrun as Hloop.
  rewrite (chunkify_unfold _ _ _ _ source lines HC Hsrc Hjson) in Hloop.
  apply chunkify_loop_inv in Hloop as (tables & Htables).
  destruct (chunkify_run filepath chunk_size outputname fs source lines tables
              HC Hsrc Hjson Htables) as (fs1 & Hrun1 & Hbz1 & Hcsv1 & Hframe1).
  rewrite Hrun in Hrun1. injection Hrun1 as <-.
  assert (fs' !! filepath = Some source) as Hsrc'.
  { rewrite Hframe1; [assumption|]. intros i _. apply Hfresh. }
  destruct (chunkify_run filepath chunk_size outputname fs' source lines tables
              HC Hsrc' Hjson Htables) as (fs2 & Hrun2 & Hbz2 & Hcsv2 & Hframe2).
  rewrite Hrun2. f_equal. apply map_eq. intros p.
  destruct (chunk_paths_cases outputname (length tables) p)
    as [(i & Hi & [->| ->])|Hother].
  - destruct (lookup_lt_is_Some_2 _ _ Hi) as [chunk Hchunk].
    by rewrite (Hbz1 i chunk Hchunk), (Hbz2 i chunk Hchunk).
  - by rewrite Hcsv1, Hcsv2.
  - by apply Hframe2.
Qed.

End ChunkerMore.

Lemma chunkify_again_witness :
  ∃ fs',
    chunkify Sample.read_json_lines Sample.read_json Sample.Csv Sample.Bz2
      "quotes-2020.json.bz2" 2 "quotes-2020" Sample.disk = (Ok (), fs')
    ∧ chunkify Sample.read_json_lines Sample.read_json Sample.Csv Sample.Bz2
        "quotes-2020.json.bz2" 2 "quotes-2020" fs' = (Ok (), fs').
Proof.
  eexists. split; [reflexivity|].
  eapply (chunkify_again Sample.read_json_lines Sample.read_json
            Sample.Csv Sample.Bz2
            "quotes-2020.json.bz2" 2 "quotes-2020" Sample.disk _
            (Sample.Bz2 (Sample.Json (map Some Sample.quotebank)))
            (map Ok (map Some Sample.quotebank))).
  - lia.
  - reflexivity.
  - reflexivity.
  - intros b. split; discriminate.
  - reflexivity.
Defined.

(** *** A batch that cannot be read *)

Section ChunkerMalformed.

Context {bytes : Type}.
Variable read_json_lines : bytes → result (list (result (option string))).
Variable read_json : list string → result DataFrame.
Variable to_csv : DataFrame → bytes.
Variable bz2_compress : bytes → bytes.

Lemma chunkify_loop_app outputname b
    (l1 l2 : list (list (result (option string))))
    (fs : gmap string bytes) :
  chunkify_loop read_json to_csv bz2_compress outputname b (l1 ++ l2) fs
  = match chunkify_loop read_json to_csv bz2_compress outputname b l1 fs with
    | (Ok _, fs1) =>
        chunkify_loop read_json to_csv bz2_compress outputname
          (b + Z.of_nat (length l1)) l2 fs1
    | (Err e, fs1) => (Err e, fs1)
    end.
Proof.
  revert b fs. induction l1 as [|lines l1 IH]; intros b fs.
  - cbn [app chunkify_loop length]. unfold mret, St_ret.
    by rewrite Z.add_0_r.
  - cbn [app chunkify_loop length]. unfold mbind, St_bind.
    destruct (chunkify_body _ _ _ _ _ _ fs) as [[[]|e] fs1]; [|reflexivity].
    rewrite IH. replace (b + 1 + Z.of_nat (length l1))
      with (b + Z.of_nat (S (length l1))) by lia.
    reflexivity.
Qed.

(** X11: a batch with a line that cannot be read, or that the reader cannot
    parse, stops the run with that error when the batch is reached: the k
    batches before it, each of chunk_size lines (the blank ones counted),
    are on disk as the archives 1 to k of their tables, no text file is
    left, and nothing else was written, in particular no archive for the
    batch that failed. *)
Theorem chunkify_malformed_line filepath chunk_size outputname
    (fs : gmap string bytes) source lines good bad rest tables e :
  (1 ≤ chunk_size)%Z →
  fs !! filepath = Some source →
  read_json_lines source = Ok lines →
  chunks (Z.to_nat chunk_size) lines = good ++ bad :: rest →
  Forall2 (λ batch chunk, next_chunk read_json batch = Ok chunk) good tables →
  next_chunk read_json bad = Err e →
  let k := length good in
  ∃ fs',
    chunkify read_json_lines read_json to_csv bz2_compress
      filepath chunk_size outputname fs
    = (Err e, fs')
    ∧ Forall (λ batch, length batch = Z.to_nat chunk_size) good
    ∧ (∀ i chunk, tables !! i = Some chunk →
         fs' !! chunk_path outputname (1 + Z.of_nat i)
         = Some (chunk_archive to_csv bz2_compress chunk))
    ∧ (∀ i, (i < k)%nat →
         fs' !! chunk_csv_path outputname (1 + Z.of_nat i) = None)
    ∧ (∀ p, (∀ i, (i < k)%nat →
                  p ≠ chunk_path outputname (1 + Z.of_nat i)
                  ∧ p ≠ chunk_csv_path outputname (1 + Z.of_nat i)) →
            fs' !! p = fs !! p).
Proof.
  intros HC Hsrc Hjson Hchunks Hgood Hbad k.
  assert (1 ≤ Z.to_nat chunk_size)%nat as HC' by lia.
  assert (length tables = k) as Hk
    by (subst k; symmetry; by eapply Forall2_length).
  destruct (chunkify_loop_run read_json to_csv bz2_compress outputname
              good tables 1 fs Hgood)
    as (fs' & Hrun & Hbz & Hcsv & Hframe).
  rewrite Hk in Hcsv, Hframe.
  exists fs'.
  split; [|split; [by eapply chunks_full|
           split; [exact Hbz|split; [exact Hcsv|exact Hframe]]]].
  rewrite (chunkify_unfold read_json_lines read_json to_csv bz2_compress
             _ _ _ _ source lines HC Hsrc Hjson).
  rewrite Hchunks, chunkify_loop_app, Hrun.
  cbn [chunkify_loop]. unfold mbind, St_bind.
  by rewrite (chunkify_body_malformed _ _ _ _ _ _ e).
Qed.

End ChunkerMalformed.

(** The five quotes followed by a malformed line, cut by two: the third
    batch fails, two archives are on disk. *)
Lemma chunkify_malformed_line_witness :
  ∃ fs',
    chunkify (λ _ : Sample.blob,
                Ok (map Ok (map Some (Sample.quotebank ++ ["?"]))))
      Sample.read_json Sample.Csv Sample.Bz2
      "quotes-2020.json.bz2" 2 "quotes-2020" Sample.disk
    = (Err ValueError, fs')
    ∧ fs' !! chunk_csv_path "quotes-2020" 2 = None.
Proof.
  destruct (chunkify_malformed_line
              (λ _ : Sample.blob,
                 Ok (map Ok (map Some (Sample.quotebank ++ ["?"]))))
              Sample.read_json Sample.Csv Sample.Bz2
              "quotes-2020.json.bz2" 2 "quotes-2020"
              Sample.disk (Sample.Bz2 (Sample.Json (map Some Sample.quotebank)))
              (map Ok (map Some (Sample.quotebank ++ ["?"])))
              [[Ok (Some "A1"); Ok (Some "A2")]; [Ok (Some "B3"); Ok (Some "A4")]]
              [Ok (Some "A5"); Ok (Some "?")] []
              (take 2 Sample.quotebank_tables) ValueError)
    as (fs' & Hrun & _ & _ & Hcsv & _).
  - lia.
  - reflexivity.
  - reflexivity.
  - reflexivity.
  - repeat constructor.
  - reflexivity.
  - exists fs'. split; [exact Hrun|]. apply (Hcsv 1%nat). vm_compute. lia.
Defined.

(** ** Chunking a year, then extracting a speaker *)

Lemma chunk_name_path outputname b :
  "Data/" +:+ chunk_name outputname b = chunk_path outputname b.
Proof.
  unfold chunk_name, chunk_path, chunk_csv_path.
  by rewrite !app_assoc_string.
Qed.

Lemma chunk_name_startswith (y : Z) b :
  startswith (chunk_name ("quotes-" +:+ pretty y) b)
             ("quotes-" +:+ str (PyInt y) +:+ "-") = true.
Proof.
  apply startswith_spec. exists (pretty b +:+ ".csv.bz2").
  unfold chunk_name. cbn [str]. by rewrite !app_assoc_string.
Qed.

Lemma new_labels_elem c l1 l2 :
  c ∈ l2 → c ∈ l1 ∨ c ∈ pd.new_labels l1 l2.
Proof.
  revert l1. induction l2 as [|x l2 IH]; intros l1 Hc.
  - by apply elem_of_nil in Hc.
  - cbn [pd.new_labels]. apply elem_of_cons in Hc as [->|Hc].
    + destruct (bool_decide (x ∈ l1)) eqn:Hx.
      * left. by apply bool_decide_eq_true in Hx.
      * right. by left.
    + destruct (bool_decide (x ∈ l1)).
      * by apply IH.
      * destruct (IH (l1 ++ [x]) Hc) as [H|H].
        -- apply elem_of_app in H as [H|H%list_elem_of_singleton];
             [by left | right; subst; by left].
        -- right. by right.
Qed.

Lemma flat_map_seq_lookup {A B} (g : nat → list B) (f : A → list B)
    (l : list A) (k : nat) :
  (∀ i x, l !! i = Some x → g (k + i)%nat = f x) →
  flat_map g (seq k (length l)) = flat_map f l.
Proof.
  revert k. induction l as [|x l IH]; intros k H; [reflexivity|].
  cbn [length seq flat_map]. f_equal.
  - rewrite <- (H 0%nat x eq_refl). f_equal. lia.
  - apply IH. intros i y Hi. rewrite <- (H (S i) y Hi). f_equal. lia.
Qed.

Lemma get_quotes_run os_listdir pd_read_csv speaker year filenames :
  find_csv_filenames os_listdir "Data/" year = Ok filenames →
  filenames ≠ [] →
  (∀ name, name ∈ filenames →
     ∃ d, pd_read_csv ("Data/" +:+ name) = Ok d ∧ "speaker" ∈ columns d) →
  ∃ df_all,
    get_quotes os_listdir pd_read_csv speaker year = Ok df_all
    ∧ rows df_all = flat_map (chunk_rows pd_read_csv speaker) filenames.
Proof.
  intros Hscan Hne Hfiles.
  destruct filenames as [|first names]; [done|]. clear Hne.
  destruct (Hfiles first) as (d1 & Hd1 & Hc1); [by left|].
  destruct (get_quotes_loop pd_read_csv speaker names
              {| columns := columns d1; rows := said_by speaker d1 |})
    as (out & Hout & Hrows).
  { intros n Hn. apply Hfiles. by right. }
  exists out. split.
  - rewrite (get_quotes_unfold _ _ _ _ first names Hscan).
    unfold mbind at 1 2, result_bind at 1 2.
    by rewrite Hd1, filter_eq_speaker.
  - rewrite Hrows. cbn [flat_map]. unfold chunk_rows at 2. by rewrite Hd1.
Qed.

(** X12: chunk a year of quotes under the name 'quotes-<year>', then ask
    for a speaker of that year: the scanner accepts every archive name of
    the run, and when the directory lists the archives in batch order and
    the archives written read back as tables of one schema with a 'speaker'
    column, get_quotes returns exactly the rows by that speaker of those
    tables, batch after batch, one table for each of the ceil(L / C)
    batches of the L lines of the source. *)
Theorem chunkify_then_get_quotes {bytes : Type}
    (read_json_lines : bytes → result (list (result (option string))))
    (read_json : list string → result DataFrame)
    (to_csv : DataFrame → bytes) (bz2_compress : bytes → bytes)
    (read_back : bytes → option DataFrame)
    (os_listdir : string → result (list string))
    (filepath : string) (chunk_size : Z) (y : Z)
    (fs : gmap string bytes) (source : bytes)
    (lines : list (result (option string)))
    (tables backs : list DataFrame) (speaker : string) :
  (1 ≤ chunk_size)%Z →
  fs !! filepath = Some source →
  read_json_lines source = Ok lines →
  lines ≠ [] →
  Forall2 (λ batch chunk, next_chunk read_json batch = Ok chunk)
          (chunks (Z.to_nat chunk_size) lines) tables →
  Forall2 (λ chunk back, read_back (bz2_compress (to_csv chunk)) = Some back)
          tables backs →
  Forall (λ back, "speaker" ∈ columns back) backs →
  same_schema backs = true →
  find_csv_filenames os_listdir "Data/" (PyInt y)
  = Ok (map (λ i, chunk_name ("quotes-" +:+ pretty y) (1 + Z.of_nat i))
            (seq 0 (length tables))) →
  (∀ b, startswith (chunk_name ("quotes-" +:+ pretty y) b)
                   ("quotes-" +:+ str (PyInt y) +:+ "-") = true)
  ∧ ∃ fs' df_all,
      chunkify read_json_lines read_json to_csv bz2_compress
        filepath chunk_size ("quotes-" +:+ pretty y) fs
      = (Ok (), fs')
      ∧ get_quotes os_listdir (read_csv_from read_back fs') speaker (PyInt y)
        = Ok df_all
      ∧ rows df_all = flat_map (said_by speaker) backs
      ∧ length backs = ceil_div (length lines) (Z.to_nat chunk_size).
Proof.
  intros HC Hsrc Hjson Hne Htables Hbacks Hspeaker _ Hscan.
  split; [apply chunk_name_startswith|].
  set (out := "quotes-" +:+ pretty y) in *.
  set (C := Z.to_nat chunk_size) in *.
  assert (1 ≤ C)%nat as HC' by (subst C; lia).
  destruct (chunks_spec C lines HC') as (Hcat & Hlen & _).
  destruct (chunkify_run read_json_lines read_json to_csv bz2_compress
              filepath chunk_size out fs source lines tables
              HC Hsrc Hjson Htables)
    as (fs' & Hrun & Hbz & _).
  pose proof (Forall2_length _ _ _ Htables) as Hlen1.
  pose proof (Forall2_length _ _ _ Hbacks) as Hlen2.
  assert (∀ i back, backs !! i = Some back →
            read_csv_from read_back fs'
              ("Data/" +:+ chunk_name out (1 + Z.of_nat i))
            = Ok back) as Hread.
  { intros i back Hi.
    destruct (Forall2_lookup_r _ _ _ _ _ Hbacks Hi) as (chunk & Hchunk & Hback).
    unfold read_csv_from.
    rewrite chunk_name_path, (Hbz i chunk Hchunk). unfold chunk_archive.
    by rewrite Hback. }
  destruct (get_quotes_run os_listdir (read_csv_from read_back fs') speaker
              (PyInt y) _ Hscan) as (df_all & Hget & Hrows).
  { rewrite <- Hlen1. fold C.
    destruct (chunks C lines) as [|b bs] eqn:Hb; [|done].
    rewrite <- Hcat in Hne. done. }
  { intros name (i & <- & Hi)%list_elem_of_In%in_map_iff.
    apply in_seq in Hi as [_ Hi]. rewrite Hlen2 in Hi. simpl in Hi.
    destruct (lookup_lt_is_Some_2 backs i Hi) as [back Hback].
    exists back. split; [by apply Hread|].
    rewrite Forall_forall in Hspeaker. apply Hspeaker.
    by eapply list_elem_of_lookup_2. }
  exists fs', df_all. split; [exact Hrun|]. split; [exact Hget|].
  split; [|by rewrite <- Hlen2, <- Hlen1, Hlen].
  rewrite Hrows.
  rewrite flat_map_concat_map, map_map, <- flat_map_concat_map.
  rewrite Hlen2.
  apply (flat_map_seq_lookup _ (λ back, said_by speaker back) backs 0).
  intros i back Hi. unfold chunk_rows. cbn [Nat.add]. by rewrite (Hread i back Hi).
Qed.

Lemma chunkify_then_get_quotes_witness :
  ∃ fs' df_all,
    chunkify Sample.read_json_lines Sample.read_json Sample.Csv Sample.Bz2
      "quotes-2020.json.bz2" 2 "quotes-2020" Sample.disk = (Ok (), fs')
    ∧ get_quotes
        (λ _, Ok ["quotes-2020-1.csv.bz2"; "quotes-2020-2.csv.bz2";
                  "quotes-2020-3.csv.bz2"])
        (read_csv_from Sample.read_back fs') "A" (PyInt 2020) = Ok df_all
    ∧ rows df_all = flat_map (said_by "A") Sample.quotebank_tables
    ∧ length Sample.quotebank_tables = ceil_div 5 2.
Proof.
  destruct (chunkify_then_get_quotes Sample.read_json_lines Sample.read_json
              Sample.Csv Sample.Bz2 Sample.read_back
              (λ _, Ok ["quotes-2020-1.csv.bz2"; "quotes-2020-2.csv.bz2";
                        "quotes-2020-3.csv.bz2"])
              "quotes-2020.json.bz2" 2 2020 Sample.disk
              (Sample.Bz2 (Sample.Json (map Some Sample.quotebank)))
              (map Ok (map Some Sample.quotebank))
              Sample.quotebank_tables Sample.quotebank_tables "A")
    as [_ (fs' & df_all & Hrun & Hget & Hrows & Hlen)].
  - lia.
  - reflexivity.
  - reflexivity.
  - discriminate.
  - repeat constructor.
  - repeat constructor.
  - repeat constructor; apply (bool_decide_unpack _); vm_compute; exact I.
  - vm_compute. reflexivity.
  - reflexivity.
  - exists fs', df_all. auto.
Defined.

(** ** Repeated quotes *)

Lemma drop_dups_app cols seen l1 l2 :
  pd.drop_dups cols seen (l1 ++ l2)
  = pd.drop_dups cols seen l1 ++ pd.drop_dups cols (seen ++ l1) l2.
Proof.
  revert seen. induction l1 as [|r l1 IH]; intros seen.
  - by rewrite app_nil_r.
  - cbn [app pd.drop_dups]. rewrite IH, <- app_assoc. cbn [app].
    by destruct (existsb _ seen).
Qed.

Lemma drop_dups_all_seen cols seen l :
  (∀ x, x ∈ l → ∃ s, s ∈ seen ∧ pd.same_row cols x s = true) →
  pd.drop_dups cols seen l = [].
Proof.
  revert seen. induction l as [|r l IH]; intros seen H; [reflexivity|].
  cbn [pd.drop_dups].
  destruct (H r (list_elem_of_here _ _)) as (s & Hs & Hsame).
  assert (existsb (pd.same_row cols r) seen = true) as ->.
  { apply existsb_exists. exists s. split; [by apply list_elem_of_In|done]. }
  apply IH. intros x Hx.
  destruct (H x (list_elem_of_further _ _ _ Hx)) as (s' & Hs' & Hsame').
  exists s'. split; [apply elem_of_app; by left | done].
Qed.

(** X13: quotes that occur again further down the table add nothing: for a
    table made of the rows of [d] followed by rows that all occur in [d],
    create_org_df returns a table equal to the one it returns for [d]. *)
Theorem create_org_df_repeated_quotes
    (spacy_load : string → result (string → list Entity))
    (spacy_model : string) (spacy_nlp : string → list Entity)
    (h : gmap nat DataFrame) (df df' : nat) (d d' : DataFrame)
    (again : list (gmap string value)) :
  h !! df = Some d →
  h !! df' = Some d' →
  spacy_load spacy_model = Ok spacy_nlp →
  Forall (λ c, c ∈ columns d)
         ["quotation"; "date"; "numOccurrences"; "quoteID"; "probas"] →
  forallb (λ r, is_str (cell r "quotation")) (rows d) = true →
  columns d' = columns d →
  rows d' = rows d ++ again →
  Forall (λ r, r ∈ rows d) again →
  ∃ org_df,
    create_org_df spacy_load spacy_model df h
    = (Ok (fresh (dom h)), <[fresh (dom h) := org_df]> h)
    ∧ create_org_df spacy_load spacy_model df' h
      = (Ok (fresh (dom h)), <[fresh (dom h) := org_df]> h).
Proof.
  intros Hd Hd' Hload Hcols Hstr Hcols' Hrows' Hagain.
  assert (forallb (λ r, is_str (cell r "quotation")) (rows d') = true) as Hstr'.
  { rewrite Hrows', forallb_app, Hstr. cbn [andb].
    apply forallb_forall. intros r Hr%list_elem_of_In.
    rewrite Forall_forall in Hagain. rewrite forallb_forall in Hstr.
    by apply Hstr, list_elem_of_In, Hagain. }
  rewrite <- Hcols' in Hcols.
  rewrite (create_org_df_run spacy_load spacy_model spacy_nlp h df' d'
             Hd' Hload Hcols Hstr').
  rewrite Hcols' in Hcols.
  rewrite (create_org_df_run spacy_load spacy_model spacy_nlp h df d
             Hd Hload Hcols Hstr).
  eexists. split; [reflexivity|].
  set (m := mention_rows spacy_nlp d).
  set (extra := flat_map (λ r, map (mention_row r) (org_mentions spacy_nlp r)) again).
  assert (mention_rows spacy_nlp d' = m ++ extra) as Hm'.
  { unfold mention_rows. by rewrite Hrows', flat_map_app. }
  assert (∀ x, x ∈ extra → x ∈ m) as Hextra.
  { intros x Hx. apply list_elem_of_In, in_flat_map in Hx as (r & Hr & Hx).
    apply list_elem_of_In, in_flat_map. exists r. split; [|assumption].
    rewrite Forall_forall in Hagain. by apply list_elem_of_In, Hagain, list_elem_of_In. }
  rewrite Hm'.
  assert (match m ++ extra with [] => [] | _ => org_columns end
          = match m with [] => [] | _ => org_columns end) as ->.
  { destruct m as [|x m']; [|reflexivity].
    destruct extra as [|x extra']; [reflexivity|].
    pose proof (Hextra x (list_elem_of_here _ _)) as Hx.
    by apply elem_of_nil in Hx. }
  rewrite drop_dups_app. cbn [app].
  rewrite (drop_dups_all_seen _ m extra); [by rewrite app_nil_r|].
  intros x Hx. exists x. split; [by apply Hextra | apply same_row_refl].
Qed.

Lemma create_org_df_repeated_quotes_witness :
  ∃ org_df,
    create_org_df Sample.spacy_load "en_core_web_sm" 0 Sample.tesla_store
    = (Ok (fresh (dom Sample.tesla_store)),
       <[fresh (dom Sample.tesla_store) := org_df]> Sample.tesla_store)
    ∧ create_org_df Sample.spacy_load "en_core_web_sm" 1 Sample.tesla_store
      = (Ok (fresh (dom Sample.tesla_store)),
         <[fresh (dom Sample.tesla_store) := org_df]> Sample.tesla_store).
Proof.
  apply (create_org_df_repeated_quotes Sample.spacy_load "en_core_web_sm"
           Sample.ner Sample.tesla_store 0 1 Sample.tesla Sample.tesla_twice
           (rows Sample.tesla)).
  - reflexivity.
  - reflexivity.
  - reflexivity.
  - repeat constructor; apply (bool_decide_unpack _); vm_compute; exact I.
  - vm_compute. reflexivity.
  - reflexivity.
  - reflexivity.
  - apply Forall_forall. auto.
Defined.

(** ** Writer and Yearly Combiner *)

Lemma new_labels_sub c l1 l2 : c ∈ pd.new_labels l1 l2 → c ∈ l2.
Proof.
  revert l1. induction l2 as [|x l2 IH]; intros l1; cbn [pd.new_labels].
  - done.
  - destruct (bool_decide (x ∈ l1)).
    + intros H. right. by eapply IH.
    + intros [->|H]%elem_of_cons; [by left|]. right. by eapply IH.
Qed.

Lemma concat_all_rows d li :
  rows (foldl pd.concat d li) = rows d ++ flat_map rows li.
Proof.
  revert d. induction li as [|d' li IH]; intros d; cbn [foldl flat_map].
  - by rewrite app_nil_r.
  - rewrite IH. cbn [pd.concat rows]. by rewrite app_assoc.
Qed.

Lemma concat_all_columns c d li :
  c ∈ columns (foldl pd.concat d li)
  ↔ c ∈ columns d ∨ ∃ d', d' ∈ li ∧ c ∈ columns d'.
Proof.
  revert d. induction li as [|d' li IH]; intros d; cbn [foldl].
  - split; [by left|]. intros [H|(d' & H & _)]; [done|]. by apply elem_of_nil in H.
  - rewrite IH. cbn [pd.concat columns]. rewrite elem_of_app. split.
    + intros [[H|H]|(d'' & Hd & H)].
      * by left.
      * right. exists d'. split; [by left|]. by eapply new_labels_sub.
      * right. exists d''. split; [by right|done].
    + intros [H|(d'' & Hd & H)]; [by left; left|].
      apply elem_of_cons in Hd as [->|Hd].
      * left. by apply new_labels_elem.
      * right. by exists d''.
Qed.

Section YearlyFiles.

Context {bytes : Type}.
Variable to_csv_file : string → DataFrame → bytes.
Variable read_csv_file : string → bytes → result DataFrame.
Variable glob_glob : gmap string bytes → string → list string.

(** Reading leaves the files as they are. *)
Lemma read_csv_files (path : string) (fs : gmap string bytes) :
  (read_csv read_csv_file path fs).2 = fs.
Proof.
  unfold read_csv, read, lift, mbind, St_bind.
  by destruct (fs !! path).
Qed.

Lemma read_csv_pair path (fs : gmap string bytes) :
  read_csv read_csv_file path fs = ((read_csv read_csv_file path fs).1, fs).
Proof.
  rewrite <- (read_csv_files path fs) at 3. by destruct (read_csv _ _ _).
Qed.

Lemma stmapM_read_ok (files : list string) (fs : gmap string bytes) li :
  Forall2 (λ filename d, (read_csv read_csv_file filename fs).1 = Ok d)
          files li →
  stmapM (λ filename, read_csv read_csv_file filename) files fs = (Ok li, fs).
Proof.
  induction 1 as [|filename d files li Hd _ IH]; [reflexivity|].
  cbn [stmapM]. unfold mbind, St_bind at 1.
  rewrite read_csv_pair, Hd.
  unfold St_bind. by rewrite IH.
Qed.

Lemma stmapM_read_inv (files : list string) (fs fs' : gmap string bytes) r :
  stmapM (λ filename, read_csv read_csv_file filename) files fs = (r, fs') →
  fs' = fs
  ∧ match r with
    | Ok li => Forall2 (λ filename d,
                          (read_csv read_csv_file filename fs).1 = Ok d)
                       files li
    | Err e => ∃ filename, filename ∈ files
                 ∧ (read_csv read_csv_file filename fs).1 = Err e
    end.
Proof.
  revert r fs'. induction files as [|filename files IH]; intros r fs'.
  - intros [= <- <-]. split; [done|constructor].
  - cbn [stmapM]. unfold mbind, St_bind at 1.
    rewrite read_csv_pair.
    destruct (read_csv read_csv_file filename fs).1 as [d|e] eqn:Hd.
    + unfold St_bind.
      destruct (stmapM _ files fs) as [[li|e] fs''] eqn:Hli.
      * destruct (IH _ _ eq_refl) as [-> Hall].
        intros [= <- <-]. split; [done|]. by constructor.
      * destruct (IH _ _ eq_refl) as [-> (f & Hf & He)].
        intros [= <- <-]. split; [done|]. exists f. split; [by right|done].
    + intros [= <- <-]. split; [done|]. exists filename. split; [by left|done].
Qed.

Lemma combining_yearly_quotes_run (fs : gmap string bytes)
    (speaker : string) (d : DataFrame) (li : list DataFrame) :
  Forall2 (λ filename d, (read_csv read_csv_file filename fs).1 = Ok d)
          (glob_glob fs (yearly_pattern speaker)) (d :: li) →
  combining_yearly_quotes to_csv_file read_csv_file glob_glob speaker fs
  = (Ok (), <[combined_path speaker :=
                to_csv_file (combined_path speaker) (foldl pd.concat d li)]> fs).
Proof.
  intros Hread.
  unfold combining_yearly_quotes. unfold mbind at 1, St_bind at 1.
  fold (yearly_pattern speaker).
  unfold mbind at 1, St_bind at 1.
  rewrite (stmapM_read_ok _ fs (d :: li) Hread).
  reflexivity.
Qed.


(** X14: when the files the glob reports read as tables of one schema (the
    same columns, each with one type of number over all the files), and
    there is at least one, combining_yearly_quotes returns normally and
    changes one file only, 'Data/all-<speaker>-quotes.csv.bz2'; the table
    written there has the rows of the files, file after file in glob order,
    and its columns are exactly the columns of the files. *)
Theorem combining_yearly_quotes_writes (fs : gmap string bytes)
    (speaker : string) (tables : list DataFrame) :
  tables ≠ [] →
  Forall2 (λ filename d, (read_csv read_csv_file filename fs).1 = Ok d)
          (glob_glob fs (yearly_pattern speaker)) tables →
  same_schema tables = true →
  ∃ frame,
    combining_yearly_quotes to_csv_file read_csv_file glob_glob speaker fs
    = (Ok (), <[combined_path speaker :=
                  to_csv_file (combined_path speaker) frame]> fs)
    ∧ rows frame = flat_map rows tables
    ∧ ∀ c, c ∈ columns frame ↔ ∃ d, d ∈ tables ∧ c ∈ columns d.
Proof.
  intros Hne Hread _. destruct tables as [|d li]; [done|].
  exists (foldl pd.concat d li). split; [|split].
  - by apply combining_yearly_quotes_run.
  - rewrite concat_all_rows. reflexivity.
  - intros c. rewrite concat_all_columns. split.
    + intros [H|(d' & Hd & H)]; [exists d; split; [by left|done]|].
      exists d'. split; [by right|done].
    + intros (d' & [->|Hd]%elem_of_cons & H); [by left|].
      right. by exists d'.
Qed.

(** X15: combining_yearly_quotes writes nothing when it raises: the files
    are as they were, and either the glob reported no file and the exception
    is ValueError (nothing to concatenate), or it is the exception of
    reading one of the reported files. *)
Theorem combining_yearly_quotes_failure (fs fs' : gmap string bytes)
    (speaker : string) (e : exn) :
  combining_yearly_quotes to_csv_file read_csv_file glob_glob speaker fs
  = (Err e, fs') →
  fs' = fs
  ∧ (glob_glob fs (yearly_pattern speaker) = [] ∧ e = ValueError
     ∨ ∃ filename, filename ∈ glob_glob fs (yearly_pattern speaker)
         ∧ (read_csv read_csv_file filename fs).1 = Err e).
Proof.
  unfold combining_yearly_quotes. unfold mbind at 1, St_bind at 1.
  fold (yearly_pattern speaker).
  unfold mbind at 1, St_bind at 1.
  destruct (stmapM _ (glob_glob fs (yearly_pattern speaker)) fs)
    as [[li|e'] fs''] eqn:Hli;
    destruct (stmapM_read_inv _ _ _ _ Hli) as [-> H].
  - destruct li as [|d li].
    + intros [= <- <-]. split; [done|]. left. split; [|done].
      by inversion H.
    + discriminate.
  - intros [= <- <-]. split; [done|]. by right.
Qed.


End YearlyFiles.

Lemma combining_yearly_quotes_writes_witness :
  ∃ frame,
    combining_yearly_quotes Sample.to_csv_file Sample.read_csv_file
      Sample.glob_glob "A" Sample.yearly
    = (Ok (), <[combined_path "A" :=
                  Sample.to_csv_file (combined_path "A") frame]> Sample.yearly)
    ∧ rows frame = flat_map rows [Sample.y2020; Sample.y2019]
    ∧ ∀ c, c ∈ columns frame
           ↔ ∃ d, d ∈ [Sample.y2020; Sample.y2019] ∧ c ∈ columns d.
Proof.
  apply (combining_yearly_quotes_writes Sample.to_csv_file Sample.read_csv_file
           Sample.glob_glob Sample.yearly "A" [Sample.y2020; Sample.y2019]).
  - discriminate.
  - repeat constructor.
  - vm_compute. reflexivity.
Defined.

Lemma combining_yearly_quotes_failure_witness :
  Sample.yearly = Sample.yearly
  ∧ (Sample.glob_glob Sample.yearly (yearly_pattern "B") = [] ∧ OSError = ValueError
     ∨ ∃ filename, filename ∈ Sample.glob_glob Sample.yearly (yearly_pattern "B")
         ∧ (read_csv Sample.read_csv_file filename Sample.yearly).1 = Err OSError).
Proof.
  apply (combining_yearly_quotes_failure Sample.to_csv_file Sample.read_csv_file
           Sample.glob_glob Sample.yearly Sample.yearly "B" OSError).
  vm_compute. reflexivity.
Defined.



(** ** Plotter *)

(** A key that is the same as [v] is counted once among keys without
    repeats. *)
Lemma no_repeat_one_match ks v :
  no_repeat ks = true →
  existsb (λ k, pd.same_cell k v) ks = true →
  sum_list (map (λ k, if pd.same_cell k v then 1%nat else 0%nat) ks) = 1%nat.
Proof.
  induction ks as [|k ks IH]; [discriminate|].
  cbn [no_repeat existsb map sum_list].
  intros [Hk Hks]%andb_true_iff. apply negb_true_iff in Hk.
  destruct (pd.same_cell k v) eqn:Hkv.
  - intros _.
    assert (sum_list (map (λ k', if pd.same_cell k' v then 1%nat else 0%nat) ks)
            = 0%nat) as ->; [|reflexivity].
    clear IH Hks. induction ks as [|k' ks IH]; [reflexivity|].
    cbn [existsb] in Hk. apply orb_false_iff in Hk as [Hkk' Hk].
    cbn [map sum_list]. rewrite (IH Hk).
    destruct (pd.same_cell k' v) eqn:Hk'v; [|reflexivity].
    rewrite (same_cell_trans k v k') in Hkk'; [discriminate|done|].
    by rewrite same_cell_sym.
  - cbn [orb]. intros Hex. by rewrite (IH Hks Hex).
Qed.

(** The sizes of the groups add up to the number of keys. *)
Lemma group_sizes_total ks keys :
  one_per_group ks keys = true →
  sum_list (map (λ k, length (List.filter (pd.same_cell k) keys)) ks)
  = length keys.
Proof.
  unfold one_per_group. intros [Hks Hall]%andb_true_iff.
  induction keys as [|v keys IH].
  - cbn [List.filter length]. clear Hks Hall.
    induction ks as [|k ks IH]; [reflexivity|]. cbn [map sum_list]. by rewrite IH.
  - cbn [forallb] in Hall. apply andb_true_iff in Hall as [Hv Hall].
    cbn [length]. rewrite <- (IH Hall).
    change (S ?n) with (1 + n)%nat.
    rewrite <- (no_repeat_one_match ks v Hks Hv).
    clear. induction ks as [|k ks IH]; [reflexivity|].
    cbn [map sum_list]. rewrite IH. cbn [List.filter].
    destruct (pd.same_cell k v); cbn [length]; unfold id; lia.
Qed.

Section PlotterFacts.

Variable group_keys : list value → list value.
Variable draw : BarChart → result ().

(** The run of the plotter on a table with an 'ORG' column. *)
Lemma plot_by_org_run (h : gmap nat DataFrame) (df : nat) (d : DataFrame)
    (organisation : string) :
  h !! df = Some d →
  "ORG" ∈ columns d →
  plot_by_org group_keys draw df organisation h
  = (if bool_decide ("year" ∈ columns d)
     then draw (year_chart group_keys organisation (org_years organisation d))
     else if (length (org_rows organisation d) =? 1)%nat
          then draw (year_chart group_keys organisation [VStr "year"])
          else Err (KeyError "year"),
     <[fresh (dom h) := {| columns := columns d;
                           rows := org_rows organisation d |}]> h).
Proof.
  intros Hd Horg.
  unfold plot_by_org, groupby_size. run. rewrite Hd. cbn [default]. unfold id.
  rewrite (getitem_ok "ORG" d Horg). cbn [fst snd].
  unfold pd.getitem_mask. rewrite !length_map, Nat.eqb_refl. cbn [fst snd].
  rewrite lookup_insert_eq. cbn [default]. unfold id.
  rewrite map_map.
  rewrite (mask_rows_filter (λ r, pd.eq_str organisation (cell r "ORG"))).
  fold (org_rows organisation d). cbn [columns rows].
  destruct (bool_decide ("year" ∈ columns d)) eqn:Hyear.
  - apply bool_decide_eq_true in Hyear.
    rewrite getitem_ok by exact Hyear. reflexivity.
  - destruct (length (org_rows organisation d) =? 1)%nat; reflexivity.
Qed.

(** X17: a table made by create_org_df has no 'year' column, and
    plot_by_org never shows its quotes by year: the call raises KeyError
    for 'ORG' when no organization was found (the table has no column at
    all), and KeyError for 'year' when no row or several rows of the table
    are about the organisation; when exactly one row is, the one-item list
    of keys is taken for the group label of that row, and the chart drawn
    has the single bar 'year', of height 1. *)
Theorem plot_by_org_after_create_org_df
    (spacy_load : string → result (string → list Entity))
    (spacy_model : string) (spacy_nlp : string → list Entity)
    (h : gmap nat DataFrame) (df : nat) (d : DataFrame)
    (organisation : string) :
  h !! df = Some d →
  spacy_load spacy_model = Ok spacy_nlp →
  Forall (λ c, c ∈ columns d)
         ["quotation"; "date"; "numOccurrences"; "quoteID"; "probas"] →
  forallb (λ r, is_str (cell r "quotation")) (rows d) = true →
  one_number_type ["date"; "numOccurrences"; "quoteID"; "probas"] (rows d)
  = true →
  group_keys [VStr "year"] = [VStr "year"] →
  ∃ org_df,
    create_org_df spacy_load spacy_model df h
    = (Ok (fresh (dom h)), <[fresh (dom h) := org_df]> h)
    ∧ ("year" ∉ columns org_df)
    ∧ (plot_by_org group_keys draw (fresh (dom h)) organisation
         (<[fresh (dom h) := org_df]> h)).1
      = match rows org_df with
        | [] => Err (KeyError "ORG")
        | _ =>
            if (length (org_rows organisation org_df) =? 1)%nat
            then draw {| bars := [(VStr "year", 1%nat)];
                         xlabel := "Years";
                         ylabel := "Number of quotes of Elon Musk about"
                                   +:+ organisation |}
            else Err (KeyError "year")
        end.
Proof.
  intros Hd Hload Hcols Hstr _ Hkeys.
  rewrite (create_org_df_run spacy_load spacy_model spacy_nlp h df d
             Hd Hload Hcols Hstr).
  eexists. split; [reflexivity|].
  destruct (mention_rows spacy_nlp d) as [|r m] eqn:Hm.
  - split; [apply not_elem_of_nil|].
    cbn [rows pd.drop_dups].
    unfold plot_by_org. run. rewrite lookup_insert_eq. reflexivity.
  - assert ("year" ∉ org_columns) as Hyear.
    { intros H. apply (bool_decide_pack _) in H. vm_compute in H. exact H. }
    split; [exact Hyear|].
    rewrite (plot_by_org_run _ _ _ organisation (lookup_insert_eq _ _ _))
      by (cbn [columns]; apply (bool_decide_unpack _); vm_compute; exact I).
    cbn [fst columns]. rewrite (bool_decide_eq_false_2 _ Hyear).
    cbn [rows pd.drop_dups existsb].
    destruct (length _ =? 1)%nat; [|reflexivity].
    unfold year_chart. rewrite Hkeys. reflexivity.
Qed.

(** X18: on a table with the columns 'ORG' and 'year', when the group keys
    hold one key per year, plot_by_org hands to the drawing a chart with one
    bar per group key, whose heights add up to the number of rows about the
    organisation that have a year; the table behind the caller's reference
    is left as it was. *)
Theorem plot_by_org_bar_total (h : gmap nat DataFrame) (df : nat)
    (d : DataFrame) (organisation : string) :
  h !! df = Some d →
  "ORG" ∈ columns d →
  "year" ∈ columns d →
  one_per_group (group_keys (org_years organisation d))
                (org_years organisation d) = true →
  ∃ chart,
    (plot_by_org group_keys draw df organisation h).1 = draw chart
    ∧ map fst (bars chart) = group_keys (org_years organisation d)
    ∧ sum_list (map snd (bars chart)) = length (org_years organisation d)
    ∧ (plot_by_org group_keys draw df organisation h).2 !! df = Some d.
Proof.
  intros Hd Horg Hyear Hkeys.
  rewrite (plot_by_org_run h df d organisation Hd Horg).
  rewrite (bool_decide_eq_true_2 _ Hyear). cbn [fst snd].
  eexists. split; [reflexivity|].
  unfold year_chart. cbn [bars]. split; [|split].
  - rewrite map_map. cbn [fst]. apply map_id.
  - rewrite map_map. cbn [snd]. by apply group_sizes_total.
  - rewrite lookup_insert_ne; [done|]. by eapply fresh_store_ne.
Qed.

End PlotterFacts.

(** The quote "Tesla Tesla": the table returned has one row about Tesla and
    one about SpaceX; asked for Tesla, the plotter draws the single bar
    'year'. *)
Lemma plot_by_org_after_create_org_df_witness :
  (∃ org_df,
     create_org_df Sample.spacy_load "en_core_web_sm" 0 Sample.tesla_store
     = (Ok (fresh (dom Sample.tesla_store)),
        <[fresh (dom Sample.tesla_store) := org_df]> Sample.tesla_store)
     ∧ ("year" ∉ columns org_df))
  ∧ ((org_df ← create_org_df Sample.spacy_load "en_core_web_sm" 0;
      plot_by_org Sample.group_keys Sample.draw org_df "Tesla")
       Sample.tesla_store).1 = Ok ()
  ∧ ((org_df ← create_org_df Sample.spacy_load "en_core_web_sm" 0;
      plot_by_org Sample.group_keys Sample.draw org_df "Apple")
       Sample.tesla_store).1 = Err (KeyError "year").
Proof.
  split; [|split; vm_compute; reflexivity].
  destruct (plot_by_org_after_create_org_df Sample.group_keys Sample.draw
              Sample.spacy_load "en_core_web_sm" Sample.ner Sample.tesla_store
              0 Sample.tesla "Tesla")
    as (org_df & Hrun & Hyear & _).
  - reflexivity.
  - reflexivity.
  - repeat constructor; apply (bool_decide_unpack _); vm_compute; exact I.
  - vm_compute. reflexivity.
  - vm_compute. reflexivity.
  - vm_compute. reflexivity.
  - exists org_df. split; [exact Hrun | exact Hyear].
Defined.

Lemma plot_by_org_bar_total_witness :
  ∃ chart,
    (plot_by_org Sample.group_keys Sample.draw 0 "Tesla"
       {[ 0%nat := Sample.by_year ]}).1 = Sample.draw chart
    ∧ map fst (bars chart) = Sample.group_keys (org_years "Tesla" Sample.by_year)
    ∧ sum_list (map snd (bars chart))
      = length (org_years "Tesla" Sample.by_year)
    ∧ (plot_by_org Sample.group_keys Sample.draw 0 "Tesla"
         {[ 0%nat := Sample.by_year ]}).2 !! 0%nat = Some Sample.by_year.
Proof.
  apply (plot_by_org_bar_total Sample.group_keys Sample.draw
           {[ 0%nat := Sample.by_year ]} 0 Sample.by_year "Tesla").
  - reflexivity.
  - apply (bool_decide_unpack _); vm_compute; exact I.
  - apply (bool_decide_unpack _); vm_compute; exact I.
  - vm_compute. reflexivity.
Defined.
